(** * HomeworkPrinter: equation synthesizer and page layout

  A shallow embedding of the three worksheet generators of the repository

    - [Hannah/generate_equation_system.py]            (variant [Hannah])
    - [src/math/generate_liner_equation_system.py]    (variant [Fixed])
    - [src/math/generate_liner_equation_system.1.py]  (variant [Dynamic])

  Python integers are [Z], counts and indices that the code only uses as
  non-negative loop bounds are [nat] and [str] is [string].  The page
  coordinates are IEEE doubles in the source, built from [letter] and [mm].
  The three generator modules compute them as exact rationals [Q]; what is
  stated of them is the structure of a page and comparisons whose outcome
  the rounding of doubles does not change.  The column loop of the dynamic
  generator, whose bottom check can fall either way on a tie, is given a
  second time in [Floating], over float operations that are left
  uninterpreted and of which the doubles ([PrimFloat]) are an instance. *)

From Stdlib Require Import ZArith QArith Qround List Bool Lia.
From Stdlib Require Import Strings.String Strings.Ascii Numbers.DecimalString.
From Stdlib Require Import Lqa Sorted.
From Stdlib Require Floats Uint63.
Import ListNotations.

Open Scope string_scope.
Open Scope Z_scope.

(** ** Python built-ins used by the generators *)

Module Py.

(** [str(n)] for an integer. *)
Definition str (n : Z) : string := NilZero.string_of_int (Z.to_int n).

(** [s.startswith(p)]. *)
Fixpoint startswith (p s : string) : bool :=
  match p, s with
  | EmptyString, _ => true
  | String _ _, EmptyString => false
  | String a p', String b s' => Ascii.eqb a b && startswith p' s'
  end.

(** [old in s]. *)
Fixpoint contains (old s : string) : bool :=
  startswith old s ||
  match s with
  | EmptyString => false
  | String _ s' => contains old s'
  end.

(** [s.replace(old, new)] for a non-empty [old]: a left-to-right scan that
    replaces every non-overlapping occurrence.  [skip] counts the characters
    of a matched occurrence that are still to be stepped over. *)
Fixpoint replace_from (old new : string) (skip : nat) (s : string) : string :=
  match s with
  | EmptyString => EmptyString
  | String c s' =>
      match skip with
      | S k => replace_from old new k s'
      | O =>
          if startswith old s
          then new ++ replace_from old new (Nat.pred (String.length old)) s'
          else String c (replace_from old new O s')
      end
  end.

Definition replace (old new s : string) : string := replace_from old new O s.

(** [sep.join(parts)]. *)
Fixpoint join (sep : string) (parts : list string) : string :=
  match parts with
  | [] => ""
  | [p] => p
  | p :: rest => p ++ sep ++ join sep rest
  end.

(** [list(range(lo, lo + n))]. *)
Definition range (lo : Z) (n : nat) : list Z :=
  map (fun i => lo + Z.of_nat i) (seq 0 n).

(** [l[start:stop]] for non-negative bounds. *)
Definition slice {A} (l : list A) (start stop : nat) : list A :=
  firstn (stop - start) (skipn start l).

(** [enumerate(l)]. *)
Definition enumerate {A} (l : list A) : list (nat * A) :=
  combine (seq 0 (List.length l)) l.

End Py.

(** ** The three source files *)

Inductive Variant := Hannah | Fixed | Dynamic.

(** ** Equation synthesizer: [generate_valid_equation_system] *)

Module Synth.

(** [values = list(range(-20, 21))]. *)
Definition values : list Z := Py.range (-20) 41.

(** The random source is the stream of outcomes of
    [random.choices(values, weights=weights, k=1)[0]]; the state threaded
    through the generator is the number of draws consumed so far. *)
Definition Source := nat -> Z.
Definition Rand (A : Type) : Type := Source -> nat -> A * nat.

Definition ret {A} (a : A) : Rand A := fun _ n => (a, n).
Definition bind {A B} (m : Rand A) (k : A -> Rand B) : Rand B :=
  fun rnd n => let (a, n') := m rnd n in k a rnd n'.

Declare Scope rand_scope.
Delimit Scope rand_scope with rand.
Notation "x <- m ;; k" := (bind m (fun x => k))
  (at level 61, m at next level, right associativity) : rand_scope.

Definition weighted_random : Rand Z := fun rnd n => (rnd n, S n).

Definition format_term (value : Z) (variable : string) : string :=
  if value =? 0 then ""
  else if value =? 1 then variable
  else if value =? -1 then "-" ++ variable
  else Py.str value ++ variable.

(** The f-string of one equation, before the clean-up. *)
Definition format_equation (v : Variant) (a b c : Z) : string :=
  let body := format_term a "x" ++ " + " ++ format_term b "y" ++ " = " ++ Py.str c in
  match v with
  | Hannah => "{ " ++ body ++ " }"
  | Fixed | Dynamic => body
  end.

(** The four replacements of the clean-up loop, in source order. *)
Definition fix1 (s : string) : string := Py.replace "+ -" "- " s.
Definition fix2 (s : string) : string := Py.replace "- -" "+ " s.
Definition fix3 (s : string) : string := Py.replace " 1x" " x" s.
Definition fix4 (s : string) : string := Py.replace " 1y" " y" s.

Definition fixup (s : string) : string := fix4 (fix3 (fix2 (fix1 s))).

(** The local variables of the generator when the [while True] loop breaks. *)
Record Drawn := mkDrawn {
  sol_x : Z; sol_y : Z;
  a1 : Z; b1 : Z; a2 : Z; b2 : Z;
  c1 : Z; c2 : Z
}.

Inductive Step := Continue | Break (d : Drawn).

(** One pass through the body of the [while True] loop. *)
Definition loop_body : Rand Step :=
  (x <- weighted_random ;;
   y <- weighted_random ;;
   a1 <- weighted_random ;;
   b1 <- weighted_random ;;
   a2 <- weighted_random ;;
   b2 <- weighted_random ;;
   if (a1 =? 0) || (b1 =? 0) || (a2 =? 0) || (b2 =? 0) then ret Continue
   else
     let c1 := a1 * x + b1 * y in
     let c2 := a2 * x + b2 * y in
     if (Z.abs c1 >? 120) || (Z.abs c2 >? 120) then ret Continue
     else ret (Break (mkDrawn x y a1 b1 a2 b2 c1 c2)))%rand.

(** The [while True] loop; [fuel] bounds the number of passes the model
    follows, the source has no bound. *)
Fixpoint rejection_loop (fuel : nat) (rnd : Source) (n : nat) : option (Drawn * nat) :=
  match fuel with
  | O => None
  | S fuel' =>
      match loop_body rnd n with
      | (Break d, n') => Some (d, n')
      | (Continue, n') => rejection_loop fuel' rnd n'
      end
  end.

(** An equation system as returned: [(equations, (x, y))]. *)
Definition Equations : Type := string * string.
Definition Solution : Type := Z * Z.
Definition Item : Type := Equations * Solution.

Definition build (v : Variant) (d : Drawn) : Item :=
  ((fixup (format_equation v (a1 d) (b1 d) (c1 d)),
    fixup (format_equation v (a2 d) (b2 d) (c2 d))),
   (sol_x d, sol_y d)).

Definition generate_valid_equation_system
    (v : Variant) (fuel : nat) (rnd : Source) (n : nat) : option (Item * nat) :=
  match rejection_loop fuel rnd n with
  | Some (d, n') => Some (build v d, n')
  | None => None
  end.

End Synth.

(** ** Canvas, units and the pieces shared by the three layouts *)

Module Canvas.
Import Synth.
Local Open Scope Q_scope.

(** [reportlab.lib.units] and [reportlab.lib.pagesizes]: lengths are points. *)
Definition inch : Q := 72.
Definition cm : Q := inch / 2.54.
Definition mm : Q := cm * 0.1.
Definition letter : Q * Q := (8.5 * inch, 11 * inch).

(** [a < b] on coordinates. *)
Definition Qltb (a b : Q) : bool := negb (Qle_bool b a).

Definition ofnat (n : nat) : Q := inject_Z (Z.of_nat n).

Inductive Exception := ZeroDivisionError.

(** How a call ends: it returns, it raises, or the model ran out of the fuel
    it gives to the rejection loop. *)
Inductive Result (A : Type) : Type :=
| Returned (a : A)
| Raised (e : Exception)
| OutOfFuel.
Arguments Returned {A} a.
Arguments Raised {A} e.
Arguments OutOfFuel {A}.

Definition rbind {A B} (m : Result A) (k : A -> Result B) : Result B :=
  match m with
  | Returned a => k a
  | Raised e => Raised e
  | OutOfFuel => OutOfFuel
  end.

Declare Scope result_scope.
Delimit Scope result_scope with result.
Notation "x <- m ;; k" := (rbind m (fun x => k))
  (at level 61, m at next level, right associativity) : result_scope.

(** [a / b] and [a // b] on floats. *)
Definition div (a b : Q) : Result Q :=
  if Qeq_bool b 0 then Raised ZeroDivisionError else Returned (a / b).
Definition floordiv (a b : Q) : Result Z :=
  if Qeq_bool b 0 then Raised ZeroDivisionError else Returned (Qfloor (a / b)).

(** The canvas calls the generators make. *)
Inductive Op :=
| SetFont (name : string) (size : Z)
| DrawString (x y : Q) (text : string)
| DrawRightString (x y : Q) (text : string).

(** One call [draw_equation(c, x, y, eq_num, equations, line_height)]. *)
Record DrawCall := mkCall {
  dc_x : Q;
  dc_y : Q;
  dc_eq_num : nat;
  dc_equations : Equations
}.

(** What a page loop mutates: the trace of [draw_equation] calls made on the
    canvas and the list [solutions]. *)
Record PageState := mkState {
  calls : list DrawCall;
  solutions : list Solution
}.

Definition empty_state : PageState := mkState [] [].

(** [solutions.append(solution)]. *)
Definition append_solution (s : Solution) (st : PageState) : PageState :=
  mkState (calls st) (solutions st ++ [s]).

Definition record_call (c : DrawCall) (st : PageState) : PageState :=
  mkState (calls st ++ [c]) (solutions st).

(** A [for] loop whose body may [break]: the body returns the new state and
    whether it broke out. *)
Fixpoint for_break {I S : Type} (body : I -> S -> S * bool) (iter : list I) (s : S) : S :=
  match iter with
  | [] => s
  | i :: rest =>
      let (s', broke) := body i s in
      if broke then s' else for_break body rest s'
  end.

(** A [for] loop whose body may raise. *)
Fixpoint for_each {I S : Type} (body : I -> S -> Result S) (iter : list I) (s : S) : Result S :=
  match iter with
  | [] => Returned s
  | i :: rest => rbind (body i s) (for_each body rest)
  end.

(** [f"{i+1}.({s[0]},{s[1]})"]. *)
Definition footer_entry (e : nat * Solution) : string :=
  let '(i, (s0, s1)) := e in
  Py.str (Z.of_nat (i + 1)) ++ ".(" ++ Py.str s0 ++ "," ++ Py.str s1 ++ ")".

(** ["  ".join([... for i, s in enumerate(solutions)])]. *)
Definition footer_text (solutions : list Solution) : string :=
  Py.join "  " (map footer_entry (Py.enumerate solutions)).

(** One finished page: the header calls, the [draw_equation] calls, the
    solutions collected and the footer string drawn at [footer_y]. *)
Record Page := mkPage {
  page_header : list Op;
  page_calls : list DrawCall;
  page_solutions : list Solution;
  page_footer : string
}.

(** What a call can hand back to its caller: [None], an [int] or a [str]. *)
Inductive PyValue :=
| None_
| Int_ (n : Z)
| Str_ (s : string).

(** What a run leaves behind, and what it hands back.  Every [create_pdf]
    ends by falling off its body or by a bare [return]: the value handed
    back is [None]. *)
Record Run := mkRun {
  stdout : list string;
  saved : option (list Page);
  returned : PyValue
}.

(** [while len(all_equations) < total: all_equations.append(generate())]. *)
Fixpoint pregenerate (v : Variant) (fuel : nat) (total : nat) (rnd : Source) (n : nat)
  : Result (list Item * nat) :=
  match total with
  | O => Returned ([], n)
  | S total' =>
      match generate_valid_equation_system v fuel rnd n with
      | None => OutOfFuel
      | Some (item, n') =>
          rbind (pregenerate v fuel total' rnd n')
                (fun r => Returned (item :: fst r, snd r))
      end
  end.

End Canvas.

(** ** [Hannah/generate_equation_system.py] *)

Module HannahGen.
Import Synth Canvas.
Local Open Scope Q_scope.

Record Layout := mkLayout {
  margin : Q;
  column_gap : Q;
  base_y : Q;
  line_height : Q;
  footer_y : Q;
  equations_per_page : nat;
  column_width : Q
}.

(** [params] carries [num_columns], [equations_per_column], [margin] and
    [column_gap]. *)
Definition calculate_layout (num_columns equations_per_column : nat)
    (p_margin p_column_gap : Q) : Result Layout :=
  let '(page_width, page_height) := letter in
  (w <- div (page_width - 2 * p_margin
             - inject_Z (Z.of_nat num_columns - 1) * p_column_gap)
            (ofnat num_columns) ;;
   Returned (mkLayout (15 * mm) (10 * mm) (page_height - 20 * mm) (7 * mm) (15 * mm)
                      (num_columns * equations_per_column) w))%result.

Definition lines (equations : Equations) : list string := [fst equations; snd equations].

(** The canvas calls of [draw_equation] and the [y] it returns. *)
Definition draw_equation (line_height : Q) (c : DrawCall) : list Op * Q :=
  let x := dc_x c in
  let y := dc_y c in
  (List.app
     [SetFont "Helvetica-Bold" 10;
      DrawString x y (Py.str (Z.of_nat (dc_eq_num c)) ++ ".");
      SetFont "Helvetica" 12]
     (map (fun ie => DrawString (x + 8 * mm) (y - ofnat (fst ie) * line_height) (snd ie))
          (Py.enumerate (lines (dc_equations c)))),
   y - ofnat (List.length (lines (dc_equations c)) + 1) * line_height).

(** Body of [for idx in range(params["equations_per_column"])]. *)
Definition item_step (L : Layout) (equations_per_column : nat) (equations : list Item)
    (page_num col : nat) (x : Q) (idx : nat) (s : Q * PageState) : (Q * PageState) * bool :=
  let '(y, st) := s in
  let eq_num :=
    ((page_num - 1) * equations_per_page L + col * equations_per_column + idx + 1)%nat in
  match nth_error equations (eq_num - 1) with
  | None => (s, true)
  | Some (equations_obj, solution) =>
      let st := append_solution solution st in
      let c := mkCall x y eq_num equations_obj in
      let y := snd (draw_equation (line_height L) c) in
      ((y, record_call c st), false)
  end.

(** Body of [for col in range(params["num_columns"])]. *)
Definition column (L : Layout) (num_columns equations_per_column : nat)
    (equations : list Item) (page_num : nat) (st : PageState) (col : nat) : PageState :=
  let x_positions :=
    map (fun i => margin L + ofnat i * (column_width L + column_gap L)) (seq 0 num_columns) in
  let y_positions := repeat (base_y L) num_columns in
  let x := nth col x_positions 0 in
  let y := nth col y_positions 0 in
  snd (for_break (item_step L equations_per_column equations page_num col x)
                 (seq 0 equations_per_column) (y, st)).

Definition print_page (L : Layout) (num_columns equations_per_column : nat)
    (equations : list Item) (page_num total_pages : nat) : Page :=
  let '(page_width, page_height) := letter in
  let header :=
    [SetFont "Helvetica" 8;
     DrawRightString (page_width - margin L) (page_height - 12 * mm)
       ("Page " ++ Py.str (Z.of_nat page_num) ++ "/" ++ Py.str (Z.of_nat total_pages))] in
  let st := fold_left (column L num_columns equations_per_column equations page_num)
                      (seq 0 num_columns) empty_state in
  mkPage header (calls st) (solutions st) (footer_text (solutions st)).

(** The [for p in range(page_num)] loop of [create_pdf]. *)
Definition pages (L : Layout) (all_equations : list Item)
    (num_columns equations_per_column page_num : nat) : list Page :=
  map (fun p =>
         let start_idx := (p * equations_per_page L)%nat in
         let end_idx := ((p + 1) * equations_per_page L)%nat in
         let page_equations := Py.slice all_equations start_idx end_idx in
         print_page L num_columns equations_per_column page_equations (p + 1) page_num)
      (seq 0 page_num).

Definition create_pdf (fuel : nat) (rnd : Source)
    (num_columns equations_per_column page_num : nat) : Result Run :=
  let total_equations := (num_columns * equations_per_column * page_num)%nat in
  (gen <- pregenerate Hannah fuel total_equations rnd 0 ;;
   L <- calculate_layout num_columns equations_per_column (15 * mm) (10 * mm) ;;
   Returned (mkRun [] (Some (pages L (fst gen) num_columns equations_per_column page_num))
                   None_))%result.

End HannahGen.

(** ** [src/math/generate_liner_equation_system.py] *)

Module FixedGen.
Import Synth Canvas.
Local Open Scope Q_scope.

Record Layout := mkLayout {
  margin : Q;
  column_gap : Q;
  base_y : Q;
  line_height : Q;
  footer_y : Q;
  column_width : Q
}.

Definition calculate_layout (num_columns : nat) (p_margin p_column_gap : Q) : Result Layout :=
  let '(page_width, page_height) := letter in
  (w <- div (page_width - 2 * p_margin
             - inject_Z (Z.of_nat num_columns - 1) * p_column_gap)
            (ofnat num_columns) ;;
   Returned (mkLayout (15 * mm) (10 * mm) (page_height - 25 * mm) (7 * mm) (15 * mm) w))%result.

Definition draw_equation (line_height : Q) (c : DrawCall) : list Op * Q :=
  let x := dc_x c in
  let y := dc_y c in
  let brace_x := x + 8 * mm in
  let eq_x := brace_x + 5 * mm in
  ([SetFont "Helvetica-Bold" 10;
    DrawString x y (Py.str (Z.of_nat (dc_eq_num c)) ++ ".");
    SetFont "DejaVu" 14;
    DrawString brace_x y "⎧";
    DrawString brace_x (y - 0.5 * line_height) "⎨";
    DrawString brace_x (y - line_height) "⎩";
    SetFont "DejaVu" 12;
    DrawString eq_x y (fst (dc_equations c));
    DrawString eq_x (y - 1 * line_height) (snd (dc_equations c))],
   y - 3.5 * line_height).

(** Body of [for idx in range(equations_per_column)]. *)
Definition item_step (L : Layout) (equations_per_column : nat) (page_equations : list Item)
    (start_idx col : nat) (x : Q) (idx : nat) (s : Q * PageState) : (Q * PageState) * bool :=
  let '(y, st) := s in
  let eq_index := (col * equations_per_column + idx)%nat in
  match nth_error page_equations eq_index with
  | None => (s, true)
  | Some (equations, solution) =>
      let eq_num := (start_idx + col * equations_per_column + idx + 1)%nat in
      let st := append_solution solution st in
      let c := mkCall x y eq_num equations in
      let new_y := snd (draw_equation (line_height L) c) in
      let st := record_call c st in
      if Qltb new_y (footer_y L + 30 * mm) then ((y, st), true)
      else ((new_y, st), false)
  end.

(** Body of [for col in range(num_columns)]. *)
Definition column (L : Layout) (num_columns equations_per_column : nat)
    (page_equations : list Item) (start_idx : nat) (st : PageState) (col : nat) : PageState :=
  let x_positions :=
    map (fun i => margin L + ofnat i * (column_width L + column_gap L)) (seq 0 num_columns) in
  let y_positions := repeat (base_y L) num_columns in
  let x := nth col x_positions 0 in
  let y := nth col y_positions 0 in
  snd (for_break (item_step L equations_per_column page_equations start_idx col x)
                 (seq 0 equations_per_column) (y, st)).

(** Body of [for page in range(page_num)]. *)
Definition page (L : Layout) (all_equations : list Item)
    (num_columns equations_per_column page_num : nat) (page : nat) : Page :=
  let start_idx := (page * num_columns * equations_per_column)%nat in
  let end_idx := (start_idx + num_columns * equations_per_column)%nat in
  let page_equations := Py.slice all_equations start_idx end_idx in
  let header :=
    [SetFont "Helvetica" 8;
     DrawRightString (fst letter - margin L) (snd letter - 15 * mm)
       ("Page " ++ Py.str (Z.of_nat (page + 1)) ++ "/" ++ Py.str (Z.of_nat page_num))] in
  let st := fold_left (column L num_columns equations_per_column page_equations start_idx)
                      (seq 0 num_columns) empty_state in
  mkPage header (calls st) (solutions st) (footer_text (solutions st)).

Definition pages (L : Layout) (all_equations : list Item)
    (num_columns equations_per_column page_num : nat) : list Page :=
  map (page L all_equations num_columns equations_per_column page_num) (seq 0 page_num).

(** [font_registered] tells whether [pdfmetrics.registerFont] succeeds. *)
Definition create_pdf (font_registered : bool) (fuel : nat) (rnd : Source)
    (num_columns equations_per_column page_num : nat) : Result Run :=
  let total_equations := (num_columns * equations_per_column * page_num)%nat in
  (gen <- pregenerate Fixed fuel total_equations rnd 0 ;;
   if negb font_registered
   then Returned (mkRun ["Error: DejaVuSans.ttf font file not found"] None None_)
   else
     L <- calculate_layout num_columns (15 * mm) (10 * mm) ;;
     Returned (mkRun [] (Some (pages L (fst gen) num_columns equations_per_column page_num))
                     None_))%result.

End FixedGen.

(** ** [src/math/generate_liner_equation_system.1.py]

    The [logger.debug] and [logger.info] lines of this file write to the log
    only and are left out.  The coordinates are exact rationals here;
    [Floating] below gives the column loop over the float operations
    themselves, and [dynamic_column_exact] relates the two. *)

Module DynamicGen.
Import Synth Canvas.
Local Open Scope Q_scope.

Record Layout := mkLayout {
  margin : Q;
  column_gap : Q;
  base_y : Q;
  line_height : Q;
  footer_y : Q;
  num_columns : nat;
  column_width : Q;
  equations_per_column : Z
}.

Definition calculate_layout (p_num_columns : nat) : Result Layout :=
  let '(page_width, page_height) := letter in
  let margin := 15 * mm in
  let column_gap := 10 * mm in
  let base_y := page_height - 25 * mm in
  let line_height := 7 * mm in
  let footer_y := 15 * mm in
  (column_width <- div (page_width - 2 * margin
                        - inject_Z (Z.of_nat p_num_columns - 1) * column_gap)
                       (ofnat p_num_columns) ;;
   let available_height := base_y - footer_y in
   let equation_height := 2 * line_height in
   per_column <- floordiv available_height equation_height ;;
   Returned (mkLayout margin column_gap base_y line_height footer_y p_num_columns
                      column_width per_column))%result.

Definition draw_equation (line_height : Q) (c : DrawCall) : list Op * Q :=
  let x := dc_x c in
  let y := dc_y c in
  let brace_x := x + 8 * mm in
  let eq_x := brace_x + 5 * mm in
  ([SetFont "Helvetica-Bold" 10;
    DrawString x (y + 2 * mm) (Py.str (Z.of_nat (dc_eq_num c)) ++ ".");
    SetFont "DejaVu" 14;
    DrawString brace_x y "⎧";
    DrawString brace_x (y - 0.5 * line_height) "⎨";
    DrawString brace_x (y - line_height) "⎩";
    SetFont "DejaVu" 12;
    DrawString eq_x y (fst (dc_equations c));
    DrawString eq_x (y - line_height) (snd (dc_equations c))],
   y - 2 * line_height).

(** [remaining_space / spacing_count if spacing_count > 0 else 0]. *)
Definition spacing (remaining_space : Q) (spacing_count : nat) : Result Q :=
  if (0 <? spacing_count)%nat then div remaining_space (ofnat spacing_count)
  else Returned 0.

(** Body of [for idx in range(actual_count)], which reads [col_data[idx]]:
    the loop runs over [enumerate(col_data)]. *)
Definition item_step (L : Layout) (start_idx col_start : nat) (x spacing_height : Q)
    (entry : nat * Item) (s : Q * PageState) : (Q * PageState) * bool :=
  let '(y, st) := s in
  let '(idx, (equations, solution)) := entry in
  let eq_index := (col_start + idx)%nat in
  let eq_num := (start_idx + eq_index + 1)%nat in
  let st := append_solution solution st in
  let c := mkCall x y eq_num equations in
  let new_y := snd (draw_equation (line_height L) c) in
  let st := record_call c st in
  let y := new_y - spacing_height in
  ((y, st), Qltb y (footer_y L + 15 * mm)).

(** Body of [for col in range(num_columns)]. *)
Definition column (L : Layout) (p_num_columns p_equations_per_column : nat)
    (page_data : list Item) (start_idx : nat) (col : nat) (st : PageState)
  : Result PageState :=
  let x_positions :=
    map (fun i => margin L + ofnat i * (column_width L + column_gap L))
        (seq 0 p_num_columns) in
  let column_y := repeat (base_y L) p_num_columns in
  let x := nth col x_positions 0 in
  let y := nth col column_y 0 in
  let col_start := (col * p_equations_per_column)%nat in
  let col_end := ((col + 1) * p_equations_per_column)%nat in
  let col_data := Py.slice page_data col_start col_end in
  let actual_count := List.length col_data in
  if (actual_count =? 0)%nat then Returned st
  else
    let total_available_space := y - footer_y L - 10 * mm in
    let equation_height := 2 * line_height L in
    let total_equations_height := ofnat actual_count * equation_height in
    let remaining_space := total_available_space - total_equations_height in
    let spacing_count := actual_count in
    (spacing_height <- spacing remaining_space spacing_count ;;
     Returned (snd (for_break (item_step L start_idx col_start x spacing_height)
                              (Py.enumerate col_data) (y, st))))%result.

(** Body of [for page in range(page_num)]. *)
Definition page (L : Layout) (all_equations : list Item)
    (p_num_columns p_equations_per_column : nat) (page : nat) : Result Page :=
  let start_idx := (page * p_num_columns * p_equations_per_column)%nat in
  let end_idx := (start_idx + p_num_columns * p_equations_per_column)%nat in
  let page_data := Py.slice all_equations start_idx end_idx in
  (st <- for_each (column L p_num_columns p_equations_per_column page_data start_idx)
                  (seq 0 p_num_columns) empty_state ;;
   Returned (mkPage [] (calls st) (solutions st) (footer_text (solutions st))))%result.

Fixpoint pages_from (L : Layout) (all_equations : list Item)
    (p_num_columns p_equations_per_column : nat) (todo : list nat) : Result (list Page) :=
  match todo with
  | [] => Returned []
  | p :: rest =>
      (pg <- page L all_equations p_num_columns p_equations_per_column p ;;
       pgs <- pages_from L all_equations p_num_columns p_equations_per_column rest ;;
       Returned (pg :: pgs))%result
  end.

Definition pages (L : Layout) (all_equations : list Item)
    (p_num_columns p_equations_per_column page_num : nat) : Result (list Page) :=
  pages_from L all_equations p_num_columns p_equations_per_column (seq 0 page_num).

Definition create_pdf (font_registered : bool) (fuel : nat) (rnd : Source)
    (p_num_columns p_equations_per_column page_num : nat) : Result Run :=
  if negb font_registered
  then Returned (mkRun ["Error: DejaVuSans.ttf font file not found"] None None_)
  else
    (L <- calculate_layout p_num_columns ;;
     let total_equations := (p_num_columns * p_equations_per_column * page_num)%nat in
     gen <- pregenerate Dynamic fuel total_equations rnd 0 ;;
     pgs <- pages L (fst gen) p_num_columns p_equations_per_column page_num ;;
     Returned (mkRun [] (Some pgs) None_))%result.

End DynamicGen.

(** ** The dynamic column on the floats of the source

    The page coordinates of the source are IEEE doubles, and the bottom check
    of the dynamic generator compares two of them.  [Arith] names the float
    operations the column loop performs and leaves them uninterpreted;
    [Floating.column] performs them in the order of the source.  What holds
    of [Floating.column] for every [Arith] holds of the doubles of the
    interpreter ([binary64]) and of the exact rationals of [DynamicGen]
    ([exact]) alike. *)

Module Floating.
Import Synth Canvas.

Record Arith := mkArith {
  num : Type;
  fadd : num -> num -> num;
  fsub : num -> num -> num;
  fmul : num -> num -> num;
  fdiv : num -> num -> num;
  fltb : num -> num -> bool;
  (** [float(n)], the conversion an [int] operand undergoes. *)
  of_int : Z -> num;
  (** [reportlab.lib.units.mm] and [reportlab.lib.pagesizes.letter]. *)
  unit_mm : num;
  page_size : num * num
}.

Section Generator.
Variable A : Arith.

(** [n * a] for an [int] [n] and a float [a]. *)
Definition times (n : Z) (a : num A) : num A := fmul A (of_int A n) a.

(** [a / n] for a float [a] and an [int] [n]. *)
Definition divide (a : num A) (n : Z) : Result (num A) :=
  if (n =? 0)%Z then Raised ZeroDivisionError else Returned (fdiv A a (of_int A n)).

(** The float entries of the dict [calculate_layout] returns.  The entry
    [equations_per_column], which the page loop does not read, is left to
    [DynamicGen.calculate_layout]. *)
Record Layout := mkLayout {
  margin : num A;
  column_gap : num A;
  base_y : num A;
  line_height : num A;
  footer_y : num A;
  column_width : num A
}.

Definition calculate_layout (p_num_columns : nat) : Result Layout :=
  let '(page_width, page_height) := page_size A in
  let margin := times 15 (unit_mm A) in
  let column_gap := times 10 (unit_mm A) in
  let base_y := fsub A page_height (times 25 (unit_mm A)) in
  let line_height := times 7 (unit_mm A) in
  let footer_y := times 15 (unit_mm A) in
  (column_width <- divide (fsub A (fsub A page_width (times 2 margin))
                                  (times (Z.of_nat p_num_columns - 1) column_gap))
                          (Z.of_nat p_num_columns) ;;
   Returned (mkLayout margin column_gap base_y line_height footer_y column_width))%result.

(** One call [draw_equation(c, x, y, eq_num, equations, line_height)]. *)
Record Call := mkCall {
  fc_x : num A;
  fc_y : num A;
  fc_eq_num : nat;
  fc_equations : Equations
}.

Record State := mkState {
  fcalls : list Call;
  fsolutions : list Solution
}.

Definition empty_state : State := mkState [] [].

Definition append_solution (s : Solution) (st : State) : State :=
  mkState (fcalls st) (fsolutions st ++ [s]).

Definition record_call (c : Call) (st : State) : State :=
  mkState (fcalls st ++ [c]) (fsolutions st).

(** What [draw_equation] returns: [y - 2 * line_height]. *)
Definition draw_equation (line_height : num A) (c : Call) : num A :=
  fsub A (fc_y c) (times 2 line_height).

(** [remaining_space / spacing_count if spacing_count > 0 else 0]. *)
Definition spacing (remaining_space : num A) (spacing_count : nat) : Result (num A) :=
  if (0 <? spacing_count)%nat then divide remaining_space (Z.of_nat spacing_count)
  else Returned (of_int A 0).

(** Body of [for idx in range(actual_count)]. *)
Definition item_step (L : Layout) (start_idx col_start : nat) (x spacing_height : num A)
    (entry : nat * Item) (s : num A * State) : (num A * State) * bool :=
  let '(y, st) := s in
  let '(idx, (equations, solution)) := entry in
  let eq_index := (col_start + idx)%nat in
  let eq_num := (start_idx + eq_index + 1)%nat in
  let st := append_solution solution st in
  let c := mkCall x y eq_num equations in
  let new_y := draw_equation (line_height L) c in
  let st := record_call c st in
  let y := fsub A new_y spacing_height in
  ((y, st), fltb A y (fadd A (footer_y L) (times 15 (unit_mm A)))).

(** Body of [for col in range(num_columns)]. *)
Definition column (L : Layout) (p_num_columns p_equations_per_column : nat)
    (page_data : list Item) (start_idx : nat) (col : nat) (st : State)
  : Result State :=
  let x_positions :=
    map (fun i => fadd A (margin L)
                    (times (Z.of_nat i) (fadd A (column_width L) (column_gap L))))
        (seq 0 p_num_columns) in
  let column_y := repeat (base_y L) p_num_columns in
  let x := nth col x_positions (of_int A 0) in
  let y := nth col column_y (of_int A 0) in
  let col_start := (col * p_equations_per_column)%nat in
  let col_end := ((col + 1) * p_equations_per_column)%nat in
  let col_data := Py.slice page_data col_start col_end in
  let actual_count := List.length col_data in
  if (actual_count =? 0)%nat then Returned st
  else
    let total_available_space :=
      fsub A (fsub A y (footer_y L)) (times 10 (unit_mm A)) in
    let equation_height := times 2 (line_height L) in
    let total_equations_height := times (Z.of_nat actual_count) equation_height in
    let remaining_space := fsub A total_available_space total_equations_height in
    let spacing_count := actual_count in
    (spacing_height <- spacing remaining_space spacing_count ;;
     Returned (snd (for_break (item_step L start_idx col_start x spacing_height)
                              (Py.enumerate col_data) (y, st))))%result.

(** The places of a column: the advance from one item to the next, as the
    loop computes it, and how many of [n] items a column that stands at [y]
    places before the bottom check stops it. *)
Definition advance (L : Layout) (spacing_height y : num A) : num A :=
  fsub A (fsub A y (times 2 (line_height L))) spacing_height.

Definition limit (L : Layout) : num A :=
  fadd A (footer_y L) (times 15 (unit_mm A)).

Fixpoint placed_count (L : Layout) (spacing_height y : num A) (n : nat) : nat :=
  match n with
  | O => O
  | S n' =>
      let y' := advance L spacing_height y in
      if fltb A y' (limit L) then 1%nat
      else S (placed_count L spacing_height y' n')
  end.

(** The calls a column makes for [items], the first at [y] under index [i]. *)
Fixpoint column_calls (x : num A) (step : num A -> num A) (number : nat -> nat)
    (i : nat) (y : num A) (items : list Item) : list Call :=
  match items with
  | [] => []
  | it :: rest =>
      mkCall x y (number i) (fst it) :: column_calls x step number (S i) (step y) rest
  end.

End Generator.

Arguments fc_x {A} c.
Arguments fc_y {A} c.
Arguments fc_eq_num {A} c.
Arguments fc_equations {A} c.
Arguments fcalls {A} s.
Arguments fsolutions {A} s.

(** The exact rationals, on which [DynamicGen] computes. *)
Definition exact : Arith :=
  mkArith Q Qplus Qminus Qmult Qdiv Qltb inject_Z Canvas.mm Canvas.letter.

(** The doubles of the interpreter.  [float_of_int n] is [float(n)] for
    [|n| < 2^63]: exact up to [2^53], rounded to nearest beyond.
    [inch / 2.54] and [cm * 0.1] are reportlab's own definitions of [cm] and
    [mm]; the literals [2.54] and [0.1] are the doubles nearest to them,
    which the correctly rounded quotients [254 / 100] and [1 / 10] are. *)
Definition float_of_int (z : Z) : PrimFloat.float :=
  match z with
  | Z0 => PrimFloat.zero
  | Zpos _ => PrimFloat.of_uint63 (Uint63.of_Z z)
  | Zneg p => PrimFloat.opp (PrimFloat.of_uint63 (Uint63.of_Z (Zpos p)))
  end.

Definition inch64 : PrimFloat.float := float_of_int 72.
Definition cm64 : PrimFloat.float :=
  PrimFloat.div inch64 (PrimFloat.div (float_of_int 254) (float_of_int 100)).
Definition mm64 : PrimFloat.float :=
  PrimFloat.mul cm64 (PrimFloat.div (float_of_int 1) (float_of_int 10)).

Definition binary64 : Arith :=
  mkArith PrimFloat.float PrimFloat.add PrimFloat.sub PrimFloat.mul PrimFloat.div
          PrimFloat.ltb float_of_int mm64 (float_of_int 612, float_of_int 792).

(** A page state of the exact instance, read as a page state of
    [DynamicGen]. *)
Definition exact_call (c : Call exact) : DrawCall :=
  Canvas.mkCall (fc_x c) (fc_y c) (fc_eq_num c) (fc_equations c).

Definition exact_state (st : State exact) : PageState :=
  Canvas.mkState (map exact_call (fcalls st)) (fsolutions st).

Definition exact_layout (L : DynamicGen.Layout) : Layout exact :=
  mkLayout exact (DynamicGen.margin L) (DynamicGen.column_gap L) (DynamicGen.base_y L)
           (DynamicGen.line_height L) (DynamicGen.footer_y L) (DynamicGen.column_width L).

Definition exact_result (r : Result (State exact)) : Result PageState :=
  match r with
  | Returned st => Returned (exact_state st)
  | Raised e => Raised e
  | OutOfFuel => OutOfFuel
  end.

End Floating.

(** ** Predicates and functions the statements below are written with *)

Module Spec.
Import Synth Canvas.

(** [c in s] for a character. *)
Fixpoint mem (c : ascii) (s : string) : bool :=
  match s with
  | EmptyString => false
  | String a s' => Ascii.eqb a c || mem c s'
  end.

(** None of the three later needles occurs in [s]. *)
Definition absent3 (s : string) : bool :=
  negb (Py.contains "- -" s) && negb (Py.contains " 1x" s) && negb (Py.contains " 1y" s).

(** The f-string of an equation, cut at its [=] sign. *)
Definition head (v : Variant) (a b : Z) : string :=
  match v with
  | Hannah => "{ " ++ format_term a "x" ++ " + " ++ format_term b "y" ++ " "
  | Fixed | Dynamic => format_term a "x" ++ " + " ++ format_term b "y" ++ " "
  end.

Definition tail (v : Variant) (c : Z) : string :=
  match v with
  | Hannah => " " ++ Py.str c ++ " }"
  | Fixed | Dynamic => " " ++ Py.str c
  end.

Definition head_ok (v : Variant) (a b : Z) : bool :=
  let h := head v a b in
  absent3 h && absent3 (fix1 h) && negb (Py.contains "+ -" (fix1 h)).

Definition tail_ok (v : Variant) (c : Z) : bool :=
  let t := tail v c in
  absent3 t && negb (Py.contains "+ -" t).

Definition coefficients : list Z := filter (fun a => negb (a =? 0)) values.

(** The invariant of the locals at the [break]. *)
Definition valid_drawn (d : Drawn) : Prop :=
  a1 d * sol_x d + b1 d * sol_y d = c1 d /\
  a2 d * sol_x d + b2 d * sol_y d = c2 d /\
  (a1 d <> 0 /\ b1 d <> 0 /\ a2 d <> 0 /\ b2 d <> 0) /\
  (-20 <= a1 d <= 20 /\ -20 <= b1 d <= 20 /\ -20 <= a2 d <= 20 /\ -20 <= b2 d <= 20) /\
  (-20 <= sol_x d <= 20 /\ -20 <= sol_y d <= 20) /\
  Z.abs (c1 d) <= 120 /\ Z.abs (c2 d) <= 120.

(** An item is a valid equation system of variant [v] when it was built from
    locals that satisfy the invariant. *)
Definition valid_system (v : Variant) (item : Item) : Prop :=
  exists d, item = build v d /\ valid_drawn d.

(** The pass that starts at draw [n] ends in [break]. *)
Definition accepts (rnd : Source) (n : nat) : bool :=
  match fst (loop_body rnd n) with
  | Break _ => true
  | Continue => false
  end.

(** A source that feeds [m] rejected tuples (all zero) and then ones. *)
Definition late_source (m : nat) : Source :=
  fun k => if (k <? 6 * m)%nat then 0 else 1.

End Spec.

(** ** Predicates and functions the layout statements are written with *)

Module LayoutSpec.
Import Synth Canvas.
Local Open Scope Q_scope.

(** The item that carries the number [eq_num] in [data]: [data[eq_num - 1]]. *)
Definition numbered (data : list Item) (eq_num : nat) : option Item :=
  nth_error data (eq_num - 1).

(** Call by call, the solution collected is the solution of the system
    that was drawn. *)
Definition paired (data : list Item) (cs : list DrawCall) (ss : list Solution) : Prop :=
  Forall2 (fun c s => numbered data (dc_eq_num c) = Some (dc_equations c, s)) cs ss.

Definition paired_state (data : list Item) (st : PageState) : Prop :=
  paired data (calls st) (solutions st).

Definition eq_nums (st : PageState) : list nat := map dc_eq_num (calls st).

(** One answer-key entry ["{n}.({x},{y})"]. *)
Definition entry (n : nat) (s : Solution) : string :=
  Py.str (Z.of_nat n) ++ ".(" ++ Py.str (fst s) ++ "," ++ Py.str (snd s) ++ ")".

(** The answer key whose numbers are the numbers drawn next to the systems. *)
Definition key_by_display_index (p : Page) : string :=
  Py.join "  " (map (fun cs => entry (dc_eq_num (fst cs)) (snd cs))
                    (combine (page_calls p) (page_solutions p))).

(** The answer key whose numbers count the entries of the page from 1. *)
Definition key_by_position (p : Page) : string :=
  Py.join "  " (map (fun ics => entry (fst ics + 1) (snd (snd ics)))
                    (Py.enumerate (combine (page_calls p) (page_solutions p)))).

(** Dynamic layout: one vertical advance, and how many of [n] items a column
    that stands at [y] places before the bottom check stops it. *)
Definition advance (L : DynamicGen.Layout) (spacing_height y : Q) : Q :=
  y - 2 * DynamicGen.line_height L - spacing_height.

Fixpoint placed_count (L : DynamicGen.Layout) (spacing_height y : Q) (n : nat) : nat :=
  match n with
  | O => O
  | S n' =>
      let y' := advance L spacing_height y in
      if Qltb y' (DynamicGen.footer_y L + 15 * mm) then 1%nat
      else S (placed_count L spacing_height y' n')
  end.

(** The calls a column makes for [items], the first at [y] under index [i]. *)
Fixpoint column_calls (x : Q) (step : Q -> Q) (number : nat -> nat)
    (i : nat) (y : Q) (items : list Item) : list DrawCall :=
  match items with
  | [] => []
  | it :: rest =>
      mkCall x y (number i) (fst it) :: column_calls x step number (S i) (step y) rest
  end.

(** Calls per page, and the items planned for the pages of a run and not
    drawn on them. *)
Definition call_counts (pgs : list Page) : list nat :=
  map (fun pg => List.length (page_calls pg)) pgs.

Definition dropped (num_columns equations_per_column : nat) (pgs : list Page) : nat :=
  (List.length pgs * (num_columns * equations_per_column) - list_sum (call_counts pgs))%nat.

(** What a caller sees of a run, next to the number of calls on each page. *)
Definition observe (r : Result Run) : option (PyValue * list string * list nat) :=
  match r with
  | Returned run =>
      match saved run with
      | Some pgs => Some (returned run, stdout run, call_counts pgs)
      | None => None
      end
  | _ => None
  end.

(** A report of the dropped items to the caller: some function of what
    [create_pdf] returns and prints yields their number. *)
Definition drop_count_reported : Prop :=
  exists report : PyValue -> list string -> nat,
  forall fuel rnd num_columns equations_per_column page_num run pgs,
    DynamicGen.create_pdf true fuel rnd num_columns equations_per_column page_num
    = Returned run ->
    saved run = Some pgs ->
    report (returned run) (stdout run) = dropped num_columns equations_per_column pgs.

Definition with_equations_per_column (e : Z) (L : DynamicGen.Layout) : DynamicGen.Layout :=
  DynamicGen.mkLayout (DynamicGen.margin L) (DynamicGen.column_gap L) (DynamicGen.base_y L)
    (DynamicGen.line_height L) (DynamicGen.footer_y L) (DynamicGen.num_columns L)
    (DynamicGen.column_width L) e.

(** A worksheet of [n] systems [x + y = i + 1], [x - y = i - 1] with
    solutions [(i, 1)], [i = 1 .. n]. *)
Definition sample (i : nat) : Item :=
  build Fixed (mkDrawn (Z.of_nat i) 1 1 1 1 (-1) (Z.of_nat i + 1) (Z.of_nat i - 1)).

Definition worksheet (n : nat) : list Item := map sample (seq 1 n).

(** The footer of [p] lists, in the order of the calls and one per call, the
    solutions of the systems that were drawn. *)
Definition key_matches_calls (data : list Item) (p : Page) : Prop :=
  exists entries,
    page_footer p = Py.join "  " entries /\
    List.length entries = List.length (page_calls p) /\
    forall i c, nth_error (page_calls p) i = Some c ->
      exists s, numbered data (dc_eq_num c) = Some (dc_equations c, s) /\
                nth_error entries i = Some (entry (i + 1) s).

(** The layouts [create_pdf] computes for a given number of columns. *)
Definition hannah_layout (nc ipc : nat) : HannahGen.Layout :=
  match HannahGen.calculate_layout nc ipc (15 * mm) (10 * mm) with
  | Returned L => L
  | _ => HannahGen.mkLayout 0 0 0 0 0 0 0
  end.

Definition fixed_layout (nc : nat) : FixedGen.Layout :=
  match FixedGen.calculate_layout nc (15 * mm) (10 * mm) with
  | Returned L => L
  | _ => FixedGen.mkLayout 0 0 0 0 0 0
  end.

Definition dynamic_layout (nc : nat) : DynamicGen.Layout :=
  match DynamicGen.calculate_layout nc with
  | Returned L => L
  | _ => DynamicGen.mkLayout 0 0 0 0 0 0 0 0
  end.

(** The claim that the derived count, not the supplied one, lays out the
    pages. *)
Definition uses_derived_count : Prop :=
  forall nc L all ipc pn,
    DynamicGen.calculate_layout nc = Returned L ->
    DynamicGen.pages L all nc ipc pn
    = DynamicGen.pages L all nc (Z.to_nat (DynamicGen.equations_per_column L)) pn.

Definition first_page_calls (r : Result (list Page)) : nat :=
  match r with
  | Returned (pg :: _) => List.length (page_calls pg)
  | _ => 0%nat
  end.

End LayoutSpec.

(** The layout [create_pdf] computes on doubles for a given number of
    columns. *)
Module FloatingSpec.
Import Synth Canvas.

Definition layout64 (nc : nat) : Floating.Layout Floating.binary64 :=
  match Floating.calculate_layout Floating.binary64 nc with
  | Returned L => L
  | _ => let z := Floating.float_of_int 0 in Floating.mkLayout Floating.binary64 z z z z z z
  end.

(** How many calls a column makes on an empty page, on doubles and on exact
    rationals. *)
Definition column_count (A : Floating.Arith) (L : Floating.Layout A)
    (nc ipc : nat) (page_data : list Item) (col : nat) : option nat :=
  match Floating.column A L nc ipc page_data 0 col (Floating.empty_state A) with
  | Returned st => Some (List.length (Floating.fcalls st))
  | _ => None
  end.

End FloatingSpec.

(** ** Predicates and functions the further statements are written with *)

Module ExtraSpec.
Import Synth Canvas Spec LayoutSpec.

(** The second term of a cleaned equation, with its sign. *)
Definition second_term (b : Z) : string :=
  if b <? 0 then " - " ++ format_term (- b) "y" else " + " ++ format_term b "y".

(** A cleaned equation as it reads on the worksheet. *)
Definition shown (v : Variant) (a b c : Z) : string :=
  match v with
  | Hannah => "{ " ++ format_term a "x" ++ second_term b ++ " = " ++ Py.str c ++ " }"
  | Fixed | Dynamic => format_term a "x" ++ second_term b ++ " = " ++ Py.str c
  end.

Definition shown_head (v : Variant) (a b : Z) : string :=
  match v with
  | Hannah => "{ " ++ format_term a "x" ++ second_term b ++ " "
  | Fixed | Dynamic => format_term a "x" ++ second_term b ++ " "
  end.

Definition head_shown_ok (v : Variant) (a b : Z) : bool :=
  let h := fix1 (head v a b) in
  String.eqb h (shown_head v a b) &&
  Py.contains "x" h && Py.contains "y" h &&
  negb (Py.contains "--" h) && negb (Py.contains "+-" h).

Definition tail_shown_ok (v : Variant) (c : Z) : bool :=
  let t := tail v c in
  negb (Py.contains "--" t) && negb (Py.contains "+-" t).

(** The numbers of a page ascend and lie above [lo], up to [hi]. *)
Definition ascending_within (lo hi : nat) (l : list nat) : Prop :=
  StronglySorted lt l /\ Forall (fun n => (lo < n <= hi)%nat) l.

(** Fixed layout: how many of [n] items a column that stands at [y] draws
    before its bottom check stops it. *)
Fixpoint fixed_placed (L : FixedGen.Layout) (y : Q) (n : nat) : nat :=
  match n with
  | O => O
  | S n' =>
      let new_y := (y - 3.5 * FixedGen.line_height L)%Q in
      if Qltb new_y (FixedGen.footer_y L + 30 * mm)%Q then 1%nat
      else S (fixed_placed L new_y n')
  end.

End ExtraSpec.

(** ** [src/math_generator.py] *)

Module MathGen.
Import Synth.

(** [random.randint(1, 10)]: the source is the stream of its outcomes. *)
Definition randint : Rand Z := fun rnd n => (rnd n, S n).

(** [self.config] is the mapping loaded from the settings file;
    [self.equation_count] is set to 0 by [__init__] and written nowhere else. *)
Record MathGenerator := mkGenerator {
  config : list (string * Z);
  equation_count : Z
}.

Definition init (config : list (string * Z)) : MathGenerator := mkGenerator config 0.

(** [self.config[key]]. *)
Fixpoint lookup (key : string) (config : list (string * Z)) : option Z :=
  match config with
  | [] => None
  | (k, v) :: rest => if String.eqb k key then Some v else lookup key rest
  end.

Inductive Outcome (A : Type) : Type :=
| Ok (a : A)
| KeyError (key : string).
Arguments Ok {A} a.
Arguments KeyError {A} key.

Definition newline : string := String (Ascii.ascii_of_nat 10) "".

Definition equation_text (a b : Z) : string :=
  Py.str a ++ "x + " ++ Py.str b ++ "y = " ++ Py.str (a + b).

Definition cases_text (equation1 equation2 : string) : string :=
  "\begin{cases}" ++ newline ++
  "  " ++ equation1 ++ " \\" ++ newline ++
  "  " ++ equation2 ++ newline ++
  "\end{cases}".

Definition generate_equation (self : MathGenerator) : Rand (string * string) :=
  (a <- randint ;;
   b <- randint ;;
   c <- randint ;;
   d <- randint ;;
   let equation1 := equation_text a b in
   let equation2 := equation_text c d in
   let x := 1 in
   let y := 1 in
   ret (cases_text equation1 equation2,
        "(x=" ++ Py.str x ++ ", y=" ++ Py.str y ++ ")"))%rand.

(** [for _ in range(count): equations.append(self.generate_equation())]. *)
Fixpoint generate_many (self : MathGenerator) (count : nat) : Rand (list (string * string)) :=
  match count with
  | O => ret []
  | S count' =>
      (e <- generate_equation self ;;
       rest <- generate_many self count' ;;
       ret (e :: rest))%rand
  end.

Definition generate_page (self : MathGenerator)
  : Rand (Outcome (list (string * string))) :=
  match lookup "equations_per_page" (config self) with
  | None => ret (KeyError "equations_per_page")
  | Some count =>
      (equations <- generate_many self (Z.to_nat count) ;;
       ret (Ok equations))%rand
  end.

End MathGen.

(** ** Facts about the string built-ins *)

Section StringFacts.
Import Spec.

Lemma append_assoc (s t u : string) : (s ++ t) ++ u = s ++ (t ++ u).
Proof. induction s as [|a s IH]; simpl; [reflexivity | now rewrite IH]. Qed.

Lemma append_length (s t : string) :
  String.length (s ++ t) = (String.length s + String.length t)%nat.
Proof. induction s as [|a s IH]; simpl; [reflexivity | now rewrite IH]. Qed.

Lemma startswith_length (p s : string) :
  Py.startswith p s = true -> (String.length p <= String.length s)%nat.
Proof.
  revert s; induction p as [|a p IH]; intros [|b s]; simpl; intros H;
    try discriminate; try lia.
  apply andb_true_iff in H as [_ H]. apply IH in H. lia.
Qed.

(** A character that is not in the needle stops every match that reaches it. *)
Lemma startswith_sep (c : ascii) (old q t : string) :
  mem c old = false ->
  Py.startswith old (q ++ String c t) = Py.startswith old q.
Proof.
  revert q; induction old as [|a old IH]; intros q Hm; [reflexivity|].
  simpl in Hm. apply orb_false_iff in Hm as [Hac Hm].
  destruct q as [|d q]; simpl.
  - now rewrite Hac.
  - now rewrite IH.
Qed.

Lemma contains_sep (c : ascii) (a : ascii) (old q t : string) :
  mem c (String a old) = false ->
  Py.contains (String a old) (q ++ String c t)
  = Py.contains (String a old) q || Py.contains (String a old) t.
Proof.
  intros Hm. induction q as [|d q IH].
  - change ("" ++ String c t) with (String c t).
    change (Py.contains (String a old) (String c t))
      with (Py.startswith (String a old) ("" ++ String c t)
            || Py.contains (String a old) t).
    rewrite startswith_sep by exact Hm. reflexivity.
  - change (Py.contains (String a old) (String d q ++ String c t))
      with (Py.startswith (String a old) (String d q ++ String c t)
            || Py.contains (String a old) (q ++ String c t)).
    rewrite startswith_sep by exact Hm. rewrite IH.
    change (Py.contains (String a old) (String d q))
      with (Py.startswith (String a old) (String d q) || Py.contains (String a old) q).
    now rewrite orb_assoc.
Qed.

(** [replace] works on both sides of such a character independently. *)
Lemma replace_from_sep (c a : ascii) (old new q t : string) (k : nat) :
  mem c (String a old) = false ->
  (k <= String.length q)%nat ->
  Py.replace_from (String a old) new k (q ++ String c t)
  = Py.replace_from (String a old) new k q
    ++ String c (Py.replace_from (String a old) new 0 t).
Proof.
  intros Hm. revert k. induction q as [|d q IH]; intros k Hk.
  - simpl in Hk. assert (k = 0%nat) by lia. subst k.
    change ("" ++ String c t) with (String c t).
    cbn [Py.replace_from].
    change (String c t) with ("" ++ String c t) at 1.
    rewrite startswith_sep by exact Hm. reflexivity.
  - destruct k as [|k].
    + change (String d q ++ String c t) with (String d (q ++ String c t)).
      cbn [Py.replace_from].
      change (String d (q ++ String c t)) with (String d q ++ String c t).
      rewrite startswith_sep by exact Hm.
      destruct (Py.startswith (String a old) (String d q)) eqn:Hs.
      * apply startswith_length in Hs. simpl in Hs.
        rewrite IH by (simpl; lia). now rewrite append_assoc.
      * rewrite IH by lia. reflexivity.
    + change (String d q ++ String c t) with (String d (q ++ String c t)).
      cbn [Py.replace_from]. apply IH. simpl in Hk. lia.
Qed.

Lemma replace_sep (c a : ascii) (old new q t : string) :
  mem c (String a old) = false ->
  Py.replace (String a old) new (q ++ String c t)
  = Py.replace (String a old) new q ++ String c (Py.replace (String a old) new t).
Proof. intros Hm. unfold Py.replace. apply replace_from_sep; [exact Hm | lia]. Qed.

(** Replacing a needle that does not occur changes nothing. *)
Lemma replace_absent (a : ascii) (old new s : string) :
  Py.contains (String a old) s = false ->
  Py.replace (String a old) new s = s.
Proof.
  unfold Py.replace. induction s as [|d s IH]; intros H; [reflexivity|].
  change (Py.contains (String a old) (String d s))
    with (Py.startswith (String a old) (String d s) || Py.contains (String a old) s) in H.
  apply orb_false_iff in H as [Hs Hc].
  cbn [Py.replace_from]. rewrite Hs. now rewrite IH.
Qed.

Lemma in_range (lo z : Z) (n : nat) :
  lo <= z < lo + Z.of_nat n -> In z (Py.range lo n).
Proof.
  intros H. unfold Py.range. apply in_map_iff.
  exists (Z.to_nat (z - lo)). split; [lia | apply in_seq; lia].
Qed.

Lemma range_in (lo z : Z) (n : nat) :
  In z (Py.range lo n) -> lo <= z < lo + Z.of_nat n.
Proof.
  unfold Py.range. intros H. apply in_map_iff in H as [i [<- Hi]].
  apply in_seq in Hi. lia.
Qed.

End StringFacts.

(** ** The clean-up pipeline on the generated equation strings *)

Section FixupFacts.
Import Synth Spec.

Lemma format_equation_split (v : Variant) (a b c : Z) :
  format_equation v a b c = head v a b ++ String "=" (tail v c).
Proof.
  destruct v; unfold format_equation, head, tail;
    repeat (rewrite ?append_assoc; simpl); reflexivity.
Qed.

Lemma in_coefficients (a : Z) : a <> 0 -> -20 <= a <= 20 -> In a coefficients.
Proof.
  intros Hz Hr. unfold coefficients. apply filter_In. split.
  - apply in_range. lia.
  - apply negb_true_iff, Z.eqb_neq, Hz.
Qed.

Lemma heads_checked (v : Variant) :
  forallb (fun a => forallb (fun b => head_ok v a b) coefficients) coefficients = true.
Proof. destruct v; vm_compute; reflexivity. Qed.

Lemma tails_checked (v : Variant) :
  forallb (fun c => tail_ok v c) (Py.range (-120) 241) = true.
Proof. destruct v; vm_compute; reflexivity. Qed.

Lemma head_facts (v : Variant) (a b : Z) :
  a <> 0 -> b <> 0 -> -20 <= a <= 20 -> -20 <= b <= 20 -> head_ok v a b = true.
Proof.
  intros Ha Hb Ra Rb.
  pose proof (heads_checked v) as H.
  rewrite forallb_forall in H. specialize (H a (in_coefficients a Ha Ra)).
  rewrite forallb_forall in H. exact (H b (in_coefficients b Hb Rb)).
Qed.

Lemma tail_facts (v : Variant) (c : Z) : -120 <= c <= 120 -> tail_ok v c = true.
Proof.
  intros Rc. pose proof (tails_checked v) as H.
  rewrite forallb_forall in H. apply H, in_range. lia.
Qed.

Lemma absent3_sep (q t : string) :
  absent3 (q ++ String "=" t) = absent3 q && absent3 t.
Proof.
  unfold absent3. rewrite !contains_sep by reflexivity.
  rewrite !negb_orb.
  destruct (Py.contains "- -" q), (Py.contains " 1x" q), (Py.contains " 1y" q),
    (Py.contains "- -" t), (Py.contains " 1x" t), (Py.contains " 1y" t); reflexivity.
Qed.

Lemma absent3_fixes (s : string) :
  absent3 s = true -> fix4 (fix3 (fix2 s)) = s.
Proof.
  unfold absent3, fix2, fix3, fix4. intros H.
  apply andb_true_iff in H as [H H3]. apply andb_true_iff in H as [H1 H2].
  apply negb_true_iff in H1, H2, H3.
  now rewrite (replace_absent _ _ _ _ H1), (replace_absent _ _ _ _ H2),
    (replace_absent _ _ _ _ H3).
Qed.

(** Everything the two claims about the pipeline need, for one equation. *)
Lemma cleanup_facts (v : Variant) (a b c : Z) :
  a <> 0 -> b <> 0 -> -20 <= a <= 20 -> -20 <= b <= 20 -> -120 <= c <= 120 ->
  let s := format_equation v a b c in
  absent3 s = true /\ absent3 (fix1 s) = true /\
  Py.contains "+ -" (fix1 s) = false /\ fixup s = fix1 s.
Proof.
  intros Ha Hb Ra Rb Rc s.
  pose proof (head_facts v a b Ha Hb Ra Rb) as Hh.
  pose proof (tail_facts v c Rc) as Ht.
  unfold head_ok in Hh. unfold tail_ok in Ht.
  apply andb_true_iff in Hh as [Hh Hh3]. apply andb_true_iff in Hh as [Hh1 Hh2].
  apply andb_true_iff in Ht as [Ht1 Ht2].
  apply negb_true_iff in Hh3, Ht2.
  assert (Hf : fix1 s = fix1 (head v a b) ++ String "=" (tail v c)).
  { unfold s. rewrite format_equation_split. unfold fix1.
    rewrite replace_sep by reflexivity.
    now rewrite (replace_absent _ _ _ (tail v c) Ht2). }
  assert (H2 : absent3 (fix1 s) = true).
  { rewrite Hf, absent3_sep, Hh2, Ht1. reflexivity. }
  repeat split.
  - unfold s. rewrite format_equation_split, absent3_sep, Hh1, Ht1. reflexivity.
  - exact H2.
  - rewrite Hf, contains_sep by reflexivity. now rewrite Hh3, Ht2.
  - unfold fixup. now apply absent3_fixes.
Qed.

(** C7.  Running the four replacements a second time over an equation string
    of the synthesizer (either f-string template, non-zero coefficients in
    [-20, 20], constant in [-120, 120]) gives the string the first run gave. *)
Theorem fixup_idempotent (v : Variant) (a b c : Z) :
  a <> 0 -> b <> 0 -> -20 <= a <= 20 -> -20 <= b <= 20 -> -120 <= c <= 120 ->
  fixup (fixup (format_equation v a b c)) = fixup (format_equation v a b c).
Proof.
  intros Ha Hb Ra Rb Rc.
  destruct (cleanup_facts v a b c Ha Hb Ra Rb Rc) as (_ & H2 & H1 & Hf).
  rewrite Hf. unfold fixup at 1.
  assert (E : fix1 (fix1 (format_equation v a b c)) = fix1 (format_equation v a b c)).
  { unfold fix1 at 1. now apply replace_absent. }
  rewrite E. now apply absent3_fixes.
Qed.

Lemma fixup_idempotent_witness :
  (3 <> 0 /\ -2 <> 0 /\ -20 <= 3 <= 20 /\ -20 <= -2 <= 20 /\ -120 <= -7 <= 120) /\
  fixup (fixup (format_equation Hannah 3 (-2) (-7)))
  = fixup (format_equation Hannah 3 (-2) (-7)).
Proof.
  split; [lia | apply (fixup_idempotent Hannah 3 (-2) (-7)); lia].
Defined.

(** C9.  On an equation string of the synthesizer none of ["- -"], [" 1x"],
    [" 1y"] occurs, neither before nor after the first replacement, so the
    whole pipeline equals the single replacement of ["+ -"] by ["- "]. *)
Theorem fixup_is_first_replacement (v : Variant) (a b c : Z) :
  a <> 0 -> b <> 0 -> -20 <= a <= 20 -> -20 <= b <= 20 -> -120 <= c <= 120 ->
  let s := format_equation v a b c in
  (Py.contains "- -" s = false /\ Py.contains " 1x" s = false /\
   Py.contains " 1y" s = false) /\
  (Py.contains "- -" (fix1 s) = false /\ Py.contains " 1x" (fix1 s) = false /\
   Py.contains " 1y" (fix1 s) = false) /\
  fix2 (fix1 s) = fix1 s /\ fix3 (fix2 (fix1 s)) = fix1 s /\
  fixup s = Py.replace "+ -" "- " s.
Proof.
  intros Ha Hb Ra Rb Rc s.
  destruct (cleanup_facts v a b c Ha Hb Ra Rb Rc) as (H0 & H2 & _ & Hf).
  fold s in H0, H2, Hf.
  assert (split3 : forall t, absent3 t = true ->
            Py.contains "- -" t = false /\ Py.contains " 1x" t = false /\
            Py.contains " 1y" t = false).
  { intros t H. unfold absent3 in H.
    apply andb_true_iff in H as [H H3]. apply andb_true_iff in H as [H1' H2'].
    apply negb_true_iff in H1', H2', H3. auto. }
  destruct (split3 _ H2) as (P1 & P2 & P3).
  assert (E2 : fix2 (fix1 s) = fix1 s) by (unfold fix2; now apply replace_absent).
  repeat split; try (apply split3; assumption); try assumption.
  rewrite E2. unfold fix3. now apply replace_absent.
Qed.

Lemma fixup_is_first_replacement_witness :
  (-1 <> 0 /\ -11 <> 0 /\ -20 <= -1 <= 20 /\ -20 <= -11 <= 20 /\ -120 <= 12 <= 120) /\
  fixup (format_equation Fixed (-1) (-11) 12)
  = Py.replace "+ -" "- " (format_equation Fixed (-1) (-11) 12).
Proof.
  split; [lia | apply (fixup_is_first_replacement Fixed (-1) (-11) 12); lia].
Defined.

End FixupFacts.

(** ** The rejection loop *)

Section SynthFacts.
Import Synth Spec.

Lemma values_spec (z : Z) : In z values <-> -20 <= z <= 20.
Proof.
  unfold values. split; intros H.
  - apply range_in in H. lia.
  - apply in_range. lia.
Qed.

(** What a pass that breaks has drawn and checked. *)
Lemma loop_body_break (rnd : Source) (n n' : nat) (d : Drawn) :
  loop_body rnd n = (Break d, n') ->
  n' = (n + 6)%nat /\
  d = mkDrawn (rnd n) (rnd (S n)) (rnd (S (S n))) (rnd (S (S (S n))))
              (rnd (S (S (S (S n))))) (rnd (S (S (S (S (S n))))))
              (c1 d) (c2 d) /\
  a1 d * sol_x d + b1 d * sol_y d = c1 d /\
  a2 d * sol_x d + b2 d * sol_y d = c2 d /\
  (a1 d <> 0 /\ b1 d <> 0 /\ a2 d <> 0 /\ b2 d <> 0) /\
  Z.abs (c1 d) <= 120 /\ Z.abs (c2 d) <= 120.
Proof.
  unfold loop_body, bind, weighted_random, ret.
  destruct ((rnd (S (S n)) =? 0) || (rnd (S (S (S n))) =? 0)
            || (rnd (S (S (S (S n)))) =? 0) || (rnd (S (S (S (S (S n))))) =? 0)) eqn:Hz;
    [discriminate|].
  destruct ((Z.abs (rnd (S (S n)) * rnd n + rnd (S (S (S n))) * rnd (S n)) >? 120)
            || (Z.abs (rnd (S (S (S (S n)))) * rnd n
                       + rnd (S (S (S (S (S n))))) * rnd (S n)) >? 120)) eqn:Hc;
    [discriminate|].
  intros H. injection H as <- <-. cbn.
  repeat (apply orb_false_iff in Hz as [Hz ?]).
  apply orb_false_iff in Hc as [Hc1 Hc2].
  repeat split; try lia.
Qed.

Lemma loop_body_continue (rnd : Source) (n n' : nat) :
  loop_body rnd n = (Continue, n') -> n' = (n + 6)%nat.
Proof.
  unfold loop_body, bind, weighted_random, ret.
  repeat match goal with |- context [if ?b then _ else _] => destruct b end;
    intros H; inversion H; lia.
Qed.

Lemma break_valid (rnd : Source) (n n' : nat) (d : Drawn) :
  (forall k, In (rnd k) values) ->
  loop_body rnd n = (Break d, n') -> valid_drawn d.
Proof.
  intros Hr H. apply loop_body_break in H as (_ & Hd & E1 & E2 & Hnz & B1 & B2).
  assert (R : forall k, -20 <= rnd k <= 20) by (intros k; apply values_spec, Hr).
  unfold valid_drawn. rewrite Hd in *. cbn in *.
  repeat split; try tauto; try apply R; lia.
Qed.

Lemma rejection_loop_sound (fuel : nat) (rnd : Source) (n n' : nat) (d : Drawn) :
  (forall k, In (rnd k) values) ->
  rejection_loop fuel rnd n = Some (d, n') -> valid_drawn d.
Proof.
  intros Hr. revert n. induction fuel as [|fuel IH]; intros n H; [discriminate|].
  cbn [rejection_loop] in H.
  destruct (loop_body rnd n) as [[|d0] m] eqn:Hb.
  - eapply IH, H.
  - injection H as <- <-. eapply break_valid; eauto.
Qed.

(** The loop makes exactly [j + 1] passes when tuple [j] is the first one
    that is accepted. *)
Lemma rejection_loop_passes (rnd : Source) (j n : nat) :
  accepts rnd (n + 6 * j) = true ->
  (forall i, (i < j)%nat -> accepts rnd (n + 6 * i) = false) ->
  exists d,
    fst (loop_body rnd (n + 6 * j)%nat) = Break d /\
    (forall fuel, (fuel <= j)%nat -> rejection_loop fuel rnd n = None) /\
    (forall fuel, (j < fuel)%nat ->
                  rejection_loop fuel rnd n = Some (d, (n + 6 * (j + 1))%nat)).
Proof.
  revert n. induction j as [|j IH]; intros n Hacc Hrej.
  - unfold accepts in Hacc. replace (n + 6 * 0)%nat with n in * by lia.
    destruct (loop_body rnd n) as [[|d] m] eqn:Hb; [discriminate|].
    exists d. split; [reflexivity|]. split.
    + intros fuel Hf. assert (fuel = 0%nat) by lia. subst. reflexivity.
    + intros [|fuel] Hf; [lia|]. cbn [rejection_loop]. rewrite Hb.
      apply loop_body_break in Hb as [-> _]. f_equal; f_equal; lia.
  - pose proof (Hrej 0%nat ltac:(lia)) as H0. unfold accepts in H0.
    replace (n + 6 * 0)%nat with n in H0 by lia.
    destruct (loop_body rnd n) as [[|d0] m] eqn:Hb; [|discriminate].
    pose proof (loop_body_continue _ _ _ Hb) as ->.
    destruct (IH (n + 6)%nat) as (d & Hd & Hnone & Hsome).
    + replace (n + 6 + 6 * j)%nat with (n + 6 * S j)%nat by lia. exact Hacc.
    + intros i Hi. replace (n + 6 + 6 * i)%nat with (n + 6 * S i)%nat by lia.
      apply Hrej. lia.
    + exists d. split.
      * replace (n + 6 * S j)%nat with (n + 6 + 6 * j)%nat by lia. exact Hd.
      * split.
        -- intros [|fuel] Hf; [reflexivity|]. cbn [rejection_loop]. rewrite Hb.
           apply Hnone. lia.
        -- intros [|fuel] Hf; [lia|]. cbn [rejection_loop]. rewrite Hb.
           rewrite Hsome by lia. f_equal; f_equal; lia.
Qed.


(** C1.  Whatever the synthesizer returns, when every draw of the source is
    an element of [values], was built from locals with
    [a_i*x + b_i*y = c_i], non-zero coefficients in [-20, 20], a solution in
    [-20, 20] and constants of absolute value at most 120. *)
Theorem generated_system_valid
    (v : Variant) (fuel : nat) (rnd : Source) (n n' : nat) (item : Item) :
  (forall k, In (rnd k) values) ->
  generate_valid_equation_system v fuel rnd n = Some (item, n') ->
  exists d,
    item = ((fixup (format_equation v (a1 d) (b1 d) (c1 d)),
             fixup (format_equation v (a2 d) (b2 d) (c2 d))),
            (sol_x d, sol_y d)) /\
    a1 d * sol_x d + b1 d * sol_y d = c1 d /\
    a2 d * sol_x d + b2 d * sol_y d = c2 d /\
    (a1 d <> 0 /\ b1 d <> 0 /\ a2 d <> 0 /\ b2 d <> 0) /\
    (-20 <= a1 d <= 20 /\ -20 <= b1 d <= 20 /\ -20 <= a2 d <= 20 /\ -20 <= b2 d <= 20) /\
    (-20 <= sol_x d <= 20 /\ -20 <= sol_y d <= 20) /\
    Z.abs (c1 d) <= 120 /\ Z.abs (c2 d) <= 120.
Proof.
  intros Hr H. unfold generate_valid_equation_system in H.
  destruct (rejection_loop fuel rnd n) as [[d m]|] eqn:Hl; [|discriminate].
  injection H as <- <-. exists d. split; [reflexivity|].
  exact (rejection_loop_sound _ _ _ _ _ Hr Hl).
Qed.

Lemma generated_system_valid_witness :
  (forall k, In ((fun _ : nat => 1) k) values) /\
  generate_valid_equation_system Fixed 1 (fun _ => 1) 0
  = Some ((("x + y = 2", "x + y = 2"), (1, 1)), 6%nat) /\
  exists d,
    (("x + y = 2", "x + y = 2"), (1, 1))
    = ((fixup (format_equation Fixed (a1 d) (b1 d) (c1 d)),
        fixup (format_equation Fixed (a2 d) (b2 d) (c2 d))),
       (sol_x d, sol_y d)) /\
    a1 d * sol_x d + b1 d * sol_y d = c1 d /\
    a2 d * sol_x d + b2 d * sol_y d = c2 d /\
    (a1 d <> 0 /\ b1 d <> 0 /\ a2 d <> 0 /\ b2 d <> 0) /\
    (-20 <= a1 d <= 20 /\ -20 <= b1 d <= 20 /\ -20 <= a2 d <= 20 /\ -20 <= b2 d <= 20) /\
    (-20 <= sol_x d <= 20 /\ -20 <= sol_y d <= 20) /\
    Z.abs (c1 d) <= 120 /\ Z.abs (c2 d) <= 120.
Proof.
  assert (Hr : forall k, In ((fun _ : nat => 1) k) values)
    by (intros k; apply values_spec; lia).
  split; [exact Hr|]. split; [reflexivity|].
  apply (generated_system_valid Fixed 1 (fun _ => 1) 0 6 _ Hr). reflexivity.
Defined.


Lemma late_source_values (m k : nat) : In (late_source m k) values.
Proof.
  apply values_spec. unfold late_source. destruct (k <? 6 * m)%nat; lia.
Qed.


(** No number of passes is a cap: for every [m] there is a source on which
    the loop rejects [m] tuples and returns on the next one. *)
Lemma no_retry_cap (v : Variant) (m : nat) :
  (forall k, In (late_source m k) values) /\
  generate_valid_equation_system v m (late_source m) 0 = None /\
  generate_valid_equation_system v (S m) (late_source m) 0
  = Some (build v (mkDrawn 1 1 1 1 1 1 2 2), (6 * (m + 1))%nat).
Proof.
  split; [intros k; apply late_source_values|].
  assert (Hacc : accepts (late_source m) (0 + 6 * m) = true).
  { unfold accepts, loop_body, bind, weighted_random, ret, late_source. cbn [fst].
    repeat match goal with
           | |- context [(?a <? ?b)%nat] =>
               let E := fresh in destruct (Nat.ltb_spec a b) as [E|E]; [lia|]
           end.
    reflexivity. }
  assert (Hrej : forall i, (i < m)%nat -> accepts (late_source m) (0 + 6 * i) = false).
  { intros i Hi. unfold accepts, loop_body, bind, weighted_random, ret, late_source.
    cbn [fst].
    destruct (Nat.ltb_spec (S (S (0 + 6 * i))) (6 * m)) as [E|E]; [|lia].
    reflexivity. }
  destruct (rejection_loop_passes _ m 0 Hacc Hrej) as (d & Hd & Hnone & Hsome).
  unfold generate_valid_equation_system.
  rewrite Hnone by lia. rewrite Hsome by lia. split; [reflexivity|].
  assert (d = mkDrawn 1 1 1 1 1 1 2 2) as ->; [|reflexivity].
  revert Hd. unfold loop_body, bind, weighted_random, ret, late_source. cbn [fst].
  repeat match goal with
         | |- context [(?a <? ?b)%nat] =>
             let E := fresh in destruct (Nat.ltb_spec a b) as [E|E]; [lia|]
         end.
  cbn. intros Heq. now injection Heq.
Qed.

End SynthFacts.

(** ** Loops *)

Section LoopFacts.
Import Canvas.
Context {I S : Type}.

Lemma for_break_inv (P : S -> Prop) (body : I -> S -> S * bool) (iter : list I) (s : S) :
  P s ->
  (forall i s0, In i iter -> P s0 -> P (fst (body i s0))) ->
  P (for_break body iter s).
Proof.
  revert s. induction iter as [|i iter IH]; intros s Hs Hstep; simpl; [exact Hs|].
  pose proof (Hstep i s (or_introl eq_refl) Hs) as H.
  destruct (body i s) as [s' broke]. simpl in H.
  destruct broke; [exact H|].
  apply IH; [exact H|]. intros j s0 Hj. apply Hstep. now right.
Qed.

(** A loop that never breaks appends one value per index to a log [f]. *)
Lemma for_break_log {B : Type} (Inv : list I -> S -> Prop) (f : S -> list B) (g : I -> B)
    (body : I -> S -> S * bool) :
  (forall i rest s, Inv (i :: rest) s ->
     exists s', body i s = (s', false) /\ Inv rest s' /\ f s' = (f s ++ [g i])%list) ->
  forall iter s, Inv iter s -> f (for_break body iter s) = (f s ++ map g iter)%list.
Proof.
  intros Hstep iter. induction iter as [|i iter IH]; intros s Hs; simpl.
  - now rewrite app_nil_r.
  - destruct (Hstep i iter s Hs) as (s' & -> & Hs' & Hf).
    rewrite IH by exact Hs'. rewrite Hf, <- app_assoc. reflexivity.
Qed.

Lemma fold_left_inv (P : S -> Prop) (f : S -> I -> S) (l : list I) (s : S) :
  P s -> (forall i s0, In i l -> P s0 -> P (f s0 i)) -> P (fold_left f l s).
Proof.
  revert s. induction l as [|i l IH]; intros s Hs Hstep; simpl; [exact Hs|].
  apply IH.
  - apply Hstep; [now left | exact Hs].
  - intros j s0 Hj. apply Hstep. now right.
Qed.

Lemma for_each_inv (P : S -> Prop) (body : I -> S -> Result S) (iter : list I) (s s' : S) :
  P s ->
  (forall i s0 s1, In i iter -> P s0 -> body i s0 = Returned s1 -> P s1) ->
  for_each body iter s = Returned s' -> P s'.
Proof.
  revert s. induction iter as [|i iter IH]; intros s Hs Hstep H; simpl in H.
  - injection H as <-. exact Hs.
  - destruct (body i s) as [s1| |] eqn:Hb; try discriminate. simpl in H.
    apply (IH s1); [eapply Hstep; eauto; now left | | exact H].
    intros j s0 s2 Hj. apply Hstep. now right.
Qed.

Lemma for_each_total (body : I -> S -> Result S) (iter : list I) (s : S) :
  (forall i s0, exists s1, body i s0 = Returned s1) ->
  exists s', for_each body iter s = Returned s'.
Proof.
  intros Hb. revert s. induction iter as [|i iter IH]; intros s; simpl.
  - now exists s.
  - destruct (Hb i s) as [s1 ->]. simpl. apply IH.
Qed.

End LoopFacts.

(** ** Lists, slices and coordinates *)

Section ListFacts.
Import Canvas.

Lemma nth_error_slice {A} (l : list A) (a b i : nat) (x : A) :
  nth_error (Py.slice l a b) i = Some x -> nth_error l (a + i) = Some x.
Proof.
  unfold Py.slice. rewrite nth_error_firstn.
  destruct (i <? b - a)%nat; [|discriminate]. now rewrite nth_error_skipn.
Qed.

Lemma length_slice {A} (l : list A) (a b : nat) :
  List.length (Py.slice l a b) = Nat.min (b - a) (List.length l - a).
Proof. unfold Py.slice. now rewrite length_firstn, length_skipn. Qed.

Lemma in_combine_seq {A} (l : list A) (a i : nat) (x : A) :
  In (i, x) (combine (seq a (List.length l)) l) ->
  (a <= i)%nat /\ nth_error l (i - a) = Some x.
Proof.
  revert a. induction l as [|y l IH]; intros a H; simpl in H; [contradiction|].
  destruct H as [H|H].
  - injection H as <- <-. split; [lia|]. now rewrite Nat.sub_diag.
  - apply IH in H as [Hle Hn]. split; [lia|].
    replace (i - a)%nat with (S (i - S a)) by lia. exact Hn.
Qed.

Lemma in_enumerate {A} (l : list A) (i : nat) (x : A) :
  In (i, x) (Py.enumerate l) -> nth_error l i = Some x.
Proof.
  intros H. apply in_combine_seq in H as [_ H]. now rewrite Nat.sub_0_r in H.
Qed.

Lemma nth_error_combine_seq {A} (l : list A) (a i : nat) (x : A) :
  nth_error l i = Some x ->
  nth_error (combine (seq a (List.length l)) l) i = Some ((a + i)%nat, x).
Proof.
  revert a i. induction l as [|y l IH]; intros a [|i] H; simpl in *; try discriminate.
  - injection H as <-. now rewrite Nat.add_0_r.
  - rewrite (IH (S a) i H). do 2 f_equal. lia.
Qed.

Lemma nth_repeat_lt {A} (a d : A) (m n : nat) : (n < m)%nat -> nth n (repeat a m) d = a.
Proof.
  intros H. apply nth_error_nth. now apply nth_error_repeat.
Qed.

Lemma map_add_seq (k n : nat) : map (fun i => (k + i)%nat) (seq 0 n) = seq k n.
Proof.
  induction n as [|n IH]; [reflexivity|].
  rewrite !seq_S, map_app, IH. reflexivity.
Qed.

Lemma Qltb_lt (a b : Q) : Qltb a b = true <-> (a < b)%Q.
Proof.
  unfold Qltb. rewrite negb_true_iff. split; intros H.
  - apply Qnot_le_lt. intros Hle. apply Qle_bool_iff in Hle. congruence.
  - destruct (Qle_bool b a) eqn:E; [|reflexivity].
    apply Qle_bool_iff in E. now apply Qlt_not_le in H.
Qed.

Lemma ofnat_nonzero (n : nat) : (0 < n)%nat -> Qeq_bool (ofnat n) 0 = false.
Proof.
  intros H. destruct (Qeq_bool (ofnat n) 0) eqn:E; [|reflexivity].
  apply Qeq_bool_iff in E. unfold ofnat, Qeq in E. simpl in E. lia.
Qed.

End ListFacts.

(** ** The answer key and the systems drawn *)

Section AnswerKey.
Import Synth Canvas LayoutSpec.

Lemma paired_snoc (data : list Item) (cs : list DrawCall) (ss : list Solution)
    (c : DrawCall) (s : Solution) :
  paired data cs ss ->
  numbered data (dc_eq_num c) = Some (dc_equations c, s) ->
  paired data (cs ++ [c]) (ss ++ [s]).
Proof.
  intros H Hc. apply Forall2_app; [exact H|]. constructor; [exact Hc | constructor].
Qed.

(** *** The three inner loop bodies keep calls and solutions paired *)

Lemma hannah_step_paired L ipc equations page_num col x idx s :
  paired_state equations (snd s) ->
  paired_state equations
    (snd (fst (HannahGen.item_step L ipc equations page_num col x idx s))).
Proof.
  destruct s as [y st]. unfold HannahGen.item_step. intros H.
  destruct (nth_error equations _) as [[eo sol]|] eqn:E; [|exact H].
  cbn. apply paired_snoc; [exact H|]. exact E.
Qed.

Lemma fixed_step_paired L ipc all start stop col x idx s :
  paired_state all (snd s) ->
  paired_state all
    (snd (fst (FixedGen.item_step L ipc (Py.slice all start stop) start col x idx s))).
Proof.
  destruct s as [y st]. unfold FixedGen.item_step. intros H.
  destruct (nth_error (Py.slice all start stop) _) as [[eo sol]|] eqn:E; [|exact H].
  apply nth_error_slice in E.
  assert (P : paired_state all
                (record_call (mkCall x y (start + col * ipc + idx + 1) eo)
                             (append_solution sol st))).
  { apply paired_snoc; [exact H|]. unfold numbered. cbn [dc_eq_num dc_equations].
    transitivity (nth_error all (start + (col * ipc + idx))); [f_equal; lia | exact E]. }
  destruct (Qltb _ _); exact P.
Qed.

Lemma dynamic_step_paired L all start stop ipc col x sp entry s :
  In entry (Py.enumerate
              (Py.slice (Py.slice all start stop) (col * ipc) ((col + 1) * ipc))) ->
  paired_state all (snd s) ->
  paired_state all
    (snd (fst (DynamicGen.item_step L start (col * ipc) x sp entry s))).
Proof.
  destruct s as [y st]. destruct entry as [idx [eo sol]]. intros Hin H.
  apply in_enumerate in Hin. do 2 apply nth_error_slice in Hin.
  unfold DynamicGen.item_step. cbn [fst snd].
  apply paired_snoc; [exact H|]. unfold numbered. cbn [dc_eq_num dc_equations].
  transitivity (nth_error all (start + (col * ipc + idx))); [f_equal; lia | exact Hin].
Qed.

(** *** Columns and pages *)

Lemma hannah_page_paired L nc ipc equations page_num total :
  let pg := HannahGen.print_page L nc ipc equations page_num total in
  paired equations (page_calls pg) (page_solutions pg).
Proof.
  unfold HannahGen.print_page. destruct letter as [w h]. cbn.
  apply (fold_left_inv (paired_state equations)); [constructor|].
  intros col st _ Hst. unfold HannahGen.column.
  apply (for_break_inv (fun s => paired_state equations (snd s))); [exact Hst|].
  intros idx s _. apply hannah_step_paired.
Qed.

Lemma fixed_page_paired L all nc ipc pn p :
  let pg := FixedGen.page L all nc ipc pn p in
  paired all (page_calls pg) (page_solutions pg).
Proof.
  unfold FixedGen.page. cbn.
  apply (fold_left_inv (paired_state all)); [constructor|].
  intros col st _ Hst. unfold FixedGen.column.
  apply (for_break_inv (fun s => paired_state all (snd s))); [exact Hst|].
  intros idx s _. apply fixed_step_paired.
Qed.

Lemma dynamic_column_returns L nc ipc page_data start col st :
  exists st', DynamicGen.column L nc ipc page_data start col st = Returned st'.
Proof.
  unfold DynamicGen.column.
  destruct (List.length (Py.slice page_data (col * ipc) ((col + 1) * ipc)) =? 0)%nat
    eqn:En; [now exists st|].
  apply Nat.eqb_neq in En. unfold DynamicGen.spacing.
  destruct (Nat.ltb_spec 0 (List.length (Py.slice page_data (col * ipc) ((col + 1) * ipc))))
    as [Hpos|Hpos]; [|lia].
  unfold div. rewrite ofnat_nonzero by exact Hpos. cbn. eexists. reflexivity.
Qed.

Lemma dynamic_column_paired L nc ipc all start stop col st st' :
  paired_state all st ->
  DynamicGen.column L nc ipc (Py.slice all start stop) start col st = Returned st' ->
  paired_state all st'.
Proof.
  intros Hst. unfold DynamicGen.column.
  destruct (List.length _ =? 0)%nat; [now intros [= <-]|].
  destruct (DynamicGen.spacing _ _) as [sp| |]; cbn; try discriminate.
  intros [= <-].
  apply (for_break_inv (fun s => paired_state all (snd s))); [exact Hst|].
  intros entry s Hin Hs.
  exact (dynamic_step_paired L all start stop ipc col _ _ entry s Hin Hs).
Qed.

Lemma dynamic_page_returns L all nc ipc p :
  exists pg, DynamicGen.page L all nc ipc p = Returned pg /\
             paired all (page_calls pg) (page_solutions pg).
Proof.
  unfold DynamicGen.page.
  destruct (for_each_total
              (DynamicGen.column L nc ipc
                 (Py.slice all (p * nc * ipc) (p * nc * ipc + nc * ipc)) (p * nc * ipc))
              (seq 0 nc) empty_state) as [st Hst].
  { intros col s0. apply dynamic_column_returns. }
  rewrite Hst. cbn. eexists. split; [reflexivity|]. cbn.
  refine (for_each_inv (paired_state all) _ _ _ _ _ _ Hst); [constructor|].
  intros col s0 s1 _ H0 H1. exact (dynamic_column_paired _ _ _ _ _ _ _ _ _ H0 H1).
Qed.

(** *** From pairing to the footer string *)

Lemma footer_entry_entry (i : nat) (s : Solution) : footer_entry (i, s) = entry (i + 1) s.
Proof. destruct s as [s0 s1]. reflexivity. Qed.

Lemma paired_key (data : list Item) (pg : Page) :
  page_footer pg = footer_text (page_solutions pg) ->
  paired data (page_calls pg) (page_solutions pg) ->
  key_matches_calls data pg.
Proof.
  intros Hf Hp. exists (map footer_entry (Py.enumerate (page_solutions pg))).
  pose proof (Forall2_length Hp) as Hlen.
  split; [exact Hf|]. split.
  - unfold Py.enumerate. rewrite length_map, length_combine, length_seq. lia.
  - intros i c Hc.
    destruct (nth_error (page_solutions pg) i) as [s|] eqn:Hs.
    + exists s. split.
      * clear Hf Hlen. revert i Hc Hs.
        induction Hp as [|c0 s0 cs ss H0 Hp IH]; intros [|i] Hc Hs; try discriminate.
        -- cbn in Hc, Hs. injection Hc as <-. injection Hs as <-. exact H0.
        -- cbn in Hc, Hs. eapply IH; eauto.
      * unfold Py.enumerate.
        erewrite map_nth_error; [|apply nth_error_combine_seq; exact Hs].
        now rewrite footer_entry_entry.
    + apply nth_error_None in Hs.
      assert (i < List.length (page_calls pg))%nat by (apply nth_error_Some; congruence).
      lia.
Qed.

Lemma enumerate_combine (cs : list DrawCall) (ss : list Solution) (a : nat) :
  List.length cs = List.length ss ->
  map (fun ics => entry (fst ics + 1) (snd (snd ics)))
      (combine (seq a (List.length (combine cs ss))) (combine cs ss))
  = map footer_entry (combine (seq a (List.length ss)) ss).
Proof.
  revert ss a. induction cs as [|c cs IH]; intros [|s ss] a H; try discriminate;
    [reflexivity|].
  cbn [combine List.length seq map fst snd]. rewrite footer_entry_entry.
  f_equal. apply IH. now injection H.
Qed.

Lemma paired_position (data : list Item) (pg : Page) :
  page_footer pg = footer_text (page_solutions pg) ->
  paired data (page_calls pg) (page_solutions pg) ->
  page_footer pg = key_by_position pg /\
  List.length (page_solutions pg) = List.length (page_calls pg).
Proof.
  intros Hf Hp. pose proof (Forall2_length Hp) as Hlen. split; [|lia].
  rewrite Hf. unfold key_by_position, footer_text, Py.enumerate.
  now rewrite enumerate_combine.
Qed.

(** C10.  On every page of each of the three layouts the footer has one
    entry per system drawn, and its i-th entry gives the solution of the
    i-th system drawn, whichever way the column loops ended. *)
Theorem answer_key_matches_drawn_systems :
  (forall L nc ipc equations page_num total,
     key_matches_calls equations (HannahGen.print_page L nc ipc equations page_num total)) /\
  (forall L all nc ipc pn p,
     key_matches_calls all (FixedGen.page L all nc ipc pn p)) /\
  (forall L all nc ipc p,
     exists pg, DynamicGen.page L all nc ipc p = Returned pg /\ key_matches_calls all pg).
Proof.
  split; [|split].
  - intros. apply paired_key; [|apply hannah_page_paired].
    unfold HannahGen.print_page. destruct letter. reflexivity.
  - intros. apply paired_key; [reflexivity | apply fixed_page_paired].
  - intros. destruct (dynamic_page_returns L all nc ipc p) as (pg & Hpg & Hp).
    exists pg. split; [exact Hpg|]. apply paired_key; [|exact Hp].
    unfold DynamicGen.page in Hpg.
    destruct (for_each _ _ _) as [st| |]; cbn in Hpg; try discriminate.
    now injection Hpg as <-.
Qed.

(** C2 as the code has it.  On every page of each of the three layouts the
    footer is the two-space join of one ["{n}.({x},{y})"] entry per call, in
    call order, where [n] counts the entries of that page from 1. *)
Theorem answer_key_numbers_by_position :
  (forall L nc ipc equations page_num total,
     let pg := HannahGen.print_page L nc ipc equations page_num total in
     page_footer pg = key_by_position pg /\
     List.length (page_solutions pg) = List.length (page_calls pg)) /\
  (forall L all nc ipc pn p,
     let pg := FixedGen.page L all nc ipc pn p in
     page_footer pg = key_by_position pg /\
     List.length (page_solutions pg) = List.length (page_calls pg)) /\
  (forall L all nc ipc p,
     exists pg, DynamicGen.page L all nc ipc p = Returned pg /\
                page_footer pg = key_by_position pg /\
                List.length (page_solutions pg) = List.length (page_calls pg)).
Proof.
  split; [|split].
  - intros. apply (paired_position equations); [|apply hannah_page_paired].
    unfold pg, HannahGen.print_page. destruct letter. reflexivity.
  - intros. apply (paired_position all); [reflexivity | apply fixed_page_paired].
  - intros. destruct (dynamic_page_returns L all nc ipc p) as (pg & Hpg & Hp).
    exists pg. split; [exact Hpg|]. apply (paired_position all); [|exact Hp].
    unfold DynamicGen.page in Hpg.
    destruct (for_each _ _ _) as [st| |]; cbn in Hpg; try discriminate.
    now injection Hpg as <-.
Qed.

End AnswerKey.

(** ** Fixed-count pages *)

Section FixedPages.
Import Synth Canvas LayoutSpec.

Lemma skipn_nth_error {A} (l : list A) (a : nat) (x : A) :
  nth_error l a = Some x -> skipn a l = x :: skipn (S a) l.
Proof.
  revert a. induction l as [|y l IH]; intros [|a] H; simpl in *; try discriminate.
  - now injection H as <-.
  - rewrite (IH a H). reflexivity.
Qed.

(** Calls numbered [a + 1 .. a + n] and paired with [all] are the slice
    [all[a : a + n]], equations and solutions alike. *)
Lemma paired_consecutive (all : list Item) (cs : list DrawCall) (ss : list Solution) :
  paired all cs ss ->
  forall a n, map dc_eq_num cs = seq (a + 1) n ->
  map dc_equations cs = map fst (Py.slice all a (a + n)) /\
  ss = map snd (Py.slice all a (a + n)).
Proof.
  unfold Py.slice.
  induction 1 as [|c s cs ss Hc Hp IH]; intros a n Hn.
  - destruct n; [|discriminate]. replace (a + 0 - a)%nat with 0%nat by lia. now split.
  - destruct n as [|n]; [discriminate|]. cbn [map seq] in Hn.
    injection Hn as Hnum Hrest.
    unfold numbered in Hc. rewrite Hnum in Hc.
    replace (a + 1 - 1)%nat with a in Hc by lia.
    replace (a + S n - a)%nat with (S n) by lia.
    rewrite (skipn_nth_error _ _ _ Hc). cbn [firstn map fst snd].
    destruct (IH (S a) n) as [IH1 IH2].
    { rewrite Hrest. f_equal; lia. }
    replace (S a + n - S a)%nat with n in IH1, IH2 by lia.
    now rewrite IH1, IH2.
Qed.

End FixedPages.

(** ** Pages of the generator under [Hannah/] *)

Section HannahPages.
Import Synth Canvas LayoutSpec.

(** On page 1 the number of an item is its place in the list handed to
    [print_page], and a column draws its whole range. *)
Lemma hannah_column_full L nc ipc equations st col :
  ((col + 1) * ipc <= List.length equations)%nat ->
  eq_nums (HannahGen.column L nc ipc equations 1 st col)
  = (eq_nums st ++ seq (col * ipc + 1) ipc)%list.
Proof.
  intros Hlen. unfold HannahGen.column.
  set (x := nth col _ _). set (y := nth col _ _).
  pose (Inv := fun (rest : list nat) (s : Q * PageState) =>
                 forall idx, In idx rest -> (idx < ipc)%nat).
  rewrite (for_break_log Inv (fun s => eq_nums (snd s))
             (fun idx => (col * ipc + idx + 1)%nat)).
  - cbn [snd]. apply f_equal.
    rewrite <- (map_add_seq (col * ipc + 1) ipc).
    apply map_ext. intros; lia.
  - intros idx rest [y0 st0] Hin.
    assert (Hidx : (idx < ipc)%nat) by (apply Hin; now left).
    unfold HannahGen.item_step.
    replace ((1 - 1) * HannahGen.equations_per_page L + col * ipc + idx + 1)%nat
      with (col * ipc + idx + 1)%nat by lia.
    destruct (nth_error equations (col * ipc + idx + 1 - 1)) as [[eo sol]|] eqn:E.
    + eexists. split; [reflexivity|]. split.
      * intros j Hj. apply Hin. now right.
      * unfold eq_nums. cbn. now rewrite map_app.
    + apply nth_error_None in E. nia.
  - intros idx Hidx. apply in_seq in Hidx. lia.
Qed.

Lemma hannah_columns_full L nc ipc equations :
  forall n a st, ((a + n) * ipc <= List.length equations)%nat ->
  eq_nums (fold_left (HannahGen.column L nc ipc equations 1) (seq a n) st)
  = (eq_nums st ++ seq (a * ipc + 1) (n * ipc))%list.
Proof.
  induction n as [|n IH]; intros a st Ha.
  - cbn. now rewrite app_nil_r.
  - cbn [seq fold_left]. rewrite IH by lia.
    rewrite hannah_column_full by nia.
    rewrite <- app_assoc. f_equal.
    replace (S n * ipc)%nat with (ipc + n * ipc)%nat by lia.
    rewrite seq_app. do 2 f_equal. lia.
Qed.

Lemma hannah_first_page_full L nc ipc equations total :
  (nc * ipc <= List.length equations)%nat ->
  let pg := HannahGen.print_page L nc ipc equations 1 total in
  map dc_eq_num (page_calls pg) = seq 1 (nc * ipc) /\
  map dc_equations (page_calls pg) = map fst (Py.slice equations 0 (nc * ipc)) /\
  page_solutions pg = map snd (Py.slice equations 0 (nc * ipc)).
Proof.
  intros Hlen pg.
  assert (Hnums : map dc_eq_num (page_calls pg) = seq (0 + 1) (nc * ipc)).
  { unfold pg, HannahGen.print_page. destruct letter as [w h]. cbn [page_calls].
    change (map dc_eq_num (calls ?s)) with (eq_nums s).
    rewrite hannah_columns_full by (cbn; lia). reflexivity. }
  split; [exact Hnums|].
  exact (paired_consecutive _ _ _ (hannah_page_paired L nc ipc equations 1 total)
           0%nat (nc * ipc)%nat Hnums).
Qed.

(** [create_pdf] of the generator under [Hannah/] hands [print_page] the
    slice of the page; on the first page the whole slice is drawn. *)
Lemma hannah_first_page_slice L all nc ipc pn :
  HannahGen.calculate_layout nc ipc (15 * mm)%Q (10 * mm)%Q = Returned L ->
  (nc * ipc <= List.length all)%nat ->
  HannahGen.equations_per_page L = (nc * ipc)%nat /\
  exists pg rest,
    HannahGen.pages L all nc ipc (S pn) = pg :: rest /\
    map dc_eq_num (page_calls pg) = seq 1 (nc * ipc) /\
    map dc_equations (page_calls pg) = map fst (Py.slice all 0 (nc * ipc)) /\
    page_solutions pg = map snd (Py.slice all 0 (nc * ipc)).
Proof.
  intros HL Hlen.
  assert (Hepp : HannahGen.equations_per_page L = (nc * ipc)%nat).
  { revert HL. unfold HannahGen.calculate_layout, div. cbn [letter rbind].
    destruct (Qeq_bool (ofnat nc) 0); cbn [rbind]; [discriminate|].
    now intros [= <-]. }
  split; [exact Hepp|].
  unfold HannahGen.pages. cbn [seq map]. eexists. eexists. split; [reflexivity|].
  rewrite Hepp. cbn [Nat.mul Nat.add].
  replace (nc * ipc + 0)%nat with (nc * ipc)%nat by lia.
  assert (Hs : (nc * ipc <= List.length (Py.slice all 0 (nc * ipc)))%nat).
  { rewrite length_slice. lia. }
  destruct (hannah_first_page_full L nc ipc (Py.slice all 0 (nc * ipc)) (S pn) Hs)
    as (H1 & H2 & H3).
  assert (Hidem : Py.slice (Py.slice all 0 (nc * ipc)) 0 (nc * ipc)
                  = Py.slice all 0 (nc * ipc)).
  { unfold Py.slice. cbn [skipn]. rewrite !Nat.sub_0_r.
    rewrite firstn_firstn, Nat.min_id. reflexivity. }
  rewrite Hidem in H2, H3. repeat split; assumption.
Qed.

End HannahPages.


(** ** Dynamic-fit columns *)

Section DynamicColumns.
Import Synth Canvas LayoutSpec.
Local Open Scope Q_scope.

Variable L : DynamicGen.Layout.

Lemma column_calls_length x f num i y (items : list Item) :
  List.length (column_calls x f num i y items) = List.length items.
Proof.
  revert i y. induction items as [|it items IH]; intros i y; cbn; [reflexivity|].
  now rewrite IH.
Qed.

Lemma column_calls_equations x f num i y (items : list Item) :
  map dc_equations (column_calls x f num i y items) = map fst items.
Proof.
  revert i y. induction items as [|it items IH]; intros i y; cbn; [reflexivity|].
  now rewrite IH.
Qed.

Lemma column_calls_numbers x f num i y (items : list Item) :
  map dc_eq_num (column_calls x f num i y items) = map num (seq i (List.length items)).
Proof.
  revert i y. induction items as [|it items IH]; intros i y; cbn; [reflexivity|].
  now rewrite IH.
Qed.

Lemma column_calls_y x f num i y (items : list Item) :
  map dc_y (column_calls x f num i y items)
  = map (fun j => Nat.iter j f y) (seq 0 (List.length items)).
Proof.
  revert i y. induction items as [|it items IH]; intros i y; [reflexivity|].
  cbn [column_calls map List.length seq dc_y Nat.iter nat_rect].
  rewrite IH, <- seq_shift, map_map. f_equal.
  apply map_ext. intros j. symmetry. apply Nat.iter_succ_r.
Qed.

Lemma dynamic_item_step start col_start x sp i eo sol y st :
  DynamicGen.item_step L start col_start x sp (i, (eo, sol)) (y, st)
  = ((advance L sp y,
      record_call (mkCall x y (start + (col_start + i) + 1) eo) (append_solution sol st)),
     Qltb (advance L sp y) (DynamicGen.footer_y L + 15 * mm)).
Proof. reflexivity. Qed.

(** The inner loop places the first [placed_count] items and nothing else. *)
Lemma dynamic_loop start col_start x sp (items : list Item) :
  forall i y st,
    let k := placed_count L sp y (List.length items) in
    let r := for_break (DynamicGen.item_step L start col_start x sp)
                       (combine (seq i (List.length items)) items) (y, st) in
    calls (snd r)
    = (calls st ++ column_calls x (advance L sp)
                     (fun idx => (start + (col_start + idx) + 1)%nat) i y
                     (firstn k items))%list /\
    solutions (snd r) = (solutions st ++ map snd (firstn k items))%list.
Proof.
  induction items as [|[eo sol] items IH]; intros i y st.
  - cbn. now rewrite !app_nil_r.
  - cbn [List.length seq combine for_break placed_count].
    rewrite dynamic_item_step.
    destruct (Qltb (advance L sp y) (DynamicGen.footer_y L + 15 * mm)).
    + cbn. split; reflexivity.
    + destruct (IH (S i) (advance L sp y)
                  (record_call (mkCall x y (start + (col_start + i) + 1) eo)
                               (append_solution sol st))) as [IH1 IH2].
      cbn zeta in IH1, IH2. rewrite IH1, IH2. cbn. rewrite <- !app_assoc.
      split; reflexivity.
Qed.

Lemma placed_count_bounds sp y n :
  (0 < n)%nat -> (1 <= placed_count L sp y n <= n)%nat.
Proof.
  revert y. induction n as [|n IH]; intros y Hn; [lia|].
  cbn [placed_count]. destruct (Qltb _ _); [lia|].
  destruct n as [|n]; [cbn; lia|]. specialize (IH (advance L sp y)). lia.
Qed.

(** Every placed item after the first stands at or above the limit. *)
Lemma placed_count_above sp y n j :
  (1 <= j < placed_count L sp y n)%nat ->
  Qltb (Nat.iter j (advance L sp) y) (DynamicGen.footer_y L + 15 * mm) = false.
Proof.
  revert y j. induction n as [|n IH]; intros y j Hj; [cbn in Hj; lia|].
  cbn [placed_count] in Hj.
  destruct (Qltb (advance L sp y) _) eqn:E; [lia|].
  destruct j as [|[|j]]; [lia | exact E |].
  rewrite Nat.iter_succ_r. apply IH. lia.
Qed.

(** The first item left out is the first whose place falls below the limit. *)
Lemma placed_count_stop sp y n :
  (placed_count L sp y n < n)%nat ->
  Qltb (Nat.iter (placed_count L sp y n) (advance L sp) y)
       (DynamicGen.footer_y L + 15 * mm) = true.
Proof.
  revert y. induction n as [|n IH]; intros y Hk; [cbn in Hk; lia|].
  cbn [placed_count] in *.
  destruct (Qltb (advance L sp y) _) eqn:E; [exact E|].
  rewrite Nat.iter_succ_r. apply IH. lia.
Qed.

(** What one pass of the column loop does to the page state. *)
Lemma dynamic_column_spec nc ipc page_data start col st :
  (col < nc)%nat ->
  let col_data := Py.slice page_data (col * ipc) ((col + 1) * ipc) in
  let n := List.length col_data in
  let remaining := DynamicGen.base_y L - DynamicGen.footer_y L - 10 * mm
                   - ofnat n * (2 * DynamicGen.line_height L) in
  let sp := remaining / ofnat n in
  let k := placed_count L sp (DynamicGen.base_y L) n in
  (0 < n)%nat ->
  DynamicGen.spacing remaining n = Returned sp /\
  exists st' x,
    DynamicGen.column L nc ipc page_data start col st = Returned st' /\
    calls st'
    = (calls st ++ column_calls x (advance L sp)
                     (fun idx => (start + (col * ipc + idx) + 1)%nat) 0
                     (DynamicGen.base_y L) (firstn k col_data))%list /\
    solutions st' = (solutions st ++ map snd (firstn k col_data))%list.
Proof.
  intros Hcol col_data n remaining sp k Hn.
  assert (Hsp : DynamicGen.spacing remaining n = Returned sp).
  { unfold DynamicGen.spacing, div.
    destruct (Nat.ltb_spec 0 n) as [_|]; [|lia].
    now rewrite ofnat_nonzero. }
  split; [exact Hsp|].
  unfold DynamicGen.column. fold col_data. fold n.
  destruct (Nat.eqb_spec n 0) as [|_]; [lia|].
  rewrite (nth_repeat_lt _ _ _ _ Hcol). fold remaining. rewrite Hsp. cbn [rbind].
  eexists. eexists. split; [reflexivity|].
  apply (dynamic_loop start (col * ipc) _ sp col_data 0 (DynamicGen.base_y L) st).
Qed.

End DynamicColumns.

(** ** The dynamic column, whatever the float arithmetic *)

Section FloatingColumns.
Import Synth Canvas LayoutSpec.

Variable A : Floating.Arith.
Variable L : Floating.Layout A.


Lemma floating_calls_equations x f num i y (items : list Item) :
  map Floating.fc_equations (Floating.column_calls A x f num i y items) = map fst items.
Proof.
  revert i y. induction items as [|it items IH]; intros i y; cbn; [reflexivity|].
  now rewrite IH.
Qed.

Lemma floating_calls_numbers x f num i y (items : list Item) :
  map Floating.fc_eq_num (Floating.column_calls A x f num i y items)
  = map num (seq i (List.length items)).
Proof.
  revert i y. induction items as [|it items IH]; intros i y; cbn; [reflexivity|].
  now rewrite IH.
Qed.

Lemma floating_calls_y x f num i y (items : list Item) :
  map Floating.fc_y (Floating.column_calls A x f num i y items)
  = map (fun j => Nat.iter j f y) (seq 0 (List.length items)).
Proof.
  revert i y. induction items as [|it items IH]; intros i y; [reflexivity|].
  cbn [Floating.column_calls map List.length seq Floating.fc_y Nat.iter nat_rect].
  rewrite IH, <- seq_shift, map_map. f_equal.
  apply map_ext. intros j. symmetry. apply Nat.iter_succ_r.
Qed.

Lemma floating_item_step start col_start x sp i eo sol y st :
  Floating.item_step A L start col_start x sp (i, (eo, sol)) (y, st)
  = ((Floating.advance A L sp y,
      Floating.record_call A (Floating.mkCall A x y (start + (col_start + i) + 1) eo)
        (Floating.append_solution A sol st)),
     Floating.fltb A (Floating.advance A L sp y) (Floating.limit A L)).
Proof. reflexivity. Qed.

(** The inner loop places the first [placed_count] items and nothing else. *)
Lemma floating_loop start col_start x sp (items : list Item) :
  forall i y st,
    let k := Floating.placed_count A L sp y (List.length items) in
    let r := for_break (Floating.item_step A L start col_start x sp)
                       (combine (seq i (List.length items)) items) (y, st) in
    Floating.fcalls (snd r)
    = (Floating.fcalls st
       ++ Floating.column_calls A x (Floating.advance A L sp)
            (fun idx => (start + (col_start + idx) + 1)%nat) i y
            (firstn k items))%list /\
    Floating.fsolutions (snd r)
    = (Floating.fsolutions st ++ map snd (firstn k items))%list.
Proof.
  induction items as [|[eo sol] items IH]; intros i y st.
  - cbn. now rewrite !app_nil_r.
  - cbn [List.length seq combine for_break Floating.placed_count].
    rewrite floating_item_step.
    destruct (Floating.fltb A (Floating.advance A L sp y) (Floating.limit A L)).
    + cbn. split; reflexivity.
    + destruct (IH (S i) (Floating.advance A L sp y)
                  (Floating.record_call A
                     (Floating.mkCall A x y (start + (col_start + i) + 1) eo)
                     (Floating.append_solution A sol st))) as [IH1 IH2].
      cbn zeta in IH1, IH2. rewrite IH1, IH2. cbn. rewrite <- !app_assoc.
      split; reflexivity.
Qed.

Lemma floating_count_bounds sp y n :
  (0 < n)%nat -> (1 <= Floating.placed_count A L sp y n <= n)%nat.
Proof.
  revert y. induction n as [|n IH]; intros y Hn; [lia|].
  cbn [Floating.placed_count]. destruct (Floating.fltb _ _ _); [lia|].
  destruct n as [|n]; [cbn; lia|]. specialize (IH (Floating.advance A L sp y)). lia.
Qed.

(** The check did not fire at the place of a drawn item after the first. *)
Lemma floating_count_above sp y n j :
  (1 <= j < Floating.placed_count A L sp y n)%nat ->
  Floating.fltb A (Nat.iter j (Floating.advance A L sp) y) (Floating.limit A L) = false.
Proof.
  revert y j. induction n as [|n IH]; intros y j Hj; [cbn in Hj; lia|].
  cbn [Floating.placed_count] in Hj.
  destruct (Floating.fltb A (Floating.advance A L sp y) _) eqn:E; [lia|].
  destruct j as [|[|j]]; [lia | exact E |].
  rewrite Nat.iter_succ_r. apply IH. lia.
Qed.

(** The check fired at the place the first item left out would have had. *)
Lemma floating_count_stop sp y n :
  (Floating.placed_count A L sp y n < n)%nat ->
  Floating.fltb A (Nat.iter (Floating.placed_count A L sp y n) (Floating.advance A L sp) y)
                (Floating.limit A L) = true.
Proof.
  revert y. induction n as [|n IH]; intros y Hk; [cbn in Hk; lia|].
  cbn [Floating.placed_count] in *.
  destruct (Floating.fltb A (Floating.advance A L sp y) _) eqn:E; [exact E|].
  rewrite Nat.iter_succ_r. apply IH. lia.
Qed.

(** What one pass of the column loop does to the page state. *)
Lemma floating_column_spec nc ipc page_data start col st :
  (col < nc)%nat ->
  let col_data := Py.slice page_data (col * ipc) ((col + 1) * ipc) in
  let n := List.length col_data in
  let remaining :=
    Floating.fsub A
      (Floating.fsub A (Floating.fsub A (Floating.base_y A L) (Floating.footer_y A L))
                     (Floating.times A 10 (Floating.unit_mm A)))
      (Floating.times A (Z.of_nat n) (Floating.times A 2 (Floating.line_height A L))) in
  let sp := Floating.fdiv A remaining (Floating.of_int A (Z.of_nat n)) in
  let k := Floating.placed_count A L sp (Floating.base_y A L) n in
  (0 < n)%nat ->
  Floating.spacing A remaining n = Returned sp /\
  exists st' x,
    Floating.column A L nc ipc page_data start col st = Returned st' /\
    Floating.fcalls st'
    = (Floating.fcalls st
       ++ Floating.column_calls A x (Floating.advance A L sp)
            (fun idx => (start + (col * ipc + idx) + 1)%nat) 0
            (Floating.base_y A L) (firstn k col_data))%list /\
    Floating.fsolutions st' = (Floating.fsolutions st ++ map snd (firstn k col_data))%list.
Proof.
  intros Hcol col_data n remaining sp k Hn.
  assert (Hsp : Floating.spacing A remaining n = Returned sp).
  { unfold Floating.spacing, Floating.divide.
    destruct (Nat.ltb_spec 0 n) as [_|]; [|lia].
    destruct (Z.eqb_spec (Z.of_nat n) 0) as [E|_]; [lia|reflexivity]. }
  split; [exact Hsp|].
  unfold Floating.column. fold col_data. fold n.
  destruct (Nat.eqb_spec n 0) as [|_]; [lia|].
  rewrite (nth_repeat_lt _ _ _ _ Hcol). fold remaining. rewrite Hsp. cbn [rbind].
  eexists. eexists. split; [reflexivity|].
  apply (floating_loop start (col * ipc) _ sp col_data 0 (Floating.base_y A L) st).
Qed.

(** C4 as the code has it.  Whatever the float arithmetic: in a populated
    column of the dynamic layout there is a count [k >= 1] such that exactly
    the first [k] items are drawn, at the successive places [y 0, y 1, ...]
    the loop computes; the bottom check [y < footer_y + 15 * mm] did not
    fire at the place of any drawn item after the first, and when items are
    left out it fired at the place the first of them would have had.  The
    items left out appear in neither the calls nor the solutions.  A run of
    [create_pdf] hands back [None], and a run that draws pages prints
    nothing. *)
Theorem dynamic_overflow_excludes_tail nc ipc page_data start col st :
  (col < nc)%nat ->
  let col_data := Py.slice page_data (col * ipc) ((col + 1) * ipc) in
  let n := List.length col_data in
  let remaining :=
    Floating.fsub A
      (Floating.fsub A (Floating.fsub A (Floating.base_y A L) (Floating.footer_y A L))
                     (Floating.times A 10 (Floating.unit_mm A)))
      (Floating.times A (Z.of_nat n) (Floating.times A 2 (Floating.line_height A L))) in
  let sp := Floating.fdiv A remaining (Floating.of_int A (Z.of_nat n)) in
  let y := fun j => Nat.iter j (Floating.advance A L sp) (Floating.base_y A L) in
  let below := fun j =>
    Floating.fltb A (y j)
      (Floating.fadd A (Floating.footer_y A L) (Floating.times A 15 (Floating.unit_mm A))) in
  (0 < n)%nat ->
  exists k st' new,
    Floating.column A L nc ipc page_data start col st = Returned st' /\
    (1 <= k <= n)%nat /\
    (forall j, (1 <= j < k)%nat -> below j = false) /\
    ((k < n)%nat -> below k = true) /\
    Floating.fcalls st' = (Floating.fcalls st ++ new)%list /\
    map Floating.fc_equations new = map fst (firstn k col_data) /\
    map Floating.fc_eq_num new = seq (start + col * ipc + 1) k /\
    map Floating.fc_y new = map y (seq 0 k) /\
    Floating.fsolutions st' = (Floating.fsolutions st ++ map snd (firstn k col_data))%list /\
    (forall font fuel rnd a b c run,
       DynamicGen.create_pdf font fuel rnd a b c = Returned run ->
       returned run = None_ /\
       (forall pgs, saved run = Some pgs -> stdout run = [])).
Proof.
  intros Hcol col_data n remaining sp y below Hn.
  destruct (floating_column_spec nc ipc page_data start col st Hcol Hn)
    as (_ & st' & x & Hret & Hcalls & Hsols).
  fold col_data n remaining sp in Hcalls, Hsols.
  set (k := Floating.placed_count A L sp (Floating.base_y A L) n) in *.
  pose proof (floating_count_bounds sp (Floating.base_y A L) n Hn) as Hk. fold k in Hk.
  assert (Hlen : List.length (firstn k col_data) = k).
  { rewrite length_firstn. fold n. lia. }
  exists k. eexists. eexists. split; [exact Hret|]. split; [exact Hk|].
  split; [|split; [|split; [exact Hcalls|]]].
  - intros j Hj. apply (floating_count_above sp (Floating.base_y A L) n j Hj).
  - intros Hlt. apply (floating_count_stop sp (Floating.base_y A L) n Hlt).
  - split; [apply floating_calls_equations|]. split; [|split; [|split; [exact Hsols|]]].
    + rewrite floating_calls_numbers, Hlen.
      rewrite <- (map_add_seq (start + col * ipc + 1) k).
      apply map_ext. intros; lia.
    + rewrite floating_calls_y, Hlen. reflexivity.
    + intros font fuel rnd a b c run. unfold DynamicGen.create_pdf.
      destruct font; cbn [negb].
      * destruct (DynamicGen.calculate_layout a) as [L0| |]; cbn [rbind]; try discriminate.
        destruct (pregenerate _ _ _ _ _) as [gen| |]; cbn [rbind]; try discriminate.
        destruct (DynamicGen.pages _ _ _ _ _) as [pgs0| |]; cbn [rbind]; try discriminate.
        intros [= <-]. split; reflexivity.
      * intros [= <-]. split; [reflexivity|]. cbn. discriminate.
Qed.


End FloatingColumns.

(** ** The exact instance is the column of [DynamicGen] *)

Section ExactInstance.
Import Synth Canvas LayoutSpec FloatingSpec.

Lemma exact_step L start col_start x sp (e : nat * Item) y st :
  DynamicGen.item_step L start col_start x sp e (y, Floating.exact_state st)
  = let r := Floating.item_step Floating.exact (Floating.exact_layout L)
               start col_start x sp e (y, st) in
    ((fst (fst r), Floating.exact_state (snd (fst r))), snd r).
Proof.
  destruct e as [idx [eo sol]].
  unfold DynamicGen.item_step, Floating.item_step, Floating.exact_state.
  cbn. rewrite map_app. reflexivity.
Qed.

Lemma exact_loop L start col_start x sp (items : list (nat * Item)) :
  forall y st,
    for_break (DynamicGen.item_step L start col_start x sp) items
              (y, Floating.exact_state st)
    = let r := for_break (Floating.item_step Floating.exact (Floating.exact_layout L)
                            start col_start x sp) items (y, st) in
      (fst r, Floating.exact_state (snd r)).
Proof.
  induction items as [|e items IH]; intros y st; [reflexivity|].
  cbn [for_break]. rewrite exact_step.
  destruct (Floating.item_step Floating.exact (Floating.exact_layout L)
              start col_start x sp e (y, st)) as [[y' st'] broke].
  cbn [fst snd]. destruct broke; [reflexivity|]. apply IH.
Qed.

(** [DynamicGen.column] is [Floating.column] on exact rationals. *)
Lemma dynamic_column_exact L nc ipc page_data start col st :
  DynamicGen.column L nc ipc page_data start col (Floating.exact_state st)
  = Floating.exact_result
      (Floating.column Floating.exact (Floating.exact_layout L) nc ipc page_data start col st).
Proof.
  unfold DynamicGen.column, Floating.column.
  set (col_data := Py.slice page_data (col * ipc) ((col + 1) * ipc)).
  destruct (List.length col_data) as [|n] eqn:En; [reflexivity|].
  cbn [Nat.eqb].
  unfold DynamicGen.spacing, Floating.spacing, Floating.divide, div.
  cbn [Nat.ltb Nat.leb].
  rewrite ofnat_nonzero by lia.
  change (Z.of_nat (S n) =? 0)%Z with false. cbn [rbind].
  unfold Floating.exact_result. f_equal.
  match goal with |- snd (for_break _ _ (?y, _)) = _ => 
    rewrite (exact_loop L start (col * ipc) _ _ (Py.enumerate col_data) y st) end.
  reflexivity.
Qed.

End ExactInstance.

(** ** The dynamic column on doubles *)

Section Doubles.
Import Synth Canvas LayoutSpec FloatingSpec.

Lemma layout64_computed :
  Floating.calculate_layout Floating.binary64 1 = Returned (layout64 1) /\
  Floating.calculate_layout Floating.binary64 3 = Returned (layout64 3).
Proof. split; vm_compute; reflexivity. Qed.

(** On doubles one column of a letter page draws 45 of 46 items, and all of
    45. *)
Lemma doubles_column_counts :
  column_count Floating.binary64 (layout64 1) 1 45 (worksheet 45) 0 = Some 45%nat /\
  column_count Floating.binary64 (layout64 1) 1 46 (worksheet 46) 0 = Some 45%nat.
Proof. split; vm_compute; reflexivity. Qed.

Lemma dynamic_overflow_excludes_tail_witness :
  (0 < 1)%nat /\
  (0 < List.length (Py.slice (worksheet 46) (0 * 46) ((0 + 1) * 46)))%nat /\
  exists k st' new,
    Floating.column Floating.binary64 (layout64 1) 1 46 (worksheet 46) 0 0
      (Floating.empty_state Floating.binary64) = Returned st' /\
    (1 <= k <= List.length (Py.slice (worksheet 46) (0 * 46) ((0 + 1) * 46)))%nat /\
    Floating.fcalls st' = (Floating.fcalls (Floating.empty_state Floating.binary64) ++ new)%list /\
    map Floating.fc_eq_num new = seq (0 + 0 * 46 + 1) k /\
    Floating.fsolutions st'
    = (Floating.fsolutions (Floating.empty_state Floating.binary64)
       ++ map snd (firstn k (Py.slice (worksheet 46) (0 * 46) ((0 + 1) * 46))))%list.
Proof.
  split; [lia|]. split; [vm_compute; lia|].
  destruct (dynamic_overflow_excludes_tail Floating.binary64 (layout64 1) 1 46
              (worksheet 46) 0 0 (Floating.empty_state Floating.binary64)
              ltac:(lia) ltac:(vm_compute; lia))
    as (k & st' & new & H1 & H2 & _ & _ & H3 & _ & H4 & _ & H5 & _).
  exists k, st', new. repeat split; try assumption; apply H2.
Defined.


End Doubles.

(** ** Dynamic-fit pages *)

Section DynamicPages.
Import Synth Canvas LayoutSpec.
Local Open Scope Q_scope.

Lemma dynamic_layout_derived (nc : nat) (L : DynamicGen.Layout) :
  DynamicGen.calculate_layout nc = Returned L ->
  DynamicGen.equations_per_column L
  = Qfloor ((DynamicGen.base_y L - DynamicGen.footer_y L)
            / (2 * DynamicGen.line_height L)) /\
  DynamicGen.equations_per_column L = 17%Z.
Proof.
  unfold DynamicGen.calculate_layout, div, floordiv. cbn [letter rbind].
  destruct (Qeq_bool (ofnat nc) 0); cbn [rbind]; [discriminate|].
  destruct (Qeq_bool (2 * (7 * mm)) 0) eqn:E; cbn [rbind]; [discriminate|].
  intros [= <-]. cbn [DynamicGen.equations_per_column DynamicGen.base_y
                        DynamicGen.footer_y DynamicGen.line_height].
  split; [reflexivity | vm_compute; reflexivity].
Qed.

(** Up to 45 items per column the bottom check stops no column early. *)
Lemma dynamic_no_drop (nc ipc : nat) (L : DynamicGen.Layout) :
  DynamicGen.calculate_layout nc = Returned L ->
  (ipc <= 45)%nat ->
  placed_count L
    ((DynamicGen.base_y L - DynamicGen.footer_y L - 10 * mm
      - ofnat ipc * (2 * DynamicGen.line_height L)) / ofnat ipc)
    (DynamicGen.base_y L) ipc = ipc.
Proof.
  unfold DynamicGen.calculate_layout, div, floordiv. cbn [letter rbind].
  destruct (Qeq_bool (ofnat nc) 0); cbn [rbind]; [discriminate|].
  destruct (Qeq_bool (2 * (7 * mm)) 0) eqn:E; cbn [rbind]; [discriminate|].
  intros [= <-] Hle.
  do 46 (destruct ipc as [|ipc]; [vm_compute; reflexivity|]). lia.
Qed.

Lemma dynamic_column_full L nc ipc page_data start col st :
  (col < nc)%nat ->
  (nc * ipc <= List.length page_data)%nat ->
  placed_count L
    ((DynamicGen.base_y L - DynamicGen.footer_y L - 10 * mm
      - ofnat ipc * (2 * DynamicGen.line_height L)) / ofnat ipc)
    (DynamicGen.base_y L) ipc = ipc ->
  exists st',
    DynamicGen.column L nc ipc page_data start col st = Returned st' /\
    eq_nums st' = (eq_nums st ++ seq (start + col * ipc + 1) ipc)%list.
Proof.
  intros Hcol Hlen Hk.
  assert (Hn : List.length (Py.slice page_data (col * ipc) ((col + 1) * ipc)) = ipc).
  { rewrite length_slice. nia. }
  destruct ipc as [|ipc].
  - exists st. unfold DynamicGen.column. rewrite Hn. cbn.
    split; [reflexivity | now rewrite app_nil_r].
  - destruct (dynamic_column_spec L nc (S ipc) page_data start col st Hcol)
      as (_ & st' & x & Hret & Hcalls & _); [lia|].
    exists st'. split; [exact Hret|].
    unfold eq_nums. rewrite Hcalls, map_app, column_calls_numbers. f_equal.
    rewrite Hn in *. rewrite Hk, length_firstn, Hn, Nat.min_id.
    rewrite <- (map_add_seq (start + col * S ipc + 1) (S ipc)).
    apply map_ext. intros; lia.
Qed.

Lemma dynamic_columns_full L nc ipc page_data start :
  (nc * ipc <= List.length page_data)%nat ->
  placed_count L
    ((DynamicGen.base_y L - DynamicGen.footer_y L - 10 * mm
      - ofnat ipc * (2 * DynamicGen.line_height L)) / ofnat ipc)
    (DynamicGen.base_y L) ipc = ipc ->
  forall n a st, (a + n <= nc)%nat ->
  exists st',
    for_each (DynamicGen.column L nc ipc page_data start) (seq a n) st = Returned st' /\
    eq_nums st' = (eq_nums st ++ seq (start + a * ipc + 1) (n * ipc))%list.
Proof.
  intros Hlen Hk. induction n as [|n IH]; intros a st Ha.
  - exists st. cbn. split; [reflexivity | now rewrite app_nil_r].
  - cbn [seq for_each].
    destruct (dynamic_column_full L nc ipc page_data start a st) as (st1 & -> & H1);
      try assumption; [lia|].
    cbn [rbind]. destruct (IH (S a) st1) as (st' & -> & H'); [lia|].
    exists st'. split; [reflexivity|].
    rewrite H', H1, <- app_assoc. f_equal.
    replace (S n * ipc)%nat with (ipc + n * ipc)%nat by lia.
    rewrite seq_app. do 2 f_equal. lia.
Qed.

Lemma dynamic_pages_ignore_derived (L : DynamicGen.Layout) (e : Z)
    (all : list Item) (nc ipc pn : nat) :
  DynamicGen.pages (with_equations_per_column e L) all nc ipc pn
  = DynamicGen.pages L all nc ipc pn.
Proof.
  unfold DynamicGen.pages. generalize (seq 0 pn) as todo.
  induction todo as [|p todo IH]; [reflexivity|].
  cbn [DynamicGen.pages_from]. rewrite IH. f_equal.
Qed.

(** C6 as the code has it.  [calculate_layout] derives
    [floor((base_y - footer_y) / (2 * line_height))], which is 17 on a letter
    page, and stores it in the layout; the pages are laid out with the count
    the caller supplies: they do not depend on the stored value, and with
    enough input and at most 45 items per column page [p] draws exactly
    [num_columns] columns of the supplied [equations_per_column] items. *)
Theorem dynamic_layout_uses_supplied_count (nc : nat) (L : DynamicGen.Layout) :
  DynamicGen.calculate_layout nc = Returned L ->
  DynamicGen.equations_per_column L
  = Qfloor ((DynamicGen.base_y L - DynamicGen.footer_y L)
            / (2 * DynamicGen.line_height L)) /\
  DynamicGen.equations_per_column L = 17%Z /\
  (forall e all ipc pn,
     DynamicGen.pages (with_equations_per_column e L) all nc ipc pn
     = DynamicGen.pages L all nc ipc pn) /\
  (forall all ipc p,
     (ipc <= 45)%nat ->
     ((p + 1) * (nc * ipc) <= List.length all)%nat ->
     exists pg,
       DynamicGen.page L all nc ipc p = Returned pg /\
       map dc_eq_num (page_calls pg) = seq (p * (nc * ipc) + 1) (nc * ipc)).
Proof.
  intros HL. destruct (dynamic_layout_derived nc L HL) as [H1 H2].
  split; [exact H1|]. split; [exact H2|]. split.
  - intros. apply dynamic_pages_ignore_derived.
  - intros all ipc p Hipc Hlen. unfold DynamicGen.page.
    destruct (dynamic_columns_full L nc ipc
                (Py.slice all (p * nc * ipc) (p * nc * ipc + nc * ipc)) (p * nc * ipc))
      with (n := nc) (a := 0%nat) (st := empty_state) as (st & -> & Hst).
    + rewrite length_slice. lia.
    + eapply dynamic_no_drop; eauto.
    + lia.
    + cbn [rbind]. eexists. split; [reflexivity|]. cbn [page_calls].
      unfold eq_nums in Hst. rewrite Hst. cbn. f_equal; lia.
Qed.

End DynamicPages.

(** ** The generators on concrete worksheets *)

Section Worksheets.
Import Synth Canvas LayoutSpec.

Lemma dynamic_layout_uses_supplied_count_witness :
  DynamicGen.calculate_layout 3 = Returned (dynamic_layout 3) /\
  DynamicGen.equations_per_column (dynamic_layout 3) = 17 /\
  exists pg,
    DynamicGen.page (dynamic_layout 3) (worksheet 60) 3 4 1 = Returned pg /\
    map dc_eq_num (page_calls pg) = seq (1 * (3 * 4) + 1) (3 * 4).
Proof.
  assert (E : DynamicGen.calculate_layout 3 = Returned (dynamic_layout 3))
    by (vm_compute; reflexivity).
  split; [exact E|].
  destruct (dynamic_layout_uses_supplied_count 3 (dynamic_layout 3) E)
    as (_ & H17 & _ & Hpages).
  split; [exact H17|].
  apply Hpages; [lia | vm_compute; lia].
Defined.

(** C2 as stated fails.  In the dynamic generator, with 3 columns of 5 and
    2 pages, the systems of the second page are drawn under the numbers
    16 .. 30, while the footer of that page starts at 1. *)
Lemma answer_key_restarts_on_each_page :
  exists pg,
    DynamicGen.page (dynamic_layout 3) (worksheet 30) 3 5 1 = Returned pg /\
    map dc_eq_num (page_calls pg) = seq 16 15 /\
    Py.startswith "1.(16,1)  2.(17,1)  3.(18,1)" (page_footer pg) = true /\
    Py.startswith "16.(16,1)  17.(17,1)  18.(18,1)" (key_by_display_index pg) = true /\
    page_footer pg <> key_by_display_index pg.
Proof.
  destruct (DynamicGen.page (dynamic_layout 3) (worksheet 30) 3 5 1) as [pg| |] eqn:E;
    vm_compute in E; try discriminate.
  exists pg. split; [reflexivity|]. injection E as <-.
  vm_compute. repeat split. discriminate.
Qed.

(** C3 as stated fails.  In the fixed-count generator, with 3 columns of 10,
    the bottom check ends every column after its ninth item: the first page
    draws 27 of the 30 items of its slice. *)
Lemma fixed_page_stops_at_bottom_check :
  let pg := FixedGen.page (fixed_layout 3) (worksheet 30) 3 10 1 0 in
  FixedGen.calculate_layout 3 (15 * mm)%Q (10 * mm)%Q = Returned (fixed_layout 3) /\
  map dc_eq_num (page_calls pg) = (seq 1 9 ++ seq 11 9 ++ seq 21 9)%list /\
  map dc_eq_num (page_calls pg) <> seq (0 * (3 * 10) + 1) (3 * 10).
Proof. vm_compute. repeat split. discriminate. Qed.

(** The generator under [Hannah/] hands [print_page] the slice of the page
    and [print_page] indexes it by the document-wide number: with 3 columns
    of 5 and 2 pages the second page draws nothing. *)
Lemma hannah_second_page_is_empty :
  map (fun pg => (map dc_eq_num (page_calls pg), page_footer pg))
      (HannahGen.pages (hannah_layout 3 5) (worksheet 30) 3 5 2)
  = [(seq 1 15, footer_text (map snd (worksheet 15))); ([], "")].
Proof. vm_compute. reflexivity. Qed.

Lemma observe_spec (r : Result Run) (a : PyValue) (b : list string) (counts : list nat) :
  observe r = Some (a, b, counts) ->
  exists run pgs,
    r = Returned run /\ saved run = Some pgs /\
    returned run = a /\ stdout run = b /\ call_counts pgs = counts.
Proof.
  unfold observe. destruct r as [run| |]; try discriminate.
  destruct (saved run) as [pgs|] eqn:E; [|discriminate].
  intros H. injection H as Ha Hb Hc. exists run, pgs.
  repeat split; assumption.
Qed.

Lemma overflow_run :
  observe (DynamicGen.create_pdf true 1 (fun _ => 1) 1 46 1) = Some (None_, [], [45%nat]).
Proof. vm_compute. reflexivity. Qed.

Lemma full_run :
  observe (DynamicGen.create_pdf true 1 (fun _ => 1) 1 45 1) = Some (None_, [], [45%nat]).
Proof. vm_compute. reflexivity. Qed.

(** C4 as stated fails.  One column of 46 items loses its last item, one
    column of 45 loses none, and [create_pdf] returns and prints the same in
    both runs: no function of what the caller receives is the number of
    dropped items. *)
Lemma dropped_items_are_not_reported : ~ drop_count_reported.
Proof.
  intros [report H].
  destruct (observe_spec _ _ _ _ overflow_run) as (r46 & p46 & E46 & S46 & R46 & O46 & C46).
  destruct (observe_spec _ _ _ _ full_run) as (r45 & p45 & E45 & S45 & R45 & O45 & C45).
  pose proof (H 1%nat (fun _ => 1) 1%nat 46%nat 1%nat r46 p46 E46 S46) as A.
  pose proof (H 1%nat (fun _ => 1) 1%nat 45%nat 1%nat r45 p45 E45 S45) as B.
  assert (L46 : List.length p46 = 1%nat).
  { apply (f_equal (@List.length nat)) in C46. unfold call_counts in C46.
    now rewrite length_map in C46. }
  assert (L45 : List.length p45 = 1%nat).
  { apply (f_equal (@List.length nat)) in C45. unfold call_counts in C45.
    now rewrite length_map in C45. }
  unfold dropped in A, B. rewrite R46, O46, C46, L46 in A. rewrite R45, O45, C45, L45 in B.
  rewrite A in B. discriminate B.
Qed.

(** C6 as stated fails.  With 3 columns the derived count is 17; asked for
    4 items per column, the first page holds 12 calls, not the 51 that 17
    per column would give. *)
Lemma derived_count_is_not_used : ~ uses_derived_count.
Proof.
  intros H.
  specialize (H 3%nat (dynamic_layout 3) (worksheet 60) 4%nat 5%nat
                ltac:(vm_compute; reflexivity)).
  apply (f_equal first_page_calls) in H. vm_compute in H. discriminate.
Qed.

End Worksheets.

Example str_samples :
Py.str 0 = "0" /\ Py.str (-5) = "-5" /\ Py.str 120 = "120".
Proof. repeat split. Qed.

Example replace_samples :
Py.replace "+ -" "- " "3x + -2y = -7" = "3x - 2y = -7" /\
Py.replace "aa" "b" "aaaaa" = "bba" /\
Py.replace "- -" "+ " "x - -y" = "x + y".
Proof. repeat split. Qed.

Example format_term_samples :
Synth.format_term 1 "x" = "x" /\ Synth.format_term (-1) "y" = "-y" /\
Synth.format_term 5 "x" = "5x" /\ Synth.format_term 0 "x" = "".
Proof. repeat split. Qed.

Example build_sample :
Synth.build Hannah (Synth.mkDrawn 2 (-3) (-1) 11 1 (-1) (-35) 5)
= (("{ -x + 11y = -35 }", "{ x - y = 5 }"), (2, -3)).
Proof. reflexivity. Qed.

Example footer_sample :
Canvas.footer_text [(1, 2); (-3, 4)] = "1.(1,2)  2.(-3,4)".
Proof. reflexivity. Qed.

(** ** The equations as they read on the worksheet *)

Section ShownEquations.
Import Synth Spec ExtraSpec.

Lemma shown_split (v : Variant) (a b c : Z) :
  shown v a b c = shown_head v a b ++ String "=" (tail v c).
Proof.
  destruct v; unfold shown, shown_head, tail;
    repeat (rewrite ?append_assoc; simpl); reflexivity.
Qed.

Lemma heads_shown_checked (v : Variant) :
  forallb (fun a => forallb (fun b => head_shown_ok v a b) coefficients) coefficients = true.
Proof. destruct v; vm_compute; reflexivity. Qed.

Lemma tails_shown_checked (v : Variant) :
  forallb (fun c => tail_shown_ok v c) (Py.range (-120) 241) = true.
Proof. destruct v; vm_compute; reflexivity. Qed.

Lemma head_shown_facts (v : Variant) (a b : Z) :
  a <> 0 -> b <> 0 -> -20 <= a <= 20 -> -20 <= b <= 20 -> head_shown_ok v a b = true.
Proof.
  intros Ha Hb Ra Rb.
  pose proof (heads_shown_checked v) as H.
  rewrite forallb_forall in H. specialize (H a (in_coefficients a Ha Ra)).
  rewrite forallb_forall in H. exact (H b (in_coefficients b Hb Rb)).
Qed.

Lemma tail_shown_facts (v : Variant) (c : Z) : -120 <= c <= 120 -> tail_shown_ok v c = true.
Proof.
  intros Rc. pose proof (tails_shown_checked v) as H.
  rewrite forallb_forall in H. apply H, in_range. lia.
Qed.

(** The cleaned string is the cleaned left side, the [=] sign and the
    untouched right side. *)
Lemma fixup_split (v : Variant) (a b c : Z) :
  a <> 0 -> b <> 0 -> -20 <= a <= 20 -> -20 <= b <= 20 -> -120 <= c <= 120 ->
  fixup (format_equation v a b c) = fix1 (head v a b) ++ String "=" (tail v c).
Proof.
  intros Ha Hb Ra Rb Rc.
  destruct (cleanup_facts v a b c Ha Hb Ra Rb Rc) as (_ & _ & _ & ->).
  pose proof (tail_facts v c Rc) as Ht. unfold tail_ok in Ht.
  apply andb_true_iff in Ht as [_ Ht]. apply negb_true_iff in Ht.
  rewrite format_equation_split. unfold fix1.
  rewrite replace_sep by reflexivity.
  now rewrite (replace_absent _ _ _ (tail v c) Ht).
Qed.

(** X1.  A returned equation reads [<a>x + <b>y = c] when [b] is positive and
    [<a>x - <|b|>y = c] when [b] is negative, a coefficient 1 being left out;
    the constant stands unchanged to the right of the [=] sign. *)
Theorem returned_equation_shape (v : Variant) (a b c : Z) :
  a <> 0 -> b <> 0 -> -20 <= a <= 20 -> -20 <= b <= 20 -> -120 <= c <= 120 ->
  fixup (format_equation v a b c) = shown v a b c.
Proof.
  intros Ha Hb Ra Rb Rc.
  rewrite fixup_split by assumption. rewrite shown_split. f_equal.
  pose proof (head_shown_facts v a b Ha Hb Ra Rb) as H. unfold head_shown_ok in H.
  repeat (apply andb_true_iff in H as [H _]).
  now apply String.eqb_eq.
Qed.

Lemma returned_equation_shape_witness :
  (-1 <> 0 /\ -11 <> 0 /\ -20 <= -1 <= 20 /\ -20 <= -11 <= 20 /\ -120 <= -35 <= 120) /\
  fixup (format_equation Hannah (-1) (-11) (-35)) = "{ -x - 11y = -35 }".
Proof.
  split; [lia | apply (returned_equation_shape Hannah (-1) (-11) (-35)); lia].
Defined.

(** X2.  A returned equation always shows both variables, and none of
    [+ -], [- -], [+-], [--] is left in it. *)
Theorem returned_equation_clean (v : Variant) (a b c : Z) :
  a <> 0 -> b <> 0 -> -20 <= a <= 20 -> -20 <= b <= 20 -> -120 <= c <= 120 ->
  let s := fixup (format_equation v a b c) in
  (Py.contains "x" s = true /\ Py.contains "y" s = true) /\
  Py.contains "+ -" s = false /\ Py.contains "- -" s = false /\
  Py.contains "+-" s = false /\ Py.contains "--" s = false.
Proof.
  intros Ha Hb Ra Rb Rc s.
  destruct (cleanup_facts v a b c Ha Hb Ra Rb Rc) as (_ & H3 & Hpm & Hf).
  pose proof (head_shown_facts v a b Ha Hb Ra Rb) as Hh. unfold head_shown_ok in Hh.
  apply andb_true_iff in Hh as [Hh Hh5]. apply andb_true_iff in Hh as [Hh Hh4].
  apply andb_true_iff in Hh as [Hh Hy]. apply andb_true_iff in Hh as [_ Hx].
  pose proof (tail_shown_facts v c Rc) as Ht. unfold tail_shown_ok in Ht.
  apply andb_true_iff in Ht as [Ht1 Ht2].
  apply negb_true_iff in Hh4, Hh5, Ht1, Ht2.
  assert (Es : s = fix1 (head v a b) ++ String "=" (tail v c)) by now apply fixup_split.
  split; [split|split; [|split; [|split]]].
  - rewrite Es, contains_sep by reflexivity. now rewrite Hx.
  - rewrite Es, contains_sep by reflexivity. now rewrite Hy.
  - unfold s. now rewrite Hf.
  - unfold s. rewrite Hf. unfold absent3 in H3.
    apply andb_true_iff in H3 as [H3 _]. apply andb_true_iff in H3 as [H3 _].
    now apply negb_true_iff in H3.
  - rewrite Es, contains_sep by reflexivity. now rewrite Hh5, Ht2.
  - rewrite Es, contains_sep by reflexivity. now rewrite Hh4, Ht1.
Qed.

Lemma returned_equation_clean_witness :
  (3 <> 0 /\ -1 <> 0 /\ -20 <= 3 <= 20 /\ -20 <= -1 <= 20 /\ -120 <= -7 <= 120) /\
  Py.contains "+ -" (fixup (format_equation Fixed 3 (-1) (-7))) = false.
Proof.
  split; [lia | apply (returned_equation_clean Fixed 3 (-1) (-7)); lia].
Defined.

End ShownEquations.

(** ** More on the synthesizer *)

Section SynthMore.
Import Synth Canvas Spec ExtraSpec.

Lemma rejection_loop_advances (fuel : nat) (rnd : Source) (n n' : nat) (d : Drawn) :
  rejection_loop fuel rnd n = Some (d, n') -> (n + 6 <= n')%nat.
Proof.
  revert n. induction fuel as [|fuel IH]; intros n H; [discriminate|].
  cbn [rejection_loop] in H.
  destruct (loop_body rnd n) as [[|d0] m] eqn:Hb.
  - apply loop_body_continue in Hb. apply IH in H. lia.
  - injection H as <- <-. apply loop_body_break in Hb. lia.
Qed.

(** X3.  The rejection tests do not look at the determinant: a tuple whose
    second equation repeats the coefficients of the first is accepted on the
    spot, and the two equations returned are the same string, so the solution
    printed in the answer key is not the only one. *)
Theorem singular_system_accepted (v : Variant) (fuel : nat) (rnd : Source) (n : nat) :
  let x := rnd n in
  let y := rnd (1 + n)%nat in
  let a := rnd (2 + n)%nat in
  let b := rnd (3 + n)%nat in
  rnd (4 + n)%nat = a -> rnd (5 + n)%nat = b ->
  a <> 0 -> b <> 0 -> Z.abs (a * x + b * y) <= 120 ->
  generate_valid_equation_system v (S fuel) rnd n
  = Some (((fixup (format_equation v a b (a * x + b * y)),
            fixup (format_equation v a b (a * x + b * y))), (x, y)), (6 + n)%nat) /\
  a * (x + b) + b * (y - a) = a * x + b * y.
Proof.
  intros x y a b Ha2 Hb2 Ha Hb Hc. split; [|ring].
  unfold generate_valid_equation_system. cbn [rejection_loop].
  unfold loop_body, bind, weighted_random, ret. cbn [Nat.add] in *.
  rewrite Ha2, Hb2. fold x y a b.
  apply Z.eqb_neq in Ha, Hb. rewrite Ha, Hb. cbn [orb].
  assert (Hg : (Z.abs (a * x + b * y) >? 120) = false).
  { destruct (Z.gtb_spec (Z.abs (a * x + b * y)) 120); [lia | reflexivity]. }
  rewrite Hg. cbn [orb]. reflexivity.
Qed.

Lemma singular_system_accepted_witness :
  ((fun _ : nat => 1) 4%nat = (fun _ : nat => 1) 2%nat /\
   (fun _ : nat => 1) 5%nat = (fun _ : nat => 1) 3%nat /\
   1 <> 0 /\ Z.abs (1 * 1 + 1 * 1) <= 120) /\
  generate_valid_equation_system Fixed 1 (fun _ => 1) 0
  = Some ((("x + y = 2", "x + y = 2"), (1, 1)), 6%nat).
Proof.
  split; [repeat split; lia|].
  apply (singular_system_accepted Fixed 0 (fun _ => 1) 0); try reflexivity; lia.
Defined.

(** X4.  The pre-generation loop of [create_pdf] hands back exactly the
    number of systems asked for, every one of them valid, and uses at least
    six draws for each; it never raises. *)
Theorem pregenerate_valid (v : Variant) (fuel total : nat) (rnd : Source) (n : nat) :
  (forall k, In (rnd k) values) ->
  (forall e, pregenerate v fuel total rnd n <> Raised e) /\
  forall items n',
    pregenerate v fuel total rnd n = Returned (items, n') ->
    List.length items = total /\
    Forall (valid_system v) items /\
    (n + 6 * total <= n')%nat.
Proof.
  intros Hr. revert n. induction total as [|total IH]; intros n.
  - split; [discriminate|]. cbn. intros items n' [= <- <-].
    repeat split; [constructor | lia].
  - cbn [pregenerate]. unfold generate_valid_equation_system.
    destruct (rejection_loop fuel rnd n) as [[d n1]|] eqn:Hl; [|split; discriminate].
    destruct (IH n1) as [Hno Hok].
    destruct (pregenerate v fuel total rnd n1) as [[items1 n2]| |] eqn:Hp; cbn [rbind].
    + split; [discriminate|]. intros items n' [= <- <-].
      destruct (Hok items1 n2 eq_refl) as (Hlen & Hall & Hpos).
      apply rejection_loop_advances in Hl as Hadv.
      cbn [fst snd List.length]. repeat split; [lia | | lia].
      constructor; [|exact Hall]. exists d. split; [reflexivity|].
      eapply rejection_loop_sound; eauto.
    + destruct (Hno e eq_refl).
    + split; discriminate.
Qed.

Lemma pregenerate_valid_witness :
  (forall k, In ((fun _ : nat => 1) k) values) /\
  forall items n',
    pregenerate Dynamic 1 3 (fun _ => 1) 0 = Returned (items, n') ->
    List.length items = 3%nat /\
    Forall (valid_system Dynamic) items /\
    (0 + 6 * 3 <= n')%nat.
Proof.
  assert (Hr : forall k, In ((fun _ : nat => 1) k) values)
    by (intros k; apply values_spec; lia).
  split; [exact Hr|].
  apply (pregenerate_valid Dynamic 1 3 (fun _ => 1) 0 Hr).
Defined.

End SynthMore.

(** ** Page geometry *)

Section Geometry.
Import Synth Canvas LayoutSpec ExtraSpec.
Local Open Scope Q_scope.

Lemma mm_value : mm == 360 # 127.
Proof. reflexivity. Qed.

Lemma ofnat_pos (n : nat) : (0 < n)%nat -> 0 < ofnat n.
Proof. intros H. unfold ofnat, Qlt. simpl. lia. Qed.

Lemma ofnat_le (n m : nat) : (n <= m)%nat <-> ofnat n <= ofnat m.
Proof. unfold ofnat, Qle. simpl. lia. Qed.

Lemma ofnat_pred (n : nat) : (0 < n)%nat -> inject_Z (Z.of_nat n - 1) == ofnat n - 1.
Proof. intros H. unfold ofnat, Qeq, Qminus, Qplus, Qopp. simpl. lia. Qed.

Lemma ofnat_pred' (n : nat) : (0 < n)%nat -> ofnat (n - 1) == ofnat n - 1.
Proof. intros H. unfold ofnat, Qeq, Qminus, Qplus, Qopp. simpl. lia. Qed.

Lemma ofnat_S (n : nat) : ofnat (S n) == ofnat n + 1.
Proof. unfold ofnat, Qeq, Qplus. simpl. lia. Qed.

(** The width left for one of [n] columns on a letter page. *)
(** X6.  The column width is positive for 1 to 19 columns and for no more: from
    20 columns on the margins and gaps alone are wider than a letter page. *)
Theorem column_width_positive (nc : nat) (L : DynamicGen.Layout) :
  DynamicGen.calculate_layout nc = Returned L ->
  (0 < DynamicGen.column_width L <-> (nc <= 19)%nat) /\
  FixedGen.calculate_layout nc (15 * mm) (10 * mm)
  = Returned (FixedGen.mkLayout (15 * mm) (10 * mm) (snd letter - 25 * mm) (7 * mm)
                (15 * mm) (DynamicGen.column_width L)) /\
  forall ipc,
    HannahGen.calculate_layout nc ipc (15 * mm) (10 * mm)
    = Returned (HannahGen.mkLayout (15 * mm) (10 * mm) (snd letter - 20 * mm) (7 * mm)
                  (15 * mm) (nc * ipc) (DynamicGen.column_width L)).
Proof.
  unfold DynamicGen.calculate_layout, FixedGen.calculate_layout,
    HannahGen.calculate_layout, div, floordiv. cbn [letter rbind fst snd].
  destruct (Qeq_bool (ofnat nc) 0) eqn:Ez; cbn [rbind]; [discriminate|].
  assert (E : Qeq_bool (2 * (7 * mm)) 0 = false) by reflexivity.
  rewrite E. cbn [rbind]. intros [= <-]. cbn [DynamicGen.column_width].
  split; [|split; reflexivity].
  assert (Hn : (0 < nc)%nat).
  { destruct nc; [discriminate Ez | lia]. }
  pose proof (ofnat_pos nc Hn) as Hq.
  rewrite (ofnat_pred nc Hn).
  assert (Hnum : 0 < 8.5 * inch - 2 * (15 * mm) - (ofnat nc - 1) * (10 * mm)
                 <-> (nc <= 19)%nat).
  { split; intros H.
    - destruct (Nat.le_gt_cases nc 19) as [Hle|Hgt]; [exact Hle|]. exfalso.
      pose proof (proj1 (ofnat_le 20 nc) Hgt) as Hge. change (ofnat 20) with 20 in Hge.
      unfold inch in H. rewrite mm_value in H. set (q := ofnat nc) in *. lra.
    - pose proof (proj1 (ofnat_le nc 19) H) as Hle. change (ofnat 19) with 19 in Hle.
      unfold inch. rewrite mm_value. set (q := ofnat nc) in *. lra. }
  rewrite <- Hnum. set (num := 8.5 * inch - _ - _). split; intros H.
  - apply (Qmult_lt_r _ _ (ofnat nc) Hq) in H.
    rewrite Qmult_0_l in H. unfold Qdiv in H.
    rewrite <- Qmult_assoc, (Qmult_comm (/ ofnat nc)), Qmult_inv_r, Qmult_1_r in H;
      [exact H|].
    intros E0. rewrite E0 in Hq. now apply Qlt_irrefl in Hq.
  - apply Qlt_shift_div_l; [exact Hq|]. now rewrite Qmult_0_l.
Qed.

Lemma column_width_positive_witness :
  DynamicGen.calculate_layout 20 = Returned (dynamic_layout 20) /\
  (0 < DynamicGen.column_width (dynamic_layout 20) <-> (20 <= 19)%nat).
Proof.
  assert (E : DynamicGen.calculate_layout 20 = Returned (dynamic_layout 20))
    by (vm_compute; reflexivity).
  split; [exact E|]. apply (column_width_positive 20 (dynamic_layout 20) E).
Defined.

End Geometry.

(** ** More on loops *)

Section LoopsMore.
Import Canvas.

(** A loop whose body appends one value and goes on or stops, or stops
    without appending, appends the values of a prefix of its range. *)
Lemma for_break_prefix {I St B : Type} (f : St -> list B) (g : I -> B)
    (body : I -> St -> St * bool) :
  (forall i s, f (fst (body i s)) = (f s ++ [g i])%list \/
               (f (fst (body i s)) = f s /\ snd (body i s) = true)) ->
  forall iter s, exists k,
    (k <= List.length iter)%nat /\
    f (for_break body iter s) = (f s ++ map g (firstn k iter))%list.
Proof.
  intros Hstep iter. induction iter as [|i iter IH]; intros s.
  - exists 0%nat. cbn. split; [lia | now rewrite app_nil_r].
  - cbn [for_break]. specialize (Hstep i s).
    destruct (body i s) as [s' broke]. cbn [fst snd] in Hstep.
    destruct broke.
    + destruct Hstep as [Happ | [Hsame _]].
      * exists 1%nat. cbn. split; [lia | exact Happ].
      * exists 0%nat. cbn. split; [lia | now rewrite app_nil_r].
    + destruct Hstep as [Happ | [_ Hb]]; [|discriminate].
      destruct (IH s') as (k & Hk & Hf).
      exists (S k). cbn [List.length firstn map]. split; [lia|].
      rewrite Hf, Happ, <- app_assoc. reflexivity.
Qed.

Lemma fold_left_seq_inv {St : Type} (P : nat -> St -> Prop) (f : St -> nat -> St) :
  (forall i s, P i s -> P (S i) (f s i)) ->
  forall n a s, P a s -> P (a + n)%nat (fold_left f (seq a n) s).
Proof.
  intros Hstep. induction n as [|n IH]; intros a s Hs; cbn [seq fold_left].
  - now rewrite Nat.add_0_r.
  - replace (a + S n)%nat with (S a + n)%nat by lia.
    apply IH, Hstep, Hs.
Qed.

Lemma for_each_seq_inv {St : Type} (P : nat -> St -> Prop) (body : nat -> St -> Result St) :
  (forall i s s', P i s -> body i s = Returned s' -> P (S i) s') ->
  forall n a s s', P a s -> for_each body (seq a n) s = Returned s' -> P (a + n)%nat s'.
Proof.
  intros Hstep. induction n as [|n IH]; intros a s s' Hs H; cbn [seq for_each] in H.
  - injection H as <-. now rewrite Nat.add_0_r.
  - destruct (body a s) as [s1| |] eqn:Hb; cbn [rbind] in H; try discriminate.
    replace (a + S n)%nat with (S a + n)%nat by lia.
    eapply IH; [|exact H]. eapply Hstep; eauto.
Qed.

Lemma fold_left_log {St A B : Type} (f : St -> list B) (step : St -> A -> St) (h : A -> list B) :
  (forall s a, f (step s a) = (f s ++ h a)%list) ->
  forall l s, f (fold_left step l s) = (f s ++ flat_map h l)%list.
Proof.
  intros Hstep l. induction l as [|a l IH]; intros s; cbn [fold_left flat_map].
  - now rewrite app_nil_r.
  - rewrite IH, Hstep, <- app_assoc. reflexivity.
Qed.

End LoopsMore.

(** ** The numbers drawn on a page *)

Section PageNumbers.
Import Synth Canvas LayoutSpec ExtraSpec.

Lemma seq_sorted (a n : nat) : StronglySorted lt (seq a n).
Proof.
  revert a. induction n as [|n IH]; intros a; cbn; constructor; [apply IH|].
  apply Forall_forall. intros x Hx. apply in_seq in Hx. lia.
Qed.

Lemma ascending_snoc_seq (lo mid width k : nat) (l : list nat) :
  (lo <= mid)%nat -> (k <= width)%nat ->
  ascending_within lo mid l ->
  ascending_within lo (mid + width) (l ++ seq (mid + 1) k).
Proof.
  intros Hlo Hk [Hs Hb]. split.
  - induction l as [|x l IH]; cbn; [apply seq_sorted|].
    inversion Hs as [|? ? Hs' Hx]; subst. inversion Hb as [|? ? Hbx Hb']; subst.
    constructor; [now apply IH|].
    apply Forall_app. split; [exact Hx|].
    apply Forall_forall. intros y Hy. apply in_seq in Hy. lia.
  - apply Forall_app. split.
    + eapply Forall_impl; [|exact Hb]. cbn. intros; lia.
    + apply Forall_forall. intros y Hy. apply in_seq in Hy. lia.
Qed.

Lemma firstn_seq (k a n : nat) : firstn k (seq a n) = seq a (Nat.min k n).
Proof.
  revert a n. induction k as [|k IH]; intros a [|n]; cbn; try reflexivity.
  now rewrite IH.
Qed.

Lemma firstn_seq_map (g : nat -> nat) (base k n : nat) :
  (forall idx, g idx = (base + idx)%nat) ->
  (k <= n)%nat ->
  map g (firstn k (seq 0 n)) = seq base k.
Proof.
  intros Hg Hk. rewrite firstn_seq, Nat.min_l by exact Hk.
  rewrite <- (map_add_seq base k). apply map_ext, Hg.
Qed.

(** A column of each layout appends the numbers of a prefix of its range. *)
Lemma hannah_column_numbers L nc ipc equations page_num st col :
  exists k, (k <= ipc)%nat /\
    eq_nums (HannahGen.column L nc ipc equations page_num st col)
    = (eq_nums st
       ++ seq ((page_num - 1) * HannahGen.equations_per_page L + col * ipc + 1) k)%list.
Proof.
  unfold HannahGen.column. set (x := nth col _ _). set (y := nth col _ _).
  destruct (for_break_prefix (fun s : Q * PageState => eq_nums (snd s))
              (fun idx => ((page_num - 1) * HannahGen.equations_per_page L
                           + col * ipc + idx + 1)%nat)
              (HannahGen.item_step L ipc equations page_num col x))
    with (iter := seq 0 ipc) (s := (y, st)) as (k & Hk & Hf).
  - intros idx [y0 st0]. unfold HannahGen.item_step.
    destruct (nth_error equations _) as [[eo sol]|]; cbn.
    + left. unfold eq_nums. cbn. now rewrite map_app.
    + right. split; reflexivity.
  - rewrite length_seq in Hk. exists k. split; [exact Hk|].
    rewrite Hf. cbn [snd]. f_equal. apply firstn_seq_map; [intros; lia | exact Hk].
Qed.

Lemma fixed_column_numbers L nc ipc pe start st col :
  exists k, (k <= ipc)%nat /\
    eq_nums (FixedGen.column L nc ipc pe start st col)
    = (eq_nums st ++ seq (start + col * ipc + 1) k)%list.
Proof.
  unfold FixedGen.column. set (x := nth col _ _). set (y := nth col _ _).
  destruct (for_break_prefix (fun s : Q * PageState => eq_nums (snd s))
              (fun idx => (start + col * ipc + idx + 1)%nat)
              (FixedGen.item_step L ipc pe start col x))
    with (iter := seq 0 ipc) (s := (y, st)) as (k & Hk & Hf).
  - intros idx [y0 st0]. unfold FixedGen.item_step.
    destruct (nth_error pe _) as [[eo sol]|]; cbn.
    + left. destruct (Qltb _ _); unfold eq_nums; cbn; now rewrite map_app.
    + right. split; reflexivity.
  - rewrite length_seq in Hk. exists k. split; [exact Hk|].
    rewrite Hf. cbn [snd]. f_equal. apply firstn_seq_map; [intros; lia | exact Hk].
Qed.

Lemma dynamic_column_numbers L nc ipc page_data start st st' col :
  (col < nc)%nat ->
  DynamicGen.column L nc ipc page_data start col st = Returned st' ->
  exists k, (k <= ipc)%nat /\
    eq_nums st' = (eq_nums st ++ seq (start + col * ipc + 1) k)%list.
Proof.
  intros Hcol Hret.
  pose proof (length_slice page_data (col * ipc) ((col + 1) * ipc)) as Hlen.
  destruct (List.length (Py.slice page_data (col * ipc) ((col + 1) * ipc))) as [|n] eqn:En.
  - exists 0%nat. split; [lia|]. unfold DynamicGen.column in Hret. rewrite En in Hret.
    cbn in Hret. injection Hret as <-. cbn. now rewrite app_nil_r.
  - destruct (dynamic_column_spec L nc ipc page_data start col st Hcol)
      as (_ & st1 & x & Hret1 & Hcalls & _); [rewrite En; lia|].
    rewrite Hret in Hret1. injection Hret1 as <-.
    rewrite En in Hcalls.
    set (k := placed_count L _ _ _) in Hcalls.
    assert (Hk : (k <= S n)%nat).
    { unfold k. apply placed_count_bounds. lia. }
    exists k. split; [lia|].
    unfold eq_nums. rewrite Hcalls, map_app, column_calls_numbers. f_equal.
    rewrite length_firstn, En, Nat.min_l by exact Hk.
    rewrite <- (map_add_seq (start + col * ipc + 1) k).
    apply map_ext. intros; lia.
Qed.

(** X7.  On every page of each of the three layouts the numbers drawn next
    to the systems ascend strictly, so no system is drawn twice, and they lie
    within the range of numbers of that page. *)
Theorem page_numbers_ascend :
  (forall L nc ipc equations page_num total,
     ascending_within ((page_num - 1) * HannahGen.equations_per_page L)
       ((page_num - 1) * HannahGen.equations_per_page L + nc * ipc)
       (map dc_eq_num
            (page_calls (HannahGen.print_page L nc ipc equations page_num total)))) /\
  (forall L all nc ipc pn p,
     ascending_within (p * nc * ipc) (p * nc * ipc + nc * ipc)
       (map dc_eq_num (page_calls (FixedGen.page L all nc ipc pn p)))) /\
  (forall L all nc ipc p,
     exists pg,
       DynamicGen.page L all nc ipc p = Returned pg /\
       ascending_within (p * nc * ipc) (p * nc * ipc + nc * ipc)
         (map dc_eq_num (page_calls pg))).
Proof.
  split; [|split].
  - intros. unfold HannahGen.print_page. destruct letter as [w h]. cbn [page_calls].
    change (map dc_eq_num (calls ?s)) with (eq_nums s).
    set (B := ((page_num - 1) * HannahGen.equations_per_page L)%nat).
    pose proof (fold_left_seq_inv
                  (fun col st => ascending_within B (B + col * ipc) (eq_nums st))
                  (HannahGen.column L nc ipc equations page_num)) as H.
    cbv beta in H. refine (H _ nc 0%nat empty_state _); clear H.
    + intros col st Hst.
      destruct (hannah_column_numbers L nc ipc equations page_num st col) as (k & Hk & ->).
      fold B. replace (B + col * ipc + 1)%nat with ((B + col * ipc) + 1)%nat by lia.
      replace (B + S col * ipc)%nat with ((B + col * ipc) + ipc)%nat by lia.
      apply ascending_snoc_seq; [lia | exact Hk | exact Hst].
    + split; constructor.
  - intros. unfold FixedGen.page. cbn [page_calls].
    change (map dc_eq_num (calls ?s)) with (eq_nums s).
    set (B := (p * nc * ipc)%nat).
    pose proof (fold_left_seq_inv
                  (fun col st => ascending_within B (B + col * ipc) (eq_nums st))
                  (FixedGen.column L nc ipc
                     (Py.slice all B (B + nc * ipc)) B)) as H.
    cbv beta in H. refine (H _ nc 0%nat empty_state _); clear H.
    + intros col st Hst.
      destruct (fixed_column_numbers L nc ipc (Py.slice all B (B + nc * ipc)) B st col)
        as (k & Hk & ->).
      replace (B + col * ipc + 1)%nat with ((B + col * ipc) + 1)%nat by lia.
      replace (B + S col * ipc)%nat with ((B + col * ipc) + ipc)%nat by lia.
      apply ascending_snoc_seq; [lia | exact Hk | exact Hst].
    + split; constructor.
  - intros L all nc ipc p.
    destruct (dynamic_page_returns L all nc ipc p) as (pg & Hpg & _).
    exists pg. split; [exact Hpg|]. unfold DynamicGen.page in Hpg.
    set (B := (p * nc * ipc)%nat) in *.
    destruct (for_each _ _ _) as [st| |] eqn:Hst; cbn [rbind] in Hpg; try discriminate.
    injection Hpg as <-. cbn [page_calls].
    change (map dc_eq_num (calls st)) with (eq_nums st).
    assert (Hgen : forall n a s s',
              (a + n <= nc)%nat ->
              ascending_within B (B + a * ipc) (eq_nums s) ->
              for_each (DynamicGen.column L nc ipc (Py.slice all B (B + nc * ipc)) B)
                       (seq a n) s = Returned s' ->
              ascending_within B (B + (a + n) * ipc) (eq_nums s')).
    { induction n as [|n IH]; intros a s s' Ha Hs H; cbn [seq for_each] in H.
      - injection H as <-. now rewrite Nat.add_0_r.
      - destruct (DynamicGen.column L nc ipc _ B a s) as [s1| |] eqn:Hc;
          cbn [rbind] in H; try discriminate.
        replace (a + S n)%nat with (S a + n)%nat by lia.
        apply (IH (S a) s1 s'); [lia | | exact H].
        destruct (dynamic_column_numbers L nc ipc _ B s s1 a ltac:(lia) Hc) as (k & Hk & ->).
        replace (B + a * ipc + 1)%nat with ((B + a * ipc) + 1)%nat by lia.
        replace (B + S a * ipc)%nat with ((B + a * ipc) + ipc)%nat by lia.
        apply ascending_snoc_seq; [lia | exact Hk | exact Hs]. }
    apply (Hgen nc 0%nat empty_state st); [lia | | exact Hst].
    split; constructor.
Qed.

End PageNumbers.

(** ** Pages that come out short *)

Section ShortPages.
Import Synth Canvas LayoutSpec ExtraSpec.

(** On a page after the first, [print_page] of the generator under [Hannah/]
    finds every number beyond the list it was handed. *)
Lemma hannah_column_idle L nc ipc equations page_num st col :
  (2 <= page_num)%nat ->
  (List.length equations <= HannahGen.equations_per_page L)%nat ->
  HannahGen.column L nc ipc equations page_num st col = st.
Proof.
  intros Hp Hlen. unfold HannahGen.column.
  destruct ipc as [|ipc]; [reflexivity|].
  cbn [seq for_break]. unfold HannahGen.item_step at 1.
  destruct (nth_error equations _) as [[eo sol]|] eqn:E; [|reflexivity].
  assert (Hlt : nth_error equations
                  ((page_num - 1) * HannahGen.equations_per_page L
                   + col * S ipc + 0 + 1 - 1) <> None) by congruence.
  apply nth_error_Some in Hlt. nia.
Qed.

(** X8.  In the generator under [Hannah/], [create_pdf] hands [print_page]
    the slice of the page while [print_page] looks the items up under their
    document-wide numbers: every page after the first comes out without any
    system and with an empty answer key. *)
Theorem hannah_later_pages_empty L all nc ipc pn p :
  (1 <= p < pn)%nat ->
  exists pg,
    nth_error (HannahGen.pages L all nc ipc pn) p = Some pg /\
    page_calls pg = [] /\ page_solutions pg = [] /\ page_footer pg = "".
Proof.
  intros Hp. unfold HannahGen.pages.
  rewrite nth_error_map, nth_error_seq.
  destruct (Nat.ltb_spec p pn) as [_|]; [|lia]. cbn [option_map Nat.add].
  eexists. split; [reflexivity|].
  unfold HannahGen.print_page. destruct letter as [w h]. cbn [page_calls page_solutions page_footer].
  assert (Hst : fold_left
                  (HannahGen.column L nc ipc
                     (Py.slice all (p * HannahGen.equations_per_page L)
                               ((p + 1) * HannahGen.equations_per_page L)) (p + 1))
                  (seq 0 nc) empty_state = empty_state).
  { apply (fold_left_inv (fun st => st = empty_state)); [reflexivity|].
    intros col st _ ->. apply hannah_column_idle; [lia|].
    rewrite length_slice. lia. }
  rewrite Hst. repeat split.
Qed.

Lemma hannah_later_pages_empty_witness :
  (1 <= 2 < 3)%nat /\
  exists pg,
    nth_error (HannahGen.pages (hannah_layout 3 5) (worksheet 45) 3 5 3) 2 = Some pg /\
    page_calls pg = [] /\ page_solutions pg = [] /\ page_footer pg = "".
Proof.
  split; [lia|].
  apply (hannah_later_pages_empty (hannah_layout 3 5) (worksheet 45) 3 5 3 2). lia.
Defined.

(** The fixed-count inner loop, all of whose items exist, draws the first
    [fixed_placed] of them. *)
Lemma fixed_loop_placed L ipc pe start col x :
  forall n i y st,
    (col * ipc + i + n <= List.length pe)%nat ->
    eq_nums (snd (for_break (FixedGen.item_step L ipc pe start col x) (seq i n) (y, st)))
    = (eq_nums st
       ++ map (fun idx => (start + col * ipc + idx + 1)%nat)
              (seq i (fixed_placed L y n)))%list.
Proof.
  induction n as [|n IH]; intros i y st Hlen.
  - cbn. now rewrite app_nil_r.
  - cbn [seq for_break fixed_placed]. unfold FixedGen.item_step at 1.
    destruct (nth_error pe (col * ipc + i)) as [[eo sol]|] eqn:E.
    + cbn [FixedGen.draw_equation snd dc_y].
      destruct (Qltb (y - 3.5 * FixedGen.line_height L)
                     (FixedGen.footer_y L + 30 * mm))%Q.
      * unfold eq_nums. cbn. now rewrite map_app.
      * rewrite IH by lia. unfold eq_nums. cbn. rewrite map_app, <- app_assoc.
        reflexivity.
    + apply nth_error_None in E. lia.
Qed.

Lemma fixed_placed_le L y n : (fixed_placed L y n <= n)%nat.
Proof.
  revert y. induction n as [|n IH]; intros y; cbn; [lia|].
  destruct (Qltb _ _); [lia|]. specialize (IH (y - 3.5 * FixedGen.line_height L)%Q). lia.
Qed.

(** Once the bottom check has stopped a column, asking for more items does
    not change what it draws. *)
Lemma fixed_placed_stable L y n m :
  (fixed_placed L y n < n)%nat -> fixed_placed L y (n + m) = fixed_placed L y n.
Proof.
  revert y. induction n as [|n IH]; intros y H; [cbn in H; lia|].
  cbn [fixed_placed Nat.add] in *.
  destruct (Qltb _ _); [reflexivity|]. f_equal. apply IH. lia.
Qed.

Lemma fixed_capacity (nc ipc : nat) (L : FixedGen.Layout) :
  FixedGen.calculate_layout nc (15 * mm)%Q (10 * mm)%Q = Returned L ->
  fixed_placed L (FixedGen.base_y L) ipc = Nat.min ipc 9.
Proof.
  unfold FixedGen.calculate_layout, div. cbn [letter rbind].
  destruct (Qeq_bool (ofnat nc) 0); cbn [rbind]; [discriminate|].
  intros [= <-].
  destruct (Nat.le_gt_cases ipc 9) as [Hle|Hgt].
  - do 10 (destruct ipc as [|ipc]; [vm_compute; reflexivity|]). lia.
  - replace ipc with (10 + (ipc - 10))%nat by lia.
    rewrite fixed_placed_stable; [vm_compute; reflexivity | vm_compute; lia].
Qed.

Lemma length_flat_map_seq (base : nat -> nat) (k : nat) (l : list nat) :
  List.length (flat_map (fun col => seq (base col) k) l) = (List.length l * k)%nat.
Proof.
  induction l as [|a l IH]; [reflexivity|].
  cbn [flat_map List.length]. rewrite length_app, length_seq, IH. lia.
Qed.

(** X9.  In the fixed-count generator a column of a letter page holds at most
    nine systems: with enough input, every column of a page draws its first
    [min(equations_per_column, 9)] items and leaves the others of its range
    out, whatever number of items per column was asked for. *)
Theorem fixed_column_capacity (L : FixedGen.Layout) (all : list Item) (nc ipc pn p : nat) :
  FixedGen.calculate_layout nc (15 * mm)%Q (10 * mm)%Q = Returned L ->
  ((p + 1) * (nc * ipc) <= List.length all)%nat ->
  let pg := FixedGen.page L all nc ipc pn p in
  map dc_eq_num (page_calls pg)
  = flat_map (fun col => seq (p * (nc * ipc) + col * ipc + 1) (Nat.min ipc 9)) (seq 0 nc) /\
  List.length (page_calls pg) = (nc * Nat.min ipc 9)%nat.
Proof.
  intros HL Hlen pg.
  assert (Hnums : map dc_eq_num (page_calls pg)
                  = flat_map (fun col => seq (p * (nc * ipc) + col * ipc + 1) (Nat.min ipc 9))
                             (seq 0 nc)).
  { unfold pg, FixedGen.page. cbn [page_calls].
    change (map dc_eq_num (calls ?s)) with (eq_nums s).
    set (B := (p * nc * ipc)%nat).
    set (pe := Py.slice all B (B + nc * ipc)).
    assert (Hpe : (nc * ipc <= List.length pe)%nat).
    { unfold pe. rewrite length_slice. unfold B. lia. }
    assert (Hgen : forall l st,
              (forall col, In col l -> (col < nc)%nat) ->
              eq_nums (fold_left (FixedGen.column L nc ipc pe B) l st)
              = (eq_nums st
                 ++ flat_map (fun col => seq (B + col * ipc + 1) (Nat.min ipc 9)) l)%list).
    { induction l as [|col l IHl]; intros st Hin; cbn [fold_left flat_map].
      - now rewrite app_nil_r.
      - rewrite IHl by (intros c Hc; apply Hin; now right).
        assert (Hcol : (col < nc)%nat) by (apply Hin; now left).
        unfold FixedGen.column. rewrite (nth_repeat_lt _ _ _ _ Hcol).
        rewrite fixed_loop_placed by nia.
        rewrite (fixed_capacity nc ipc L HL), <- app_assoc. do 2 f_equal.
        rewrite <- (map_add_seq (B + col * ipc + 1) (Nat.min ipc 9)).
        apply map_ext. intros; lia. }
    rewrite Hgen by (intros col Hc; apply in_seq in Hc; lia).
    cbn [eq_nums calls empty_state map app].
    apply flat_map_ext. intros col. f_equal. unfold B. lia. }
  split; [exact Hnums|].
  rewrite <- (length_map dc_eq_num), Hnums.
  rewrite length_flat_map_seq, length_seq. reflexivity.
Qed.

Lemma fixed_column_capacity_witness :
  FixedGen.calculate_layout 3 (15 * mm)%Q (10 * mm)%Q = Returned (fixed_layout 3) /\
  ((0 + 1) * (3 * 10) <= List.length (worksheet 30))%nat /\
  List.length (page_calls (FixedGen.page (fixed_layout 3) (worksheet 30) 3 10 1 0))
  = (3 * Nat.min 10 9)%nat.
Proof.
  assert (E : FixedGen.calculate_layout 3 (15 * mm)%Q (10 * mm)%Q
              = Returned (fixed_layout 3)) by (vm_compute; reflexivity).
  assert (Hl : ((0 + 1) * (3 * 10) <= List.length (worksheet 30))%nat)
    by (vm_compute; lia).
  split; [exact E|]. split; [exact Hl|].
  apply (fixed_column_capacity (fixed_layout 3) (worksheet 30) 3 10 1 0 E Hl).
Defined.

End ShortPages.

(** ** Which part of its slice a page draws *)

Section PageSlices.
Import Synth Canvas LayoutSpec ExtraSpec.

(** Column by column, the numbers a page of the fixed-count generator
    draws. *)
Lemma fixed_page_numbers (L : FixedGen.Layout) (all : list Item) (nc ipc pn p : nat) :
  FixedGen.calculate_layout nc (15 * mm)%Q (10 * mm)%Q = Returned L ->
  ((p + 1) * (nc * ipc) <= List.length all)%nat ->
  map dc_eq_num (page_calls (FixedGen.page L all nc ipc pn p))
  = flat_map (fun col => seq (p * (nc * ipc) + col * ipc + 1) (Nat.min ipc 9)) (seq 0 nc).
Proof.
  intros HL Hlen.
  unfold FixedGen.page. cbn [page_calls].
  change (map dc_eq_num (calls ?s)) with (eq_nums s).
  set (B := (p * nc * ipc)%nat).
  set (pe := Py.slice all B (B + nc * ipc)).
  assert (Hpe : (nc * ipc <= List.length pe)%nat).
  { unfold pe. rewrite length_slice. unfold B. lia. }
  assert (Hgen : forall l st,
            (forall col, In col l -> (col < nc)%nat) ->
            eq_nums (fold_left (FixedGen.column L nc ipc pe B) l st)
            = (eq_nums st
               ++ flat_map (fun col => seq (B + col * ipc + 1) (Nat.min ipc 9)) l)%list).
  { induction l as [|col l IHl]; intros st Hin; cbn [fold_left flat_map].
    - now rewrite app_nil_r.
    - rewrite IHl by (intros c Hc; apply Hin; now right).
      assert (Hcol : (col < nc)%nat) by (apply Hin; now left).
      unfold FixedGen.column. rewrite (nth_repeat_lt _ _ _ _ Hcol).
      rewrite fixed_loop_placed by nia.
      rewrite (fixed_capacity nc ipc L HL), <- app_assoc. do 2 f_equal.
      rewrite <- (map_add_seq (B + col * ipc + 1) (Nat.min ipc 9)).
      apply map_ext. intros; lia. }
  rewrite Hgen by (intros col Hc; apply in_seq in Hc; lia).
  cbn [eq_nums calls empty_state map app].
  apply flat_map_ext. intros col. f_equal. unfold B. lia.
Qed.

(** Full columns laid end to end number the page consecutively. *)
Lemma flat_map_full_columns (B ipc : nat) :
  forall n a,
    flat_map (fun col => seq (B + col * ipc + 1) ipc) (seq a n)
    = seq (B + a * ipc + 1) (n * ipc).
Proof.
  induction n as [|n IH]; intros a; [reflexivity|].
  cbn [seq flat_map]. rewrite IH.
  replace (S n * ipc)%nat with (ipc + n * ipc)%nat by lia.
  rewrite seq_app. do 2 f_equal. lia.
Qed.

(** C3 as the code has it.  A page holds
    [num_columns * equations_per_column] items and page [p] is handed the
    slice [p*itemsPerPage, (p+1)*itemsPerPage) of the input.  A page of the
    fixed-count generator draws exactly that slice, in order and under the
    numbers [p*itemsPerPage + 1 .. (p+1)*itemsPerPage], when a column has at
    most 9 items: the bottom check first fires after the ninth item of a
    column, which is drawn by then.  With more than 9 items per column every
    column stops at that check after its ninth item, and the page draws the
    first nine numbers of each column's range.  [print_page] of the
    generator under [Hannah/] draws the whole slice of the first page. *)
Theorem fixed_count_pages_draw_their_slice :
  (forall L all nc ipc pn p,
     FixedGen.calculate_layout nc (15 * mm)%Q (10 * mm)%Q = Returned L ->
     ((p + 1) * (nc * ipc) <= List.length all)%nat ->
     let items_per_page := (nc * ipc)%nat in
     let pg := FixedGen.page L all nc ipc pn p in
     ((ipc <= 9)%nat ->
      map dc_eq_num (page_calls pg) = seq (p * items_per_page + 1) items_per_page /\
      map dc_equations (page_calls pg)
      = map fst (Py.slice all (p * items_per_page) ((p + 1) * items_per_page)) /\
      page_solutions pg
      = map snd (Py.slice all (p * items_per_page) ((p + 1) * items_per_page))) /\
     ((9 < ipc)%nat ->
      map dc_eq_num (page_calls pg)
      = flat_map (fun col => seq (p * items_per_page + col * ipc + 1) 9) (seq 0 nc) /\
      List.length (page_solutions pg) = (nc * 9)%nat /\
      ((0 < nc)%nat -> map dc_eq_num (page_calls pg)
                       <> seq (p * items_per_page + 1) items_per_page))) /\
  (forall L all nc ipc pn,
     HannahGen.calculate_layout nc ipc (15 * mm)%Q (10 * mm)%Q = Returned L ->
     (nc * ipc <= List.length all)%nat ->
     HannahGen.equations_per_page L = (nc * ipc)%nat /\
     exists pg rest,
       HannahGen.pages L all nc ipc (S pn) = pg :: rest /\
       map dc_eq_num (page_calls pg) = seq 1 (nc * ipc) /\
       map dc_equations (page_calls pg) = map fst (Py.slice all 0 (nc * ipc)) /\
       page_solutions pg = map snd (Py.slice all 0 (nc * ipc))).
Proof.
  split.
  - intros L all nc ipc pn p HL Hlen ipp pg.
    pose proof (fixed_page_numbers L all nc ipc pn p HL Hlen) as Hnums.
    fold pg in Hnums. fold ipp in Hnums.
    pose proof (fixed_page_paired L all nc ipc pn p) as Hpair. fold pg in Hpair.
    split.
    + intros Hipc.
      assert (Hseq : map dc_eq_num (page_calls pg) = seq (p * ipp + 1) ipp).
      { rewrite Hnums. replace (Nat.min ipc 9) with ipc by lia.
        rewrite flat_map_full_columns. unfold ipp. f_equal. lia. }
      split; [exact Hseq|].
      replace ((p + 1) * ipp)%nat with (p * ipp + ipp)%nat by lia.
      apply paired_consecutive; [exact Hpair | exact Hseq].
    + intros Hipc.
      assert (Hnine : map dc_eq_num (page_calls pg)
                      = flat_map (fun col => seq (p * ipp + col * ipc + 1) 9) (seq 0 nc)).
      { rewrite Hnums. replace (Nat.min ipc 9) with 9%nat by lia. reflexivity. }
      assert (Hcount : List.length (page_calls pg) = (nc * 9)%nat).
      { rewrite <- (length_map dc_eq_num), Hnine.
        rewrite length_flat_map_seq, length_seq. reflexivity. }
      split; [exact Hnine|]. split.
      * unfold paired_state, paired in Hpair.
        rewrite <- (Forall2_length Hpair). exact Hcount.
      * intros Hnc E. apply (f_equal (@List.length nat)) in E.
        rewrite length_map, Hcount, length_seq in E. unfold ipp in E. nia.
  - intros. now apply hannah_first_page_slice.
Qed.

Lemma fixed_count_pages_draw_their_slice_witness :
  exists L,
    FixedGen.calculate_layout 3 (15 * mm)%Q (10 * mm)%Q = Returned L /\
    ((1 + 1) * (3 * 5) <= List.length (worksheet 30))%nat /\
    ((1 + 1) * (3 * 9) <= List.length (worksheet 54))%nat /\
    (5 <= 9)%nat /\ (9 <= 9)%nat /\
    (3 * 5 * 2 = 30)%nat /\
    map dc_eq_num (page_calls (FixedGen.page L (worksheet 30) 3 5 2 0)) = seq 1 15 /\
    map dc_eq_num (page_calls (FixedGen.page L (worksheet 30) 3 5 2 1)) = seq 16 15 /\
    page_solutions (FixedGen.page L (worksheet 30) 3 5 2 1)
    = map snd (Py.slice (worksheet 30) 15 30) /\
    map dc_eq_num (page_calls (FixedGen.page L (worksheet 54) 3 9 2 0)) = seq 1 27 /\
    map dc_eq_num (page_calls (FixedGen.page L (worksheet 54) 3 9 2 1)) = seq 28 27.
Proof.
  eexists. split; [vm_compute; reflexivity|].
  split; [vm_compute; lia|]. split; [vm_compute; lia|].
  split; [lia|]. split; [lia|]. split; [reflexivity|].
  split; [|split; [|split; [|split]]].
  - apply (proj1 (proj1 fixed_count_pages_draw_their_slice _ (worksheet 30) 3 5 2 0
                    ltac:(vm_compute; reflexivity) ltac:(vm_compute; lia))%nat). lia.
  - apply (proj1 (proj1 fixed_count_pages_draw_their_slice _ (worksheet 30) 3 5 2 1
                    ltac:(vm_compute; reflexivity) ltac:(vm_compute; lia))%nat). lia.
  - apply (proj1 (proj1 fixed_count_pages_draw_their_slice _ (worksheet 30) 3 5 2 1
                    ltac:(vm_compute; reflexivity) ltac:(vm_compute; lia))%nat). lia.
  - apply (proj1 (proj1 fixed_count_pages_draw_their_slice _ (worksheet 54) 3 9 2 0
                    ltac:(vm_compute; reflexivity) ltac:(vm_compute; lia))%nat). lia.
  - apply (proj1 (proj1 fixed_count_pages_draw_their_slice _ (worksheet 54) 3 9 2 1
                    ltac:(vm_compute; reflexivity) ltac:(vm_compute; lia))%nat). lia.
Defined.

End PageSlices.

(** ** Where the dynamic layout puts the items *)

Section DynamicSpread.
Import Synth Canvas LayoutSpec ExtraSpec.
Local Open Scope Q_scope.

Lemma iter_advance (L : DynamicGen.Layout) (sp y : Q) (j : nat) :
  Nat.iter j (advance L sp) y == y - ofnat j * (2 * DynamicGen.line_height L + sp).
Proof.
  induction j as [|j IH].
  - cbn. unfold ofnat. cbn. ring.
  - cbn [Nat.iter nat_rect]. unfold advance at 1. rewrite IH, ofnat_S. ring.
Qed.

Lemma ofnat_neq0 (n : nat) : (0 < n)%nat -> ~ ofnat n == 0.
Proof.
  intros Hn E. pose proof (ofnat_pos n Hn) as Hq. rewrite E in Hq.
  now apply Qlt_irrefl in Hq.
Qed.

(** One advance is the [n]-th part of the height between [base_y] and
    [footer_y + 10 mm]. *)
Lemma advance_is_even_share (L : DynamicGen.Layout) (n : nat) :
  (0 < n)%nat ->
  2 * DynamicGen.line_height L
  + (DynamicGen.base_y L - DynamicGen.footer_y L - 10 * mm
     - ofnat n * (2 * DynamicGen.line_height L)) / ofnat n
  == (DynamicGen.base_y L - DynamicGen.footer_y L - 10 * mm) / ofnat n.
Proof. intros Hn. field. now apply ofnat_neq0. Qed.

Lemma dynamic_layout_fields (nc : nat) (L : DynamicGen.Layout) :
  DynamicGen.calculate_layout nc = Returned L ->
  DynamicGen.base_y L = 11 * inch - 25 * mm /\
  DynamicGen.footer_y L = 15 * mm /\
  DynamicGen.line_height L = 7 * mm /\
  DynamicGen.equations_per_column L = 17%Z.
Proof.
  intros HL. destruct (dynamic_layout_derived nc L HL) as [_ H17].
  revert HL. unfold DynamicGen.calculate_layout, div, floordiv. cbn [letter rbind].
  destruct (Qeq_bool (ofnat nc) 0); cbn [rbind]; [discriminate|].
  destruct (Qeq_bool (2 * (7 * mm)) 0); cbn [rbind]; [discriminate|].
  intros [= <-]. repeat split; try exact H17.
Qed.

(** With 46 items or more the place of the last one is below the limit. *)
Lemma last_place_below_limit (nc n : nat) (L : DynamicGen.Layout) :
  DynamicGen.calculate_layout nc = Returned L ->
  (46 <= n)%nat ->
  Nat.iter (n - 1)
    (advance L ((DynamicGen.base_y L - DynamicGen.footer_y L - 10 * mm
                 - ofnat n * (2 * DynamicGen.line_height L)) / ofnat n))
    (DynamicGen.base_y L)
  < DynamicGen.footer_y L + 15 * mm.
Proof.
  intros HL Hn. assert (Hpos : (0 < n)%nat) by lia.
  rewrite iter_advance, (advance_is_even_share L n Hpos), (ofnat_pred' n Hpos).
  destruct (dynamic_layout_fields nc L HL) as (-> & -> & _ & _).
  pose proof (ofnat_pos n Hpos) as Hq.
  pose proof (proj1 (ofnat_le 46 n) Hn) as Hge. change (ofnat 46) with 46 in Hge.
  set (q := ofnat n) in *.
  set (A := 11 * inch - 25 * mm - 15 * mm - 10 * mm).
  assert (Hr : A / q < 5 * mm).
  { apply Qlt_shift_div_r; [exact Hq|].
    unfold A, inch. rewrite mm_value. lra. }
  assert (Hqr : (q - 1) * (A / q) == A - A / q).
  { field. intros E. rewrite E in Hq. now apply Qlt_irrefl in Hq. }
  rewrite Hqr. set (r := A / q) in *. unfold A, inch in *. rewrite mm_value in *. lra.
Qed.

(** X11.  On a letter page a populated column of the dynamic layout draws
    all of its items when it has at most 45 of them, and leaves some out when
    it has more. *)
Theorem dynamic_column_complete_iff (nc ipc : nat) (L : DynamicGen.Layout)
    page_data start col st :
  DynamicGen.calculate_layout nc = Returned L ->
  (col < nc)%nat ->
  let col_data := Py.slice page_data (col * ipc) ((col + 1) * ipc) in
  let n := List.length col_data in
  (0 < n)%nat ->
  exists st',
    DynamicGen.column L nc ipc page_data start col st = Returned st' /\
    (List.length (calls st') = (List.length (calls st) + n)%nat <-> (n <= 45)%nat) /\
    (solutions st' = (solutions st ++ map snd col_data)%list <-> (n <= 45)%nat).
Proof.
  intros HL Hcol col_data n Hn.
  destruct (dynamic_column_spec L nc ipc page_data start col st Hcol Hn)
    as (_ & st' & x & Hret & Hcalls & Hsols).
  fold col_data n in Hcalls, Hsols.
  set (sp := (DynamicGen.base_y L - DynamicGen.footer_y L - 10 * mm
              - ofnat n * (2 * DynamicGen.line_height L)) / ofnat n) in *.
  set (k := placed_count L sp (DynamicGen.base_y L) n) in *.
  pose proof (placed_count_bounds L sp (DynamicGen.base_y L) n Hn) as Hk. fold k in Hk.
  assert (Hiff : k = n <-> (n <= 45)%nat).
  { split.
    - intros Hkn. destruct (Nat.le_gt_cases n 45) as [Hle|Hgt]; [exact Hle|]. exfalso.
      pose proof (placed_count_above L sp (DynamicGen.base_y L) n (n - 1)) as Hab.
      fold k in Hab. rewrite Hkn in Hab. specialize (Hab ltac:(lia)).
      pose proof (last_place_below_limit nc n L HL ltac:(lia)) as Hlt.
      apply Qltb_lt in Hlt. fold sp in Hlt. congruence.
    - intros Hle. unfold k, sp. now apply (dynamic_no_drop nc n L HL). }
  exists st'. split; [exact Hret|]. split.
  - rewrite Hcalls, length_app, column_calls_length, length_firstn. fold n.
    rewrite <- Hiff. lia.
  - rewrite Hsols, <- Hiff. split.
    + intros H. apply app_inv_head in H.
      apply (f_equal (@List.length _)) in H.
      rewrite !length_map, length_firstn in H.
      change (Datatypes.length col_data) with n in H.
      clear -H Hk. clearbody k n. lia.
    + intros ->. unfold n. now rewrite firstn_all.
Qed.

Lemma dynamic_column_complete_iff_witness :
  DynamicGen.calculate_layout 1 = Returned (dynamic_layout 1) /\
  (0 < 1)%nat /\
  (0 < List.length (Py.slice (worksheet 46) (0 * 46) ((0 + 1) * 46)))%nat /\
  exists st',
    DynamicGen.column (dynamic_layout 1) 1 46 (worksheet 46) 0 0 empty_state = Returned st'.
Proof.
  assert (E : DynamicGen.calculate_layout 1 = Returned (dynamic_layout 1))
    by (vm_compute; reflexivity).
  split; [exact E|]. split; [lia|]. split; [vm_compute; lia|].
  destruct (dynamic_column_complete_iff 1 46 (dynamic_layout 1) (worksheet 46) 0 0
              empty_state E ltac:(lia) ltac:(vm_compute; lia)) as (st' & H & _).
  exists st'. exact H.
Defined.

(** X12.  [calculate_layout] stores 17 as the number of equations a column
    holds, but the spacing [create_pdf] computes is negative from 17 items
    on: up to 16 items the blocks of a column keep apart, from 17 on each
    block starts less than one block height below the one before it. *)
Theorem dynamic_spacing_negative_iff (nc n : nat) (L : DynamicGen.Layout) :
  DynamicGen.calculate_layout nc = Returned L ->
  (0 < n)%nat ->
  let remaining := DynamicGen.base_y L - DynamicGen.footer_y L - 10 * mm
                   - ofnat n * (2 * DynamicGen.line_height L) in
  DynamicGen.equations_per_column L = 17%Z /\
  exists sp,
    DynamicGen.spacing remaining n = Returned sp /\
    (sp < 0 <-> (17 <= n)%nat).
Proof.
  intros HL Hn remaining.
  destruct (dynamic_layout_fields nc L HL) as (Hb & Hf & Hl & H17).
  split; [exact H17|].
  exists (remaining / ofnat n). split.
  - unfold DynamicGen.spacing, div.
    destruct (Nat.ltb_spec 0 n) as [_|]; [|lia]. now rewrite ofnat_nonzero.
  - pose proof (ofnat_pos n Hn) as Hq.
    assert (Hrem : remaining < 0 <-> (17 <= n)%nat).
    { unfold remaining. rewrite Hb, Hf, Hl. unfold inch. rewrite mm_value.
      split; intros H.
      - destruct (Nat.le_gt_cases 17 n) as [Hle|Hgt]; [exact Hle|]. exfalso.
        pose proof (proj1 (ofnat_le n 16) ltac:(lia)) as Hle16.
        change (ofnat 16) with 16 in Hle16. set (q := ofnat n) in *. lra.
      - pose proof (proj1 (ofnat_le 17 n) H) as Hge.
        change (ofnat 17) with 17 in Hge. set (q := ofnat n) in *. lra. }
    rewrite <- Hrem. split; intros H.
    + apply (Qmult_lt_r _ _ (ofnat n) Hq) in H. rewrite Qmult_0_l in H.
      unfold Qdiv in H.
      rewrite <- Qmult_assoc, (Qmult_comm (/ ofnat n)), Qmult_inv_r, Qmult_1_r in H;
        [exact H | now apply ofnat_neq0].
    + apply Qlt_shift_div_r; [exact Hq|]. now rewrite Qmult_0_l.
Qed.

Lemma dynamic_spacing_negative_iff_witness :
  DynamicGen.calculate_layout 3 = Returned (dynamic_layout 3) /\
  (0 < 17)%nat /\
  DynamicGen.equations_per_column (dynamic_layout 3) = 17%Z.
Proof.
  assert (E : DynamicGen.calculate_layout 3 = Returned (dynamic_layout 3))
    by (vm_compute; reflexivity).
  split; [exact E|]. split; [lia|].
  apply (dynamic_spacing_negative_iff 3 17 (dynamic_layout 3) E). lia.
Defined.

End DynamicSpread.

(** ** What [create_pdf] hands back *)

Section Runs.
Import Synth Canvas LayoutSpec ExtraSpec.
Local Open Scope Q_scope.

Lemma dynamic_pages_from_length L all nc ipc (todo : list nat) :
  exists pgs,
    DynamicGen.pages_from L all nc ipc todo = Returned pgs /\
    List.length pgs = List.length todo.
Proof.
  induction todo as [|p todo IH]; cbn [DynamicGen.pages_from].
  - now exists [].
  - destruct (dynamic_page_returns L all nc ipc p) as (pg & -> & _).
    destruct IH as (pgs & -> & Hlen). cbn [rbind].
    exists (pg :: pgs). split; [reflexivity | cbn; now rewrite Hlen].
Qed.

(** X13.  With one column or more and the font registered, a run whose
    pre-generation comes back ends without an exception, prints nothing,
    saves exactly [page_num] pages and returns [None], in each of the three
    generators. *)
Theorem create_pdf_saves_every_page (fuel : nat) (rnd : Source) (nc ipc pn : nat) :
  (0 < nc)%nat ->
  (forall gen, pregenerate Hannah fuel (nc * ipc * pn) rnd 0 = Returned gen ->
     exists pgs, HannahGen.create_pdf fuel rnd nc ipc pn
                 = Returned (mkRun [] (Some pgs) None_) /\
                 List.length pgs = pn) /\
  (forall gen, pregenerate Fixed fuel (nc * ipc * pn) rnd 0 = Returned gen ->
     exists pgs, FixedGen.create_pdf true fuel rnd nc ipc pn
                 = Returned (mkRun [] (Some pgs) None_) /\
                 List.length pgs = pn) /\
  (forall gen, pregenerate Dynamic fuel (nc * ipc * pn) rnd 0 = Returned gen ->
     exists pgs, DynamicGen.create_pdf true fuel rnd nc ipc pn
                 = Returned (mkRun [] (Some pgs) None_) /\
                 List.length pgs = pn).
Proof.
  intros Hn. split; [|split]; intros gen Hgen.
  - unfold HannahGen.create_pdf. rewrite Hgen. cbn [rbind].
    unfold HannahGen.calculate_layout, div. cbn [letter rbind].
    rewrite (ofnat_nonzero nc Hn). cbn [rbind].
    eexists. split; [reflexivity|].
    unfold HannahGen.pages. now rewrite length_map, length_seq.
  - unfold FixedGen.create_pdf. rewrite Hgen. cbn [rbind negb].
    unfold FixedGen.calculate_layout, div. cbn [letter rbind].
    rewrite (ofnat_nonzero nc Hn). cbn [rbind].
    eexists. split; [reflexivity|].
    unfold FixedGen.pages. now rewrite length_map, length_seq.
  - unfold DynamicGen.create_pdf. cbn [negb].
    unfold DynamicGen.calculate_layout, div, floordiv. cbn [letter rbind].
    rewrite (ofnat_nonzero nc Hn). cbn [rbind].
    assert (E : Qeq_bool (2 * (7 * mm)) 0 = false) by reflexivity.
    rewrite E. cbn [rbind]. rewrite Hgen. cbn [rbind].
    unfold DynamicGen.pages.
    match goal with
    | |- context [DynamicGen.pages_from ?L ?all nc ipc (seq 0 pn)] =>
        destruct (dynamic_pages_from_length L all nc ipc (seq 0 pn)) as (pgs & -> & Hlen)
    end.
    cbn [rbind]. exists pgs. split; [reflexivity|]. now rewrite Hlen, length_seq.
Qed.

Lemma create_pdf_saves_every_page_witness :
  (0 < 1)%nat /\
  exists pgs,
    DynamicGen.create_pdf true 1 (fun _ => 1%Z) 1 2 3 = Returned (mkRun [] (Some pgs) None_) /\
    List.length pgs = 3%nat.
Proof.
  split; [lia|].
  destruct (create_pdf_saves_every_page 1 (fun _ => 1%Z) 1 2 3 ltac:(lia)) as (_ & _ & H).
  destruct (pregenerate Dynamic 1 (1 * 2 * 3) (fun _ => 1%Z) 0) as [gen| |] eqn:E;
    try (vm_compute in E; discriminate E).
  exact (H gen eq_refl).
Defined.

(** X14.  What goes wrong: with zero columns every generator raises
    [ZeroDivisionError] instead of saving an empty document, the dynamic one
    before it has drawn a single random number; when the font cannot be
    registered the dynamic generator prints the error line and returns without
    saving anything for every argument, zero columns included, and the
    fixed-count one does the same once it has generated all systems. *)
Theorem create_pdf_failures (fuel : nat) (rnd : Source) (nc ipc pn : nat) :
  (HannahGen.create_pdf fuel rnd 0 ipc pn = Raised ZeroDivisionError /\
   FixedGen.create_pdf true fuel rnd 0 ipc pn = Raised ZeroDivisionError /\
   DynamicGen.create_pdf true fuel rnd 0 ipc pn = Raised ZeroDivisionError) /\
  DynamicGen.create_pdf false fuel rnd nc ipc pn
  = Returned (mkRun ["Error: DejaVuSans.ttf font file not found"%string] None None_) /\
  (FixedGen.create_pdf false fuel rnd nc ipc pn
   = Returned (mkRun ["Error: DejaVuSans.ttf font file not found"%string] None None_)
   <-> exists gen, pregenerate Fixed fuel (nc * ipc * pn) rnd 0 = Returned gen).
Proof.
  split; [repeat split|split; [reflexivity|]].
  unfold FixedGen.create_pdf.
  destruct (pregenerate Fixed fuel (nc * ipc * pn) rnd 0) as [gen| |]; cbn [rbind negb].
  - split; [intros _; now exists gen | reflexivity].
  - split; [discriminate | intros [gen H]; discriminate].
  - split; [discriminate | intros [gen H]; discriminate].
Qed.

End Runs.

(** ** The generator class of [src/math_generator.py] *)

Section MathGenFacts.
Import Synth MathGen.

Lemma generate_equation_spec (self : MathGenerator) (rnd : Source) (n : nat) :
  generate_equation self rnd n
  = ((cases_text (equation_text (rnd n) (rnd (1 + n)%nat))
                 (equation_text (rnd (2 + n)%nat) (rnd (3 + n)%nat)),
      "(x=1, y=1)"), (4 + n)%nat).
Proof. reflexivity. Qed.

Lemma generate_many_spec (self : MathGenerator) (rnd : Source) (count n : nat) :
  let r := generate_many self count rnd n in
  snd r = (n + 4 * count)%nat /\
  List.length (fst r) = count /\
  forall i, (i < count)%nat ->
    nth_error (fst r) i
    = Some (cases_text (equation_text (rnd (n + 4 * i)%nat) (rnd (n + 4 * i + 1)%nat))
                       (equation_text (rnd (n + 4 * i + 2)%nat) (rnd (n + 4 * i + 3)%nat)),
            "(x=1, y=1)").
Proof.
  revert n. induction count as [|count IH]; intros n r.
  - cbn. repeat split; [lia | intros i Hi; lia].
  - destruct (IH (4 + n)%nat) as (Hpos & Hlen & Hnth).
    assert (E : generate_many self (S count) rnd n
                = ((cases_text (equation_text (rnd n) (rnd (1 + n)%nat))
                               (equation_text (rnd (2 + n)%nat) (rnd (3 + n)%nat)),
                    "(x=1, y=1)") :: fst (generate_many self count rnd (4 + n)%nat),
                   snd (generate_many self count rnd (4 + n)%nat))).
    { cbn [generate_many]. unfold bind, ret. rewrite generate_equation_spec.
      now destruct (generate_many self count rnd (4 + n)%nat). }
    unfold r. rewrite E. cbn [fst snd List.length].
    split; [lia|]. split; [lia|].
    assert (Hr : forall a b : nat, a = b -> rnd a = rnd b) by (intros; now subst).
    intros [|i] Hi.
    + cbn [nth_error].
      rewrite (Hr (n + 4 * 0)%nat n), (Hr (n + 4 * 0 + 1)%nat (1 + n)%nat),
        (Hr (n + 4 * 0 + 2)%nat (2 + n)%nat), (Hr (n + 4 * 0 + 3)%nat (3 + n)%nat) by lia.
      reflexivity.
    + cbn [nth_error]. rewrite Hnth by lia.
      rewrite (Hr (n + 4 * S i)%nat (4 + n + 4 * i)%nat),
        (Hr (n + 4 * S i + 1)%nat (4 + n + 4 * i + 1)%nat),
        (Hr (n + 4 * S i + 2)%nat (4 + n + 4 * i + 2)%nat),
        (Hr (n + 4 * S i + 3)%nat (4 + n + 4 * i + 3)%nat) by lia.
      reflexivity.
Qed.

(** X15.  [generate_page] raises [KeyError] without drawing a number when the
    configuration has no [equations_per_page]; otherwise it returns that many
    systems (none for a count of zero or less), using four draws for each.
    Every system is [ax + by = a + b], [cx + dy = c + d] for its four draws,
    and the answer given is always [(x=1, y=1)]. *)
Theorem generate_page_spec (self : MathGenerator) (rnd : Source) (n : nat) :
  (lookup "equations_per_page" (config self) = None ->
   generate_page self rnd n = (KeyError "equations_per_page", n)) /\
  (forall count,
     lookup "equations_per_page" (config self) = Some count ->
     exists equations,
       generate_page self rnd n = (Ok equations, (n + 4 * Z.to_nat count)%nat) /\
       List.length equations = Z.to_nat count /\
       forall i, (i < Z.to_nat count)%nat ->
         nth_error equations i
         = Some (cases_text
                   (equation_text (rnd (n + 4 * i)%nat) (rnd (n + 4 * i + 1)%nat))
                   (equation_text (rnd (n + 4 * i + 2)%nat) (rnd (n + 4 * i + 3)%nat)),
                 "(x=1, y=1)")).
Proof.
  unfold generate_page. split.
  - intros ->. reflexivity.
  - intros count ->. unfold bind, ret.
    destruct (generate_many_spec self rnd (Z.to_nat count) n) as (Hpos & Hlen & Hnth).
    destruct (generate_many self (Z.to_nat count) rnd n) as [equations n'].
    cbn [fst snd] in *. subst n'. exists equations. repeat split; assumption.
Qed.

Lemma generate_page_spec_witness :
  lookup "equations_per_page" (config (init [("equations_per_page", 2)])) = Some 2 /\
  exists equations,
    generate_page (init [("equations_per_page", 2)]) (fun _ => 3) 0%nat
    = (Ok equations, (0 + 4 * Z.to_nat 2)%nat) /\
    List.length equations = Z.to_nat 2.
Proof.
  split; [reflexivity|].
  destruct (proj2 (generate_page_spec (init [("equations_per_page", 2)]) (fun _ => 3) 0%nat)
              2 eq_refl) as (equations & H1 & H2 & _).
  exists equations. split; assumption.
Defined.

End MathGenFacts.
